(** * Blob containers: application catalog, binary catalog, user data store

    A shallow embedding of the container engine of [blob-creation-tool]:
    - [app-blob/app_blob_manager.py]   (module [Manager]),
    - [app-blob/app_blob_cli.py]       (module [Cli], the loop of [cmd_verify]),
    - [app-blob/app-blob-builder.py]   (module [AppBuilder]),
    - [binary-blob/binary-blob-builder.py] (module [Binary]),
    - [userdata-blob/userdata-blob-builder.py] (module [UserData]).

    Python objects are modelled by explicit state passing: a builder is a
    record with its index (an insertion-ordered dictionary), its [BytesIO]
    payload buffer and its write cursor; a method returns the new state next
    to its result.  The libraries the code calls ([tarfile], [zlib],
    [hashlib], the native byte order of [struct]) are the fields of the class
    [Platform]; [json.dumps]/[json.loads] are modelled on the integer
    fragment of JSON the containers use. *)

From Stdlib Require Import ZArith Ascii String List Lia Bool.
From Stdlib Require Import Numbers.DecimalString DecimalPos.
From stdpp Require Import base decidable option list gmap strings.

Local Open Scope string_scope.
Local Open Scope list_scope.
Local Open Scope Z_scope.

Abbreviation bytes := (list Byte.byte).

(** ** Bytes and strings *)

#[global] Instance byte_eq_dec : EqDecision Byte.byte := Byte.byte_eq_dec.

(** [s.encode('utf-8')] for a string of ASCII characters, and the inverse
    reading of a byte string as text. *)
Definition encode (s : string) : bytes := String.list_byte_of_string s.
Definition decode (b : bytes) : string := String.string_of_list_byte b.

Definition byte_of_Z (z : Z) : Byte.byte :=
  match Byte.of_N (Z.to_N (z mod 256)) with
  | Some b => b
  | None => Byte.x00
  end.

Definition Z_of_byte (b : Byte.byte) : Z := Z.of_N (Byte.to_N b).

(** [len(x)] as a Python integer. *)
Definition len {A} (l : list A) : Z := Z.of_nat (length l).

(** ** [struct.pack] / [struct.unpack] in native mode *)

Inductive byteorder := LittleEndian | BigEndian.

(** The [n] low-order bytes of [z], least significant first. *)
Fixpoint le_bytes (n : nat) (z : Z) : bytes :=
  match n with
  | O => []
  | S n' => byte_of_Z z :: le_bytes n' (z / 256)
  end.

Fixpoint le_value (b : bytes) : Z :=
  match b with
  | [] => 0
  | x :: b' => Z_of_byte x + 256 * le_value b'
  end.

Definition ordered (bo : byteorder) (b : bytes) : bytes :=
  match bo with LittleEndian => b | BigEndian => rev b end.

(** [struct.pack(fmt, z)] for an unsigned field of [n] bytes: [None] is
    [struct.error] (argument out of range). *)
Definition struct_pack (bo : byteorder) (n : nat) (z : Z) : option bytes :=
  if (0 <=? z) && (z <? 2 ^ (8 * Z.of_nat n))
  then Some (ordered bo (le_bytes n z))
  else None.

(** [struct.unpack(fmt, b)[0]]: [None] when [b] has not exactly [n] bytes. *)
Definition struct_unpack (bo : byteorder) (n : nat) (b : bytes) : option Z :=
  if decide (length b = n) then Some (le_value (ordered bo b)) else None.

Definition pack_H bo := struct_pack bo 2.
Definition pack_I bo := struct_pack bo 4.
Definition unpack_H bo := struct_unpack bo 2.
Definition unpack_I bo := struct_unpack bo 4.

(** ** [io.BytesIO] *)

(** A buffer with a stream position.  [BytesIO()] starts empty;
    [BytesIO(initial)] holds [initial] with the position at 0. *)
Record BytesIO := mkBytesIO { getvalue : bytes; tell : nat }.

Definition BytesIO_new : BytesIO := mkBytesIO [] 0.
Definition BytesIO_of (initial : bytes) : BytesIO := mkBytesIO initial 0.

(** [buf.write(data)]: overwrite from the position on, zero-filling a gap
    and growing the buffer as needed; the position moves past the data. *)
Definition bio_write (b : BytesIO) (data : bytes) : BytesIO :=
  let pos := tell b in
  let old := getvalue b in
  let head := take pos old ++ replicate (pos - length old)%nat Byte.x00 in
  mkBytesIO (head ++ data ++ drop (pos + length data)%nat old)
            (pos + length data)%nat.

(** ** Python dictionaries with string keys *)

(** Insertion-ordered, keys unique: assignment to an existing key replaces
    the value in place, a new key goes to the end. *)
Abbreviation dict V := (list (string * V)).

Section Dict.
Context {V : Type}.

Fixpoint dict_get (d : dict V) (k : string) : option V :=
  match d with
  | [] => None
  | (k', v) :: d' => if decide (k' = k) then Some v else dict_get d' k
  end.

Definition dict_in (k : string) (d : dict V) : bool :=
  match dict_get d k with Some _ => true | None => false end.

Fixpoint dict_set (d : dict V) (k : string) (v : V) : dict V :=
  match d with
  | [] => [(k, v)]
  | (k', v') :: d' =>
      if decide (k' = k) then (k, v) :: d' else (k', v') :: dict_set d' k v
  end.

(** [del d[k]] on a present key: no entry for [k] remains ([KeyError]
    on an absent key is never reached here, every [del] of the code is
    guarded by a membership test). *)
Definition dict_del (d : dict V) (k : string) : dict V :=
  filter (λ kv, kv.1 ≠ k) d.

Definition dict_keys (d : dict V) : list string := d.*1.
Definition dict_values (d : dict V) : list V := d.*2.
End Dict.

(** ** JSON *)

#[local] Set Warnings "-register-all".

(** The values the index blocks are made of.  Numbers are integers (no
    code path of the builders produces a float). *)
Inductive json :=
| JNull
| JBool (b : bool)
| JInt (z : Z)
| JStr (s : string)
| JList (l : list json)
| JDict (d : list (string * json)).

Definition string_of_Z (z : Z) : string := NilZero.string_of_int (Z.to_int z).

Definition hex_digit (n : Z) : ascii :=
  ascii_of_nat (Z.to_nat (if n <? 10 then 48 + n else 87 + n)).

Definition dquote : ascii := "034"%char.
Definition backslash : ascii := "092"%char.

(** [json.dumps] escapes (the default [ensure_ascii=True]), for the code
    points below 256 that a [string] carries. *)
Definition json_escape_char (c : ascii) : string :=
  let n := Z.of_nat (nat_of_ascii c) in
  if n =? 34 then String backslash (String dquote EmptyString)
  else if n =? 92 then String backslash (String backslash EmptyString)
  else if n =? 10 then "\n"
  else if n =? 13 then "\r"
  else if n =? 9 then "\t"
  else if n =? 8 then "\b"
  else if n =? 12 then "\f"
  else if (32 <=? n) && (n <=? 126) then String c EmptyString
  else String backslash
         ("u00" +:+ String (hex_digit (n / 16))
                      (String (hex_digit (n mod 16)) EmptyString)).

Fixpoint json_escape (s : string) : string :=
  match s with
  | EmptyString => EmptyString
  | String c s' => json_escape_char c +:+ json_escape s'
  end.

Definition json_quote (s : string) : string :=
  String dquote (json_escape s +:+ String dquote EmptyString).

Definition newline : ascii := "010"%char.

Fixpoint spaces (n : nat) : string :=
  match n with O => EmptyString | S n' => String " " (spaces n') end.

(** The line break and indentation [json.dumps(..., indent=2)] puts before
    an item at nesting depth [lvl]. *)
Definition newline_indent (lvl : nat) : string :=
  String newline (spaces (2 * lvl)).

(** [json.dumps(v, indent=2)] at nesting depth [lvl]: empty containers are
    [[]] and [{}]; the items of a non-empty one stand on their own lines,
    separated by [,], with [": "] after a key. *)
Fixpoint dumps_at (lvl : nat) (v : json) : string :=
  match v with
  | JNull => "null"
  | JBool true => "true"
  | JBool false => "false"
  | JInt z => string_of_Z z
  | JStr s => json_quote s
  | JList [] => "[]"
  | JList (x :: l) =>
      "[" +:+ newline_indent (S lvl) +:+ dumps_at (S lvl) x +:+
      (fix items (l : list json) : string :=
         match l with
         | [] => EmptyString
         | y :: l' =>
             "," +:+ newline_indent (S lvl) +:+ dumps_at (S lvl) y +:+ items l'
         end) l +:+
      newline_indent lvl +:+ "]"
  | JDict [] => "{}"
  | JDict ((k, x) :: d) =>
      "{" +:+ newline_indent (S lvl) +:+ json_quote k +:+ ": " +:+
      dumps_at (S lvl) x +:+
      (fix items (d : list (string * json)) : string :=
         match d with
         | [] => EmptyString
         | (k', y) :: d' =>
             "," +:+ newline_indent (S lvl) +:+ json_quote k' +:+ ": " +:+
             dumps_at (S lvl) y +:+ items d'
         end) d +:+
      newline_indent lvl +:+ "}"
  end.

Definition json_dumps (v : json) : string := dumps_at 0 v.

(** *** [json.loads]

    A recursive-descent reader of the same fragment: integers only,
    strings of code points below 256.  [None] stands for the exception
    Python raises on malformed text (and for text outside the fragment). *)

Definition is_ws (c : ascii) : bool :=
  let n := nat_of_ascii c in
  (n =? 32)%nat || (n =? 9)%nat || (n =? 10)%nat || (n =? 13)%nat.

Fixpoint skip_ws (s : string) : string :=
  match s with
  | String c s' => if is_ws c then skip_ws s' else s
  | EmptyString => s
  end.

Definition digit_val (c : ascii) : option Z :=
  let n := Z.of_nat (nat_of_ascii c) in
  if (48 <=? n) && (n <=? 57) then Some (n - 48) else None.

Definition hex_val (c : ascii) : option Z :=
  let n := Z.of_nat (nat_of_ascii c) in
  if (48 <=? n) && (n <=? 57) then Some (n - 48)
  else if (97 <=? n) && (n <=? 102) then Some (n - 87)
  else if (65 <=? n) && (n <=? 70) then Some (n - 55)
  else None.

Fixpoint parse_digits (acc : Z) (s : string) : Z * string :=
  match s with
  | String c s' =>
      match digit_val c with
      | Some d => parse_digits (10 * acc + d) s'
      | None => (acc, s)
      end
  | EmptyString => (acc, s)
  end.

(** What may not follow the integer part of a number in this fragment: a
    further digit (a leading zero) or a fraction or exponent mark. *)
Definition number_continues (s : string) : bool :=
  match s with
  | String c _ =>
      let n := nat_of_ascii c in
      bool_decide (is_Some (digit_val c)) ||
      (n =? 46)%nat || (n =? 101)%nat || (n =? 69)%nat
  | EmptyString => false
  end.

Definition parse_nat_part (s : string) : option (Z * string) :=
  match s with
  | String c s' =>
      match digit_val c with
      | Some 0 => if number_continues s' then None else Some (0, s')
      | Some d =>
          let '(z, r) := parse_digits d s' in
          if number_continues r then None else Some (z, r)
      | None => None
      end
  | EmptyString => None
  end.

Definition parse_int (s : string) : option (Z * string) :=
  match s with
  | String "-" s' =>
      match parse_nat_part s' with
      | Some (z, r) => Some (- z, r)
      | None => None
      end
  | _ => parse_nat_part s
  end.

Definition parse_u_escape (s : string) : option (ascii * string) :=
  match s with
  | String a (String b (String c (String d r))) =>
      match hex_val a, hex_val b, hex_val c, hex_val d with
      | Some 0, Some 0, Some x, Some y =>
          Some (ascii_of_nat (Z.to_nat (16 * x + y)), r)
      | _, _, _, _ => None
      end
  | _ => None
  end.

(** The body of a string literal, after its opening quote.  Raw control
    characters and non-ASCII bytes are refused. *)
Fixpoint parse_string_body (fuel : nat) (s : string) : option (string * string) :=
  match fuel with
  | O => None
  | S fuel' =>
      let continue (x : ascii) (r : string) :=
        match parse_string_body fuel' r with
        | Some (t, r') => Some (String x t, r')
        | None => None
        end in
      match s with
      | EmptyString => None
      | String c s' =>
          let n := nat_of_ascii c in
          if (n =? 34)%nat then Some (EmptyString, s')
          else if (n =? 92)%nat then
            match s' with
            | String e s'' =>
                let m := nat_of_ascii e in
                if (m =? 34)%nat then continue dquote s''
                else if (m =? 92)%nat then continue backslash s''
                else if (m =? 47)%nat then continue "/"%char s''
                else if (m =? 98)%nat then continue "008"%char s''
                else if (m =? 102)%nat then continue "012"%char s''
                else if (m =? 110)%nat then continue "010"%char s''
                else if (m =? 114)%nat then continue "013"%char s''
                else if (m =? 116)%nat then continue "009"%char s''
                else if (m =? 117)%nat then
                  match parse_u_escape s'' with
                  | Some (x, r) => continue x r
                  | None => None
                  end
                else None
            | EmptyString => None
            end
          else if (n <? 32)%nat || (126 <? n)%nat then None
          else continue c s'
      end
  end.

Definition parse_string (s : string) : option (string * string) :=
  match s with
  | String c s' =>
      if (nat_of_ascii c =? 34)%nat
      then parse_string_body (String.length s') s'
      else None
  | EmptyString => None
  end.

Definition strip_prefix (p s : string) : option string :=
  if String.prefix p s
  then Some (String.substring (String.length p) (String.length s - String.length p) s)
  else None.

Section ParseContainers.
(** The reader of one value, as the readers of lists and objects use it. *)
Variable parse_value : string -> option (json * string).

(** Items of a list after the first, up to the closing bracket. *)
Fixpoint parse_items (fuel : nat) (acc : list json) (s : string)
  : option (json * string) :=
  match fuel with
  | O => None
  | S fuel' =>
      match skip_ws s with
      | String "]" r => Some (JList (rev acc), r)
      | String "," r =>
          match parse_value r with
          | Some (v, r') => parse_items fuel' (v :: acc) r'
          | None => None
          end
      | _ => None
      end
  end.

Definition parse_member (s : string) : option (string * json * string) :=
  match parse_string (skip_ws s) with
  | Some (k, r) =>
      match skip_ws r with
      | String ":" r' =>
          match parse_value r' with
          | Some (v, r'') => Some (k, v, r'')
          | None => None
          end
      | _ => None
      end
  | None => None
  end.

(** Members of an object after the first; a repeated key keeps its place
    and takes the later value, as assignment into a Python [dict] does. *)
Fixpoint parse_members (fuel : nat) (acc : dict json) (s : string)
  : option (json * string) :=
  match fuel with
  | O => None
  | S fuel' =>
      match skip_ws s with
      | String "}" r => Some (JDict acc, r)
      | String "," r =>
          match parse_member r with
          | Some (k, v, r') => parse_members fuel' (dict_set acc k v) r'
          | None => None
          end
      | _ => None
      end
  end.
End ParseContainers.

Fixpoint parse_value (fuel : nat) (s : string) : option (json * string) :=
  match fuel with
  | O => None
  | S fuel' =>
      let s := skip_ws s in
      match s with
      | String "[" r =>
          match skip_ws r with
          | String "]" r' => Some (JList [], r')
          | _ =>
              match parse_value fuel' r with
              | Some (v, r') =>
                  parse_items (parse_value fuel') (String.length r') [v] r'
              | None => None
              end
          end
      | String "{" r =>
          match skip_ws r with
          | String "}" r' => Some (JDict [], r')
          | _ =>
              match parse_member (parse_value fuel') r with
              | Some (k, v, r') =>
                  parse_members (parse_value fuel') (String.length r') [(k, v)] r'
              | None => None
              end
          end
      | String c _ =>
          if (nat_of_ascii c =? 34)%nat then
            match parse_string s with
            | Some (t, r) => Some (JStr t, r)
            | None => None
            end
          else
            match strip_prefix "null" s, strip_prefix "true" s,
                  strip_prefix "false" s with
            | Some r, _, _ => Some (JNull, r)
            | _, Some r, _ => Some (JBool true, r)
            | _, _, Some r => Some (JBool false, r)
            | _, _, _ =>
                match parse_int s with
                | Some (z, r) => Some (JInt z, r)
                | None => None
                end
            end
      | EmptyString => None
      end
  end.

(** [json.loads(text)]: one value, then nothing but white space. *)
Definition json_loads (text : string) : option json :=
  match parse_value (S (String.length text)) text with
  | Some (v, r) =>
      match skip_ws r with
      | EmptyString => Some v
      | _ => None
      end
  | None => None
  end.

(** ** Well-formed values and the parts of the printed text *)

(** The items after the first of a printed list, and the members after
    the first of a printed object, at nesting depth [lvl]. *)
Fixpoint list_items (lvl : nat) (l : list json) : string :=
  match l with
  | [] => EmptyString
  | y :: l' => "," +:+ newline_indent lvl +:+ dumps_at lvl y +:+ list_items lvl l'
  end.

Fixpoint dict_items (lvl : nat) (d : list (string * json)) : string :=
  match d with
  | [] => EmptyString
  | (k, y) :: d' =>
      "," +:+ newline_indent lvl +:+ json_quote k +:+ ": " +:+
      dumps_at lvl y +:+ dict_items lvl d'
  end.

(** The values a Python [dict] can give: no object has a key twice. *)
Fixpoint json_wf (v : json) : Prop :=
  match v with
  | JList l =>
      (fix all (l : list json) : Prop :=
         match l with [] => True | x :: l' => json_wf x ∧ all l' end) l
  | JDict d =>
      NoDup d.*1 ∧
      (fix all (d : list (string * json)) : Prop :=
         match d with [] => True | kv :: d' => json_wf kv.2 ∧ all d' end) d
  | _ => True
  end.
(** What a printed value starts with. *)
Definition value_start (c : ascii) : Prop :=
  c = "["%char ∨ c = "{"%char ∨ c = dquote ∨ c = "n"%char ∨ c = "t"%char ∨
  c = "f"%char ∨ c = "-"%char ∨ is_Some (digit_val c).

(** ** The world outside the program *)

(** A source tree as the builders observe it: the regular files below the
    source path in [os.walk] order, each with its path relative to the
    source path, its contents and whether [os.access(_, os.X_OK)] holds.  A
    source path may also name a single regular file, which [os.walk] does
    not enter. *)
Record src_file := mkFile { f_path : string; f_data : bytes; f_exec : bool }.

Inductive source :=
| SrcDir (fs : list src_file)
| SrcFile (data : bytes).

Definition os_walk (src : source) : list src_file :=
  match src with SrcDir fs => fs | SrcFile _ => [] end.

(** The file system at the time of a call: [None] when
    [os.path.exists(path)] is false. *)
Definition filesystem := string -> option source.

(** Library calls whose results the containers carry but whose algorithms
    are not part of this program. *)
Class Platform := {
  (** byte order of [struct.pack('H', _)] and [struct.pack('I', _)] *)
  native_order : byteorder;
  (** [tarfile.open(mode='w')], [tar.add(path, arcname=arcname)], the bytes
      of the archive *)
  tar_pack : string -> source -> bytes;
  (** whether [tarfile.open(mode='r')] and [extractall] accept the bytes *)
  tar_readable : bytes -> bool;
  (** [zlib.compress(data, level=6)] *)
  zlib_compress : bytes -> bytes;
  (** [zlib.decompress(data)]; [None] is [zlib.error] *)
  zlib_decompress : bytes -> option bytes;
  (** [hashlib.sha256(data).hexdigest()] *)
  sha256_hexdigest : bytes -> string;
}.

(** Exceptions that leave a method. *)
Inductive exn :=
| FileNotFoundError | OSError | ValueError | KeyError | TypeError
| AttributeError | ZlibError | TarError | StructError.

Inductive result (A : Type) :=
| Ret (a : A)
| Raise (e : exn).
Arguments Ret {A} a.
Arguments Raise {A} e.

(** What [build()] leaves at the output path: the whole container, or the
    bytes written before [struct.pack] raised. *)
Inductive build_result :=
| Written (file : bytes)
| WriteFailed (partial : bytes).

(** [f.seek(pos); f.read(n)] on a file opened ['rb']: a negative position is
    [OSError], a length below -1 is [ValueError], -1 reads to the end, and a
    read past the end is short. *)
Definition seek_read (file : bytes) (pos n : Z) : result bytes :=
  if pos <? 0 then Raise OSError
  else if n <? -1 then Raise ValueError
  else
    let rest := drop (Z.to_nat pos) file in
    Ret (if n =? -1 then rest else take (Z.to_nat n) rest).

(** [os.path.join(a, b)] on POSIX. *)
Definition starts_with_slash (s : string) : bool :=
  match s with String c _ => (nat_of_ascii c =? 47)%nat | EmptyString => false end.

Fixpoint ends_with_slash (s : string) : bool :=
  match s with
  | EmptyString => false
  | String c EmptyString => (nat_of_ascii c =? 47)%nat
  | String _ s' => ends_with_slash s'
  end.

Definition path_join (a b : string) : string :=
  if starts_with_slash b then b
  else if bool_decide (a = EmptyString) || ends_with_slash a then a +:+ b
  else a +:+ "/" +:+ b.

(** What an extraction does to the destination file system, in order. *)
Inductive fs_op :=
| Makedirs (path : string)
| ExtractAll (path : string) (tar_data : bytes).

Definition sum_Z (l : list Z) : Z := foldr Z.add 0 l.

(** ** Dependency resolution

    The loop shared by [AppBlobExtractor.resolve_dependencies] and
    [BinaryBlobBuilder.resolve_dependencies]: [lookup key] is [None] when
    [key] is not in the index and the entry's dependency list otherwise.
    [resolved] is the Python [set], [to_process] the work list, [warned]
    the keys a warning was printed for, in order.  One unit of [fuel] is one
    iteration of the [while]. *)
Section Resolve.
Variable lookup : string -> option (list string).

Fixpoint resolve_loop (fuel : nat) (resolved : gset string)
    (warned : list string) (to_process : list string)
  : option (gset string * list string) :=
  match to_process with
  | [] => Some (resolved, warned)
  | key :: rest =>
      match fuel with
      | O => None
      | S fuel' =>
          if decide (key ∈ resolved) then
            resolve_loop fuel' resolved warned rest
          else
            match lookup key with
            | None => resolve_loop fuel' resolved (warned ++ [key]) rest
            | Some deps =>
                let resolved' := resolved ∪ {[ key ]} in
                resolve_loop fuel' resolved' warned
                  (rest ++ filter (λ dep, dep ∉ resolved') deps)
            end
      end
  end.

(** The keys resolution is to find: the requested keys that are in the
    index, and the dependencies in the index of keys already found. *)
Inductive reaches (keys : list string) : string → Prop :=
| reaches_key k deps :
    k ∈ keys → lookup k = Some deps → reaches keys k
| reaches_dep k deps d deps' :
    reaches keys k → lookup k = Some deps → d ∈ deps →
    lookup d = Some deps' → reaches keys d.
End Resolve.

(** Iterations that always suffice: every requested key is popped once,
    and every dependency of an entry is pushed at most once, when the entry
    joins [resolved]. *)
Definition resolve_bound (deps_lists : list (list string)) (keys : list string) : nat :=
  length keys + length (concat deps_lists).

(** Dependencies that may still be pushed: those of the entries whose
    key is not resolved yet. *)
Definition pending (es : list (string * list string)) (resolved : gset string) : nat :=
  length (concat ((filter (λ e, e.1 ∉ resolved) es).*2)).

(** What holds of [resolved] and [to_process] at every iteration of the
    loop, for the request [keys]. *)
Record resolve_invariant (lookup : string → option (list string))
    (keys : list string) (resolved : gset string) (to_process : list string)
  : Prop := {
  inv_sound : ∀ k, k ∈ resolved → reaches lookup keys k;
  inv_work : ∀ k, k ∈ to_process → is_Some (lookup k) → reaches lookup keys k;
  inv_keys : ∀ k, k ∈ keys → is_Some (lookup k) →
                  k ∈ resolved ∨ k ∈ to_process;
  inv_closed : ∀ k deps d,
      k ∈ resolved → lookup k = Some deps → d ∈ deps → is_Some (lookup d) →
      d ∈ resolved ∨ d ∈ to_process;
}.

(** The resolver of an index given by its [entries]: the loop, run with the
    fuel [resolve_bound] gives, and [list(resolved)]. *)
Definition resolve_with (lookup : string → option (list string))
    (entries : list (string * list string)) (keys : list string)
  : option (list string * list string) :=
  prod_map elements id <$>
    resolve_loop lookup (resolve_bound (entries.*2) keys) ∅ [] keys.

(** ** Extraction of one entry

    The body the two [AppBlobExtractor.extract_application] methods share
    once the entry is found: read the slice, decompress, verify, and only
    then touch the destination.  The result pairs the returned value (or
    the exception) with what was done to the destination, in order. *)
Section Extract.
Context `{Platform}.

Definition extract_entry (file : bytes) (data_offset offset compressed_size : Z)
    (checksum app_key target_dir : string) (verify_checksum : bool)
  : result bool * list fs_op :=
  match seek_read file (data_offset + offset) compressed_size with
  | Raise e => (Raise e, [])
  | Ret compressed_data =>
      match zlib_decompress compressed_data with
      | None => (Ret false, [])
      | Some tar_data =>
          if verify_checksum &&
             negb (bool_decide (sha256_hexdigest tar_data = checksum))
          then (Ret false, [])
          else
            let app_dir := path_join target_dir app_key in
            let ops := [Makedirs app_dir; ExtractAll app_dir tar_data] in
            if tar_readable tar_data then (Ret true, ops)
            else (Raise TarError, ops)
      end
  end.

(** The slice of an entry is intact in [file]: it can be read, it
    decompresses, and the digest of the decompressed bytes is the stored
    checksum.  A corrupted slice is one that is not intact. *)
Definition slice_intact (file : bytes) (data_offset offset compressed_size : Z)
    (checksum : string) : Prop :=
  ∃ compressed_data tar_data,
    seek_read file (data_offset + offset) compressed_size = Ret compressed_data ∧
    zlib_decompress compressed_data = Some tar_data ∧
    sha256_hexdigest tar_data = checksum.
End Extract.

(** ** Typed fields of a JSON object *)

Definition get_str (d : dict json) (k : string) : option string :=
  match dict_get d k with Some (JStr s) => Some s | _ => None end.

Definition get_int (d : dict json) (k : string) : option Z :=
  match dict_get d k with Some (JInt z) => Some z | _ => None end.

Definition json_str (v : json) : option string :=
  match v with JStr s => Some s | _ => None end.

Definition get_strs (d : dict json) (k : string) : option (list string) :=
  match dict_get d k with Some (JList l) => mapM json_str l | _ => None end.

(** ** [app_blob_manager.py] *)
Module Manager.

Record AppMetadata := mkAppMetadata {
  key : string;
  name : string;
  version : string;
  size : Z;
  compressed_size : Z;
  offset : Z;
  dependencies : list string;
  files : list string;
  checksum : string;
}.

(** [dataclasses.asdict(meta)] *)
Definition asdict (m : AppMetadata) : json :=
  JDict [("key", JStr (key m)); ("name", JStr (name m));
         ("version", JStr (version m)); ("size", JInt (size m));
         ("compressed_size", JInt (compressed_size m));
         ("offset", JInt (offset m));
         ("dependencies", JList (JStr <$> dependencies m));
         ("files", JList (JStr <$> files m));
         ("checksum", JStr (checksum m))].

Record AppBlobBuilder := mkBuilder {
  output_path : string;
  apps : dict AppMetadata;
  blob_data : BytesIO;
  current_offset : Z;
}.

(** [AppBlobBuilder(output_path)] *)
Definition init (output_path : string) : AppBlobBuilder :=
  mkBuilder output_path [] BytesIO_new 0.

Definition MAGIC : bytes := encode "APPBLOB1".

Section WithPlatform.
Context `{Platform}.

(** [add_application]: there is no test of the key or of the path; a
    missing path makes [tar.add] raise before anything is changed. *)
Definition add_application (fs : filesystem) (b : AppBlobBuilder)
    (app_key app_name app_path version : string)
    (dependencies : list string) : result AppBlobBuilder :=
  match fs app_path with
  | None => Raise FileNotFoundError
  | Some src =>
      let tar_data := tar_pack "." src in
      let uncompressed_size := len tar_data in
      let compressed_data := zlib_compress tar_data in
      let compressed_size := len compressed_data in
      let checksum := sha256_hexdigest tar_data in
      let files := f_path <$> os_walk src in
      let blob_data' := bio_write (blob_data b) compressed_data in
      let metadata :=
        mkAppMetadata app_key app_name version uncompressed_size
          compressed_size (current_offset b) dependencies files checksum in
      Ret (mkBuilder (output_path b) (dict_set (apps b) app_key metadata)
             blob_data' (current_offset b + compressed_size))
  end.

Definition index_json (b : AppBlobBuilder) : json :=
  JDict [("version", JStr "1.0");
         ("apps", JDict (prod_map id asdict <$> apps b))].

(** [build]: magic, index size, index, payload; no version field. *)
Definition build (b : AppBlobBuilder) : build_result :=
  let index_bytes := encode (json_dumps (index_json b)) in
  let index_size := len index_bytes in
  match pack_I native_order index_size with
  | Some sz => Written (MAGIC ++ sz ++ index_bytes ++ getvalue (blob_data b))
  | None => WriteFailed MAGIC
  end.

(** The extractor: the index and the position the payload region starts
    at.  The blob file is read again on every extraction, so its current
    contents are an argument of the methods. *)
Record AppBlobExtractor := mkExtractor {
  blob_path : string;
  index : dict AppMetadata;
  data_offset : Z;
}.

(** An [AppMetadata] from the keyword arguments [meta_dict]: the object
    must have exactly the nine fields; a missing or an unexpected one is a [TypeError].  The model
    also asks each value to have the type the dataclass declares. *)
Definition AppMetadata_of_json (v : json) : option AppMetadata :=
  match v with
  | JDict d =>
      if bool_decide (length d = 9%nat) then
        key ← get_str d "key";
        name ← get_str d "name";
        version ← get_str d "version";
        size ← get_int d "size";
        compressed_size ← get_int d "compressed_size";
        offset ← get_int d "offset";
        dependencies ← get_strs d "dependencies";
        files ← get_strs d "files";
        checksum ← get_str d "checksum";
        Some (mkAppMetadata key name version size compressed_size offset
                dependencies files checksum)
      else None
  | _ => None
  end.

(** The loop [for key, meta_dict in index_data['apps'].items()]. *)
Definition index_of_json (d : list (string * json)) : option (dict AppMetadata) :=
  foldl (λ acc kv, index ← acc; m ← AppMetadata_of_json kv.2;
                   Some (dict_set index kv.1 m))
        (Some []) d.

(** [AppBlobExtractor(blob_path)], that is [_load_index], on the bytes of
    the file: magic, index size, index; [data_offset] is [f.tell()] after
    the index was read. *)
Definition _load_index (blob_path : string) (file : bytes)
  : result AppBlobExtractor :=
  let magic := take 8 file in
  if negb (bool_decide (magic = MAGIC)) then Raise ValueError
  else
    match unpack_I native_order (take 4 (drop 8 file)) with
    | None => Raise StructError
    | Some index_size =>
        let index_bytes := take (Z.to_nat index_size) (drop 12 file) in
        match json_loads (decode index_bytes) with
        | None => Raise ValueError
        | Some (JDict index_data) =>
            match dict_get index_data "apps" with
            | None => Raise KeyError
            | Some (JDict apps) =>
                match index_of_json apps with
                | Some index =>
                    Ret (mkExtractor blob_path index (12 + len index_bytes))
                | None => Raise TypeError
                end
            | Some _ => Raise AttributeError
            end
        | Some _ => Raise TypeError
        end
    end.

Definition list_applications (ex : AppBlobExtractor) : list string :=
  dict_keys (index ex).

Definition lookup_deps (ex : AppBlobExtractor) (k : string)
  : option (list string) :=
  dependencies <$> dict_get (index ex) k.

(** [resolve_dependencies]: the resolved keys ([list(resolved)]) and the
    keys warned about. *)
Definition resolve_dependencies_fuel (fuel : nat) (ex : AppBlobExtractor)
    (app_keys : list string) : option (list string * list string) :=
  prod_map elements id <$>
    resolve_loop (lookup_deps ex) fuel ∅ [] app_keys.

Definition resolve_dependencies (ex : AppBlobExtractor)
    (app_keys : list string) : option (list string * list string) :=
  resolve_dependencies_fuel
    (resolve_bound (dependencies <$> dict_values (index ex)) app_keys)
    ex app_keys.

(** [extract_application]: the returned value or exception, and what
    was done to the destination. *)
Definition extract_application (ex : AppBlobExtractor) (file : bytes)
    (app_key target_dir : string) (verify_checksum : bool)
  : result bool * list fs_op :=
  match dict_get (index ex) app_key with
  | None => (Ret false, [])
  | Some metadata =>
      extract_entry file (data_offset ex) (offset metadata)
        (compressed_size metadata) (checksum metadata)
        app_key target_dir verify_checksum
  end.

(** The loop of [extract_applications] over [keys_to_extract]: each result
    goes into the [results] dictionary; an exception leaves the method at
    once, with what was done so far. *)
Fixpoint extract_loop (ex : AppBlobExtractor) (file : bytes)
    (target_dir : string) (verify_checksums : bool) (keys : list string)
    (results : dict bool) (ops : list fs_op)
  : result (dict bool) * list fs_op :=
  match keys with
  | [] => (Ret results, ops)
  | key :: rest =>
      match extract_application ex file key target_dir verify_checksums with
      | (Ret success, done) =>
          extract_loop ex file target_dir verify_checksums rest
            (dict_set results key success) (ops ++ done)
      | (Raise e, done) => (Raise e, ops ++ done)
      end
  end.

(** [extract_applications]; [None] only if the resolver ran out of fuel. *)
Definition extract_applications (ex : AppBlobExtractor) (file : bytes)
    (app_keys : list string) (target_dir : string)
    (resolve_deps verify_checksums : bool)
  : option (result (dict bool) * list fs_op) :=
  if resolve_deps then
    match resolve_dependencies ex app_keys with
    | Some (keys_to_extract, _) =>
        Some (extract_loop ex file target_dir verify_checksums keys_to_extract [] [])
    | None => None
    end
  else Some (extract_loop ex file target_dir verify_checksums app_keys [] []).

(** [extract_to_memory]: [None] for an unknown key, else the
    decompressed bytes. *)
Definition extract_to_memory (ex : AppBlobExtractor) (file : bytes)
    (app_key : string) : result (option bytes) :=
  match dict_get (index ex) app_key with
  | None => Ret None
  | Some metadata =>
      match seek_read file (data_offset ex + offset metadata)
              (compressed_size metadata) with
      | Raise e => Raise e
      | Ret compressed_data =>
          match zlib_decompress compressed_data with
          | None => Raise ZlibError
          | Some tar_data => Ret (Some tar_data)
          end
      end
  end.
End WithPlatform.
End Manager.

(** ** [app_blob_cli.py] *)
Module Cli.
Section WithPlatform.
Context `{Platform}.

(** The loop of [cmd_verify] over the keys of an opened blob: a key
    passes unless [extract_to_memory] raises.  The command returns 0
    when every key passed and 1 otherwise. *)
Definition verify_key (ex : Manager.AppBlobExtractor) (file : bytes)
    (k : string) : bool :=
  match Manager.extract_to_memory ex file k with
  | Ret _ => true
  | Raise _ => false
  end.

Definition cmd_verify (ex : Manager.AppBlobExtractor) (file : bytes) : Z :=
  if forallb (verify_key ex file) (Manager.list_applications ex)
  then 0 else 1.
(** [cmd_extract] on an opened blob: 1 if some extraction returned
    [False], 0 otherwise; an exception of the extraction leaves the
    command. *)
Definition cmd_extract (ex : Manager.AppBlobExtractor) (file : bytes)
    (app_keys : list string) (output : string) (no_deps no_verify : bool)
  : option (result Z * list fs_op) :=
  match Manager.extract_applications ex file app_keys output
          (negb no_deps) (negb no_verify) with
  | Some (Ret results, ops) =>
      Some (Ret (if forallb id (dict_values results) then 0 else 1), ops)
  | Some (Raise e, ops) => Some (Raise e, ops)
  | None => None
  end.

End WithPlatform.
End Cli.

(** ** [app-blob-builder.py] *)
Module AppBuilder.

Record AppMetadata := mkAppMetadata {
  key : string;
  name : string;
  version : string;
  size : Z;
  compressed_size : Z;
  offset : Z;
  dependencies : list string;
  files : list string;
  checksum : string;
  created_at : string;
}.

Definition asdict (m : AppMetadata) : json :=
  JDict [("key", JStr (key m)); ("name", JStr (name m));
         ("version", JStr (version m)); ("size", JInt (size m));
         ("compressed_size", JInt (compressed_size m));
         ("offset", JInt (offset m));
         ("dependencies", JList (JStr <$> dependencies m));
         ("files", JList (JStr <$> files m));
         ("checksum", JStr (checksum m));
         ("created_at", JStr (created_at m))].

Record AppBlobBuilder := mkBuilder {
  output_path : string;
  apps : dict AppMetadata;
  blob_data : BytesIO;
  current_offset : Z;
}.

Definition init (output_path : string) : AppBlobBuilder :=
  mkBuilder output_path [] BytesIO_new 0.

Definition MAGIC : bytes := encode "APPBLOB1".
Definition VERSION : Z := 1.

Section WithPlatform.
Context `{Platform}.

(** [add_application]: [False] for a missing path; no test of the key.
    [now] is [datetime.now().isoformat()]. *)
Definition add_application (fs : filesystem) (now : string)
    (b : AppBlobBuilder) (app_key app_name app_path version : string)
    (dependencies : list string) : bool * AppBlobBuilder :=
  match fs app_path with
  | None => (false, b)
  | Some src =>
      let tar_data := tar_pack "." src in
      let uncompressed_size := len tar_data in
      let compressed_data := zlib_compress tar_data in
      let compressed_size := len compressed_data in
      let checksum := sha256_hexdigest tar_data in
      let files := f_path <$> os_walk src in
      let blob_data' := bio_write (blob_data b) compressed_data in
      let metadata :=
        mkAppMetadata app_key app_name version uncompressed_size
          compressed_size (current_offset b) dependencies files checksum
          now in
      (true,
       mkBuilder (output_path b) (dict_set (apps b) app_key metadata)
         blob_data' (current_offset b + compressed_size))
  end.

Definition index_json (now : string) (b : AppBlobBuilder) : json :=
  JDict [("version", JInt VERSION);
         ("blob_type", JStr "applications");
         ("created_at", JStr now);
         ("apps", JDict (prod_map id asdict <$> apps b))].

(** [build]: magic, version, index size, index, payload. *)
Definition build (now : string) (b : AppBlobBuilder) : build_result :=
  let index_bytes := encode (json_dumps (index_json now b)) in
  let index_size := len index_bytes in
  match pack_H native_order VERSION with
  | None => WriteFailed MAGIC
  | Some ver =>
      match pack_I native_order index_size with
      | Some sz =>
          Written (MAGIC ++ ver ++ sz ++ index_bytes ++ getvalue (blob_data b))
      | None => WriteFailed (MAGIC ++ ver)
      end
  end.

Record AppBlobExtractor := mkExtractor {
  blob_path : string;
  index : dict AppMetadata;
  data_offset : Z;
}.

Definition extract_application (ex : AppBlobExtractor) (file : bytes)
    (app_key target_dir : string) (verify_checksum : bool)
  : result bool * list fs_op :=
  match dict_get (index ex) app_key with
  | None => (Ret false, [])
  | Some metadata =>
      extract_entry file (data_offset ex) (offset metadata)
        (compressed_size metadata) (checksum metadata)
        app_key target_dir verify_checksum
  end.
Definition list_applications (ex : AppBlobExtractor) : list string :=
  dict_keys (index ex).

Definition lookup_deps (ex : AppBlobExtractor) (k : string)
  : option (list string) :=
  dependencies <$> dict_get (index ex) k.

Definition resolve_dependencies_fuel (fuel : nat) (ex : AppBlobExtractor)
    (app_keys : list string) : option (list string * list string) :=
  prod_map elements id <$>
    resolve_loop (lookup_deps ex) fuel ∅ [] app_keys.

Definition resolve_dependencies (ex : AppBlobExtractor)
    (app_keys : list string) : option (list string * list string) :=
  resolve_dependencies_fuel
    (resolve_bound (dependencies <$> dict_values (index ex)) app_keys)
    ex app_keys.

Fixpoint extract_loop (ex : AppBlobExtractor) (file : bytes)
    (target_dir : string) (verify_checksums : bool) (keys : list string)
    (results : dict bool) (ops : list fs_op)
  : result (dict bool) * list fs_op :=
  match keys with
  | [] => (Ret results, ops)
  | key :: rest =>
      match extract_application ex file key target_dir verify_checksums with
      | (Ret success, done) =>
          extract_loop ex file target_dir verify_checksums rest
            (dict_set results key success) (ops ++ done)
      | (Raise e, done) => (Raise e, ops ++ done)
      end
  end.

Definition extract_applications (ex : AppBlobExtractor) (file : bytes)
    (app_keys : list string) (target_dir : string)
    (resolve_deps verify_checksums : bool)
  : option (result (dict bool) * list fs_op) :=
  if resolve_deps then
    match resolve_dependencies ex app_keys with
    | Some (keys_to_extract, _) =>
        Some (extract_loop ex file target_dir verify_checksums keys_to_extract [] [])
    | None => None
    end
  else Some (extract_loop ex file target_dir verify_checksums app_keys [] []).

(** One turn of the loop of [verify_blob]: the key is valid when its slice
    is read, decompresses and has the stored checksum; every exception is
    caught and counts as invalid. *)
Definition verify_entry (ex : AppBlobExtractor) (file : bytes)
    (metadata : AppMetadata) : bool :=
  match seek_read file (data_offset ex + offset metadata)
          (compressed_size metadata) with
  | Ret compressed_data =>
      match zlib_decompress compressed_data with
      | Some tar_data =>
          bool_decide (sha256_hexdigest tar_data = checksum metadata)
      | None => false
      end
  | Raise _ => false
  end.

(** [verify_blob]: every key of the index is checked, [all_valid] is the
    conjunction. *)
Definition verify_blob (ex : AppBlobExtractor) (file : bytes) : bool :=
  forallb (λ key, match dict_get (index ex) key with
                  | Some metadata => verify_entry ex file metadata
                  | None => false
                  end)
          (dict_keys (index ex)).

(** [cmd_extract] and [cmd_verify] on an opened blob. *)
Definition cmd_extract (ex : AppBlobExtractor) (file : bytes)
    (app_keys : list string) (output : string) (no_deps no_verify : bool)
  : option (result Z * list fs_op) :=
  match extract_applications ex file app_keys output
          (negb no_deps) (negb no_verify) with
  | Some (Ret results, ops) =>
      Some (Ret (if forallb id (dict_values results) then 0 else 1), ops)
  | Some (Raise e, ops) => Some (Raise e, ops)
  | None => None
  end.

Definition cmd_verify (ex : AppBlobExtractor) (file : bytes) : Z :=
  if verify_blob ex file then 0 else 1.

(** An entry of the [applications] list of a configuration document. *)
Record app_config := mkAppConfig {
  ac_key : string;
  ac_name : option string;
  ac_path : string;
  ac_version : option string;
  ac_dependencies : option (list string);
}.

(** The loop of [build_from_config]: an entry whose path does not exist is
    skipped with a warning.  [clock n] is the [n]-th reading of
    [datetime.now().isoformat()]. *)
Fixpoint add_configured (fs : filesystem) (clock : nat → string) (tick : nat)
    (b : AppBlobBuilder) (config : list app_config)
  : nat * AppBlobBuilder :=
  match config with
  | [] => (tick, b)
  | c :: rest =>
      match fs (ac_path c) with
      | None => add_configured fs clock tick b rest
      | Some _ =>
          let '(_, b') :=
            add_application fs (clock tick) b (ac_key c)
              (default (ac_key c) (ac_name c)) (ac_path c)
              (default "1.0.0" (ac_version c))
              (default [] (ac_dependencies c)) in
          add_configured fs clock (S tick) b' rest
      end
  end.

Definition build_from_config (fs : filesystem) (clock : nat → string)
    (config : list app_config) (output_path : string)
  : AppBlobBuilder * build_result :=
  let '(tick, b) := add_configured fs clock 0 (init output_path) config in
  (b, build (clock tick) b).

(** An [AppMetadata] from the keyword arguments [meta_dict]: the object
    must have exactly the ten fields of the dataclass; a missing or an
    unexpected one is a [TypeError].  The model also asks each value to
    have the type the dataclass declares. *)
Definition AppMetadata_of_json (v : json) : option AppMetadata :=
  match v with
  | JDict d =>
      if bool_decide (length d = 10%nat) then
        key ← get_str d "key";
        name ← get_str d "name";
        version ← get_str d "version";
        size ← get_int d "size";
        compressed_size ← get_int d "compressed_size";
        offset ← get_int d "offset";
        dependencies ← get_strs d "dependencies";
        files ← get_strs d "files";
        checksum ← get_str d "checksum";
        created_at ← get_str d "created_at";
        Some (mkAppMetadata key name version size compressed_size offset
                dependencies files checksum created_at)
      else None
  | _ => None
  end.

(** The loop [for key, meta_dict in index_data['apps'].items()]. *)
Definition index_of_json (d : list (string * json)) : option (dict AppMetadata) :=
  foldl (λ acc kv, index ← acc; m ← AppMetadata_of_json kv.2;
                   Some (dict_set index kv.1 m))
        (Some []) d.

(** What [load_existing] and [_load_index] both do first: magic, version,
    index size and index are read and the entries converted.  The result
    is the index and the bytes of the index block that were there. *)
Definition read_index (file : bytes) : result (dict AppMetadata * bytes) :=
  let magic := take 8 file in
  if negb (bool_decide (magic = MAGIC)) then Raise ValueError
  else
    match unpack_H native_order (take 2 (drop 8 file)) with
    | None => Raise StructError
    | Some version =>
        if negb (version =? VERSION) then Raise ValueError
        else
          match unpack_I native_order (take 4 (drop 10 file)) with
          | None => Raise StructError
          | Some index_size =>
              let index_bytes := take (Z.to_nat index_size) (drop 14 file) in
              match json_loads (decode index_bytes) with
              | None => Raise ValueError
              | Some (JDict index_data) =>
                  match dict_get index_data "apps" with
                  | None => Raise KeyError
                  | Some (JDict apps) =>
                      match index_of_json apps with
                      | Some index => Ret (index, index_bytes)
                      | None => Raise TypeError
                      end
                  | Some _ => Raise AttributeError
                  end
              | Some _ => Raise TypeError
              end
          end
    end.

(** [AppBlobBuilder.load_existing(blob_path)] on the bytes of the file:
    the payload is everything after the index, in a [BytesIO] of its
    own. *)
Definition load_existing (blob_path : string) (file : bytes)
  : result AppBlobBuilder :=
  match read_index file with
  | Raise e => Raise e
  | Ret (index, index_bytes) =>
      let blob_data := drop (14 + length index_bytes) file in
      Ret (mkBuilder blob_path index (BytesIO_of blob_data) (len blob_data))
  end.

(** [AppBlobExtractor(blob_path)], that is [_load_index]: [data_offset]
    is [f.tell()] after the index was read. *)
Definition _load_index (blob_path : string) (file : bytes)
  : result AppBlobExtractor :=
  match read_index file with
  | Raise e => Raise e
  | Ret (index, index_bytes) =>
      Ret (mkExtractor blob_path index (14 + len index_bytes))
  end.

(** [cmd_add].  [existing] is the content of the file [args.blob] when
    that file exists, [name] the optional [--name], and [dependencies] the
    list the comma-separated [--dependencies] argument is split into.  The
    result is the exit code (or the exception that leaves the command) and
    what [build] wrote, when it was called; [now_add] and [now_build] are
    the readings of the clock in [add_application] and in [build]. *)
Definition cmd_add (fs : filesystem) (now_add now_build : string)
    (existing : option bytes) (blob key : string) (name : option string)
    (source version : string) (dependencies : list string)
  : result Z * option build_result :=
  match match existing with
        | Some file => load_existing blob file
        | None => Ret (init blob)
        end with
  | Raise e => (Raise e, None)
  | Ret builder =>
      let app_name :=
        match name with
        | Some n => if bool_decide (n = EmptyString) then key else n
        | None => key
        end in
      let '(success, builder') :=
        add_application fs now_add builder key app_name source version
          dependencies in
      if success then
        match build now_build builder' with
        | Written file => (Ret 0, Some (Written file))
        | WriteFailed partial => (Raise StructError, Some (WriteFailed partial))
        end
      else (Ret 1, None)
  end.

End WithPlatform.
End AppBuilder.

(** ** String tests used on file names *)

Definition ends_with (suffix s : string) : bool :=
  let n := String.length s in
  let m := String.length suffix in
  (m <=? n)%nat && bool_decide (String.substring (n - m) m s = suffix).

Definition contains (sub s : string) : bool :=
  match String.index 0 sub s with Some _ => true | None => false end.

(** The last component of a relative path. *)
Fixpoint basename_from (cur s : string) : string :=
  match s with
  | EmptyString => cur
  | String c s' =>
      if (nat_of_ascii c =? 47)%nat then basename_from EmptyString s'
      else basename_from (cur +:+ String c EmptyString) s'
  end.

Definition basename (s : string) : string := basename_from EmptyString s.

(** [', '.join(l)] and the like. *)
Fixpoint str_join (sep : string) (l : list string) : string :=
  match l with
  | [] => EmptyString
  | [x] => x
  | x :: l' => x +:+ sep +:+ str_join sep l'
  end.

(** [s * n] *)
Fixpoint str_repeat (s : string) (n : nat) : string :=
  match n with O => EmptyString | S n' => s +:+ str_repeat s n' end.

(** ** [binary-blob-builder.py] *)
Module Binary.

(** The metadata dictionary [add_binary] records.  [dependencies] is
    [None] for an entry without that key, which [resolve_dependencies]
    reads as the empty list. *)
Record BinaryMeta := mkBinaryMeta {
  key : string;
  version : string;
  description : string;
  size : Z;
  compressed_size : Z;
  offset : Z;
  checksum : string;
  provides : list string;
  executables : list string;
  libraries : list string;
  dependencies : option (list string);
  env_vars : dict string;
  architecture : string;
  os_type : string;
  created_at : string;
}.

Record BinaryBlobBuilder := mkBuilder {
  output_path : string;
  binaries : dict BinaryMeta;
  blob_data : BytesIO;
  current_offset : Z;
}.

Definition init (output_path : string) : BinaryBlobBuilder :=
  mkBuilder output_path [] BytesIO_new 0.

(** The keyword arguments of [add_binary] besides key and source. *)
Record add_args := mkArgs {
  a_provides : list string;
  a_version : string;
  a_description : string;
  a_env_vars : option (dict string);
  a_dependencies : option (list string);
  a_architecture : string;
  a_os_type : string;
}.

Definition is_executable (f : src_file) : bool :=
  f_exec f && negb (ends_with ".so" (basename (f_path f))).

Definition is_library (f : src_file) : bool :=
  ends_with ".so" (basename (f_path f)) || contains ".so." (basename (f_path f)).

Section WithPlatform.
Context `{Platform}.

Definition add_binary (fs : filesystem) (now : string)
    (b : BinaryBlobBuilder) (key source_path : string) (a : add_args)
  : bool * BinaryBlobBuilder :=
  if dict_in key (binaries b) then (false, b)
  else
    match fs source_path with
    | None => (false, b)
    | Some src =>
        let tar_data := tar_pack key src in
        let uncompressed_size := len tar_data in
        let compressed_data := zlib_compress tar_data in
        let compressed_size := len compressed_data in
        let checksum := sha256_hexdigest tar_data in
        let executables := f_path <$> filter (λ f, is_executable f = true) (os_walk src) in
        let libraries := f_path <$> filter (λ f, is_library f = true) (os_walk src) in
        let blob_data' := bio_write (blob_data b) compressed_data in
        let metadata :=
          mkBinaryMeta key (a_version a) (a_description a)
            uncompressed_size compressed_size (current_offset b) checksum
            (a_provides a) executables libraries
            (Some (default [] (a_dependencies a)))
            (default [] (a_env_vars a))
            (a_architecture a) (a_os_type a) now in
        (true,
         mkBuilder (output_path b) (dict_set (binaries b) key metadata)
           blob_data' (current_offset b + compressed_size))
    end.

Definition lookup_deps (b : BinaryBlobBuilder) (k : string)
  : option (list string) :=
  (λ m, default [] (dependencies m)) <$> dict_get (binaries b) k.

Definition resolve_dependencies_fuel (fuel : nat) (b : BinaryBlobBuilder)
    (keys : list string) : option (list string * list string) :=
  prod_map elements id <$> resolve_loop (lookup_deps b) fuel ∅ [] keys.

Definition resolve_dependencies (b : BinaryBlobBuilder)
    (keys : list string) : option (list string * list string) :=
  resolve_dependencies_fuel
    (resolve_bound ((λ m, default [] (dependencies m)) <$> dict_values (binaries b)) keys)
    b keys.
Definition MAGIC : bytes := encode "BINBLOB1".
Definition VERSION : Z := 1.

(** The metadata dictionary as [json.dumps] sees it, keys in the order
    [add_binary] writes them. *)
Definition meta_json (m : BinaryMeta) : json :=
  JDict ([("key", JStr (key m)); ("version", JStr (version m));
          ("description", JStr (description m)); ("size", JInt (size m));
          ("compressed_size", JInt (compressed_size m));
          ("offset", JInt (offset m)); ("checksum", JStr (checksum m));
          ("provides", JList (JStr <$> provides m));
          ("executables", JList (JStr <$> executables m));
          ("libraries", JList (JStr <$> libraries m))] ++
         match dependencies m with
         | Some deps => [("dependencies", JList (JStr <$> deps))]
         | None => []
         end ++
         [("env_vars", JDict (prod_map id JStr <$> env_vars m));
          ("architecture", JStr (architecture m));
          ("os_type", JStr (os_type m));
          ("created_at", JStr (created_at m))]).

Definition index_json (now : string) (b : BinaryBlobBuilder) : json :=
  JDict [("version", JInt VERSION);
         ("blob_type", JStr "binaries");
         ("created_at", JStr now);
         ("binary_count", JInt (len (binaries b)));
         ("binaries", JDict (prod_map id meta_json <$> binaries b))].

(** [build]: magic, version, index size, index, payload. *)
Definition build (now : string) (b : BinaryBlobBuilder) : build_result :=
  let index_bytes := encode (json_dumps (index_json now b)) in
  let index_size := len index_bytes in
  match pack_H native_order VERSION with
  | None => WriteFailed MAGIC
  | Some ver =>
      match pack_I native_order index_size with
      | Some sz =>
          Written (MAGIC ++ ver ++ sz ++ index_bytes ++ getvalue (blob_data b))
      | None => WriteFailed (MAGIC ++ ver)
      end
  end.

(** The loop over the dependencies in [show_dependency_tree]: [show] is the
    recursive call; the lines printed, and whether the loop completed. *)
Fixpoint show_deps (show : string → list string * bool) (deps : list string)
  : list string * bool :=
  match deps with
  | [] => ([], true)
  | dep :: rest =>
      let '(lines, completed) := show dep in
      if completed then
        let '(lines', completed') := show_deps show rest in
        (lines ++ lines', completed')
      else (lines, false)
  end.

(** [show_dependency_tree(key, indent)]: the lines printed, and whether
    the call returned.  [depth] is the number of nested calls the
    interpreter still allows; beyond it the call raises [RecursionError]. *)
Fixpoint show_dependency_tree (depth : nat) (b : BinaryBlobBuilder)
    (key : string) (indent : nat) : list string * bool :=
  match depth with
  | O => ([], false)
  | S depth' =>
      match dict_get (binaries b) key with
      | None =>
          ([str_repeat "  " indent +:+ "✗ " +:+ key +:+ " (not found)"], true)
      | Some meta =>
          let provides_str := str_join ", " (take 2 (provides meta)) in
          let line :=
            str_repeat "  " indent +:+ "• " +:+ key +:+ " v" +:+ version meta
            +:+ " [" +:+ provides_str +:+ "]" in
          let '(lines, completed) :=
            show_deps (λ dep, show_dependency_tree depth' b dep (S indent))
              (default [] (dependencies meta)) in
          (line :: lines, completed)
      end
  end.

(** An entry of the [binaries] list of a configuration document; the
    optional fields are those read with [.get]. *)
Record binary_config := mkBinaryConfig {
  bc_key : string;
  bc_source : string;
  bc_provides : option (list string);
  bc_version : option string;
  bc_description : option string;
  bc_env : option (dict string);
  bc_dependencies : option (list string);
  bc_architecture : option string;
  bc_os : option string;
}.

Definition config_args (c : binary_config) : add_args :=
  mkArgs (default [] (bc_provides c)) (default "1.0.0" (bc_version c))
    (default "" (bc_description c)) (Some (default [] (bc_env c)))
    (Some (default [] (bc_dependencies c)))
    (default "x86_64" (bc_architecture c)) (default "linux" (bc_os c)).

(** The loop of [build_from_config].  [clock n] is the [n]-th reading of
    [datetime.now().isoformat()]; every add that records an entry takes
    one. *)
Fixpoint add_configured (fs : filesystem) (clock : nat → string) (tick : nat)
    (b : BinaryBlobBuilder) (config : list binary_config)
  : nat * BinaryBlobBuilder :=
  match config with
  | [] => (tick, b)
  | c :: rest =>
      let '(added, b') :=
        add_binary fs (clock tick) b (bc_key c) (bc_source c) (config_args c) in
      add_configured fs clock (if added then S tick else tick) b' rest
  end.

(** [build_from_config]: the builder returned and the file written. *)
Definition build_from_config (fs : filesystem) (clock : nat → string)
    (config : list binary_config) (output_path : string)
  : BinaryBlobBuilder * build_result :=
  let '(tick, b) := add_configured fs clock 0 (init output_path) config in
  (b, build (clock tick) b).

End WithPlatform.
End Binary.

(** ** [userdata-blob-builder.py] *)
Module UserData.

(** A user's metadata is a dictionary of JSON values: [load_existing]
    takes it from the index as it is. *)
Abbreviation user_meta := (dict json).

Record UserDataBlobBuilder := mkBuilder {
  output_path : string;
  users : dict user_meta;
  blob_data : BytesIO;
  current_offset : Z;
}.

Definition init (output_path : string) : UserDataBlobBuilder :=
  mkBuilder output_path [] BytesIO_new 0.

Definition MAGIC : bytes := encode "USERBLOB".
Definition VERSION : Z := 1.

(** [meta.get('version', 1)] *)
Definition version_counter (meta : user_meta) : json :=
  default (JInt 1) (dict_get meta "version").

Definition file_json (f : src_file) : json :=
  JDict [("path", JStr (f_path f)); ("size", JInt (len (f_data f)))].

Definition opt_int (o : option Z) : json :=
  match o with Some z => JInt z | None => JNull end.

(** [old_version + 1] for a value read from the index: integers and
    booleans add, anything else is a [TypeError]. *)
Definition py_succ (v : json) : option json :=
  match v with
  | JInt z => Some (JInt (z + 1))
  | JBool b => Some (JInt (Z.b2z b + 1))
  | _ => None
  end.

Section WithPlatform.
Context `{Platform}.

(** [add_user]; [now1] and [now2] are the two readings of the clock for
    [created_at] and [updated_at]. *)
Definition add_user (fs : filesystem) (now1 now2 : string)
    (b : UserDataBlobBuilder) (user_id source_path description : string)
    (quota_mb : option Z) : bool * UserDataBlobBuilder :=
  if dict_in user_id (users b) then (false, b)
  else
    match fs source_path with
    | None => (false, b)
    | Some src =>
        let tar_data := tar_pack "." src in
        let uncompressed_size := len tar_data in
        let compressed_data := zlib_compress tar_data in
        let compressed_size := len compressed_data in
        let checksum := sha256_hexdigest tar_data in
        let file_count := len (os_walk src) in
        let files := file_json <$> os_walk src in
        let blob_data' := bio_write (blob_data b) compressed_data in
        let user_metadata : user_meta :=
          [("user_id", JStr user_id);
           ("description", JStr description);
           ("size", JInt uncompressed_size);
           ("compressed_size", JInt compressed_size);
           ("offset", JInt (current_offset b));
           ("file_count", JInt file_count);
           ("files", JList files);
           ("checksum", JStr checksum);
           ("quota_mb", opt_int quota_mb);
           ("created_at", JStr now1);
           ("updated_at", JStr now2);
           ("version", JInt 1)] in
        (true,
         mkBuilder (output_path b) (dict_set (users b) user_id user_metadata)
           blob_data' (current_offset b + compressed_size))
    end.

Definition del_user (b : UserDataBlobBuilder) (user_id : string)
  : UserDataBlobBuilder :=
  mkBuilder (output_path b) (dict_del (users b) user_id)
    (blob_data b) (current_offset b).

(** [update_user]: the result, and the builder as the call leaves it
    (also when it raises). *)
Definition update_user (fs : filesystem) (now1 now2 : string)
    (b : UserDataBlobBuilder) (user_id source_path mode : string)
  : result bool * UserDataBlobBuilder :=
  match dict_get (users b) user_id with
  | None => (Ret false, b)
  | Some meta =>
      if decide (mode = "replace") then
        match dict_get meta "offset", dict_get meta "compressed_size" with
        | Some old_offset, Some old_size =>
            let '(r, b') :=
              add_user fs now1 now2 (del_user b user_id) user_id
                source_path "" None in
            (Ret r, b')
        | _, _ => (Raise KeyError, b)
        end
      else if decide (mode = "merge") then
        let old_version := version_counter meta in
        let '(r, b') :=
          add_user fs now1 now2 (del_user b user_id) user_id
            source_path "" None in
        if r then
          match dict_get (users b') user_id, py_succ old_version with
          | Some meta', Some v =>
              (Ret true,
               mkBuilder (output_path b')
                 (dict_set (users b') user_id (dict_set meta' "version" v))
                 (blob_data b') (current_offset b'))
          | None, _ => (Raise KeyError, b')
          | _, None => (Raise TypeError, b')
          end
        else (Ret false, b')
      else (Ret false, b)
  end.

Definition remove_user (b : UserDataBlobBuilder) (user_id : string)
  : bool * UserDataBlobBuilder :=
  if dict_in user_id (users b) then (true, del_user b user_id)
  else (false, b).

Definition index_json (now : string) (b : UserDataBlobBuilder) : json :=
  JDict [("version", JInt VERSION);
         ("blob_type", JStr "userdata");
         ("created_at", JStr now);
         ("user_count", JInt (len (users b)));
         ("users", JDict (prod_map id JDict <$> users b))].

(** [build]: magic, version, index size, index, payload. *)
Definition build (now : string) (b : UserDataBlobBuilder) : build_result :=
  let index_bytes := encode (json_dumps (index_json now b)) in
  let index_size := len index_bytes in
  match pack_H native_order VERSION with
  | None => WriteFailed MAGIC
  | Some ver =>
      match pack_I native_order index_size with
      | Some sz =>
          Written (MAGIC ++ ver ++ sz ++ index_bytes ++ getvalue (blob_data b))
      | None => WriteFailed (MAGIC ++ ver)
      end
  end.

(** The [users] object of a parsed index.  The code stores the value
    unchecked; the model takes it as the type annotation has it,
    [Dict[str, dict]], and reports any other shape at once as the
    [TypeError] a later access would raise. *)
Fixpoint users_of_json (d : list (string * json)) : option (dict user_meta) :=
  match d with
  | [] => Some []
  | (k, JDict m) :: d' => (λ r, (k, m) :: r) <$> users_of_json d'
  | _ => None
  end.

(** [load_existing(blob_path)] on the bytes of the file. *)
Definition load_existing (blob_path : string) (file : bytes)
  : result UserDataBlobBuilder :=
  let magic := take 8 file in
  if negb (bool_decide (magic = MAGIC)) then Raise ValueError
  else
    match unpack_H native_order (take 2 (drop 8 file)) with
    | None => Raise StructError
    | Some version =>
        if negb (version =? VERSION) then Raise ValueError
        else
          match unpack_I native_order (take 4 (drop 10 file)) with
          | None => Raise StructError
          | Some index_size =>
              let index_bytes := take (Z.to_nat index_size) (drop 14 file) in
              match json_loads (decode index_bytes) with
              | None => Raise ValueError
              | Some (JDict index_data) =>
                  match dict_get index_data "users" with
                  | None => Raise KeyError
                  | Some (JDict us) =>
                      match users_of_json us with
                      | Some users =>
                          let blob_data := drop (14 + Z.to_nat index_size) file in
                          Ret (mkBuilder blob_path users
                                 (BytesIO_of blob_data) (len blob_data))
                      | None => Raise TypeError
                      end
                  | Some _ => Raise TypeError
                  end
              | Some _ => Raise TypeError
              end
          end
    end.
End WithPlatform.
End UserData.

(** ** A sample platform

    The theorems below hold for every [Platform].  To run the model on
    concrete inputs the examples use this one: the archive of a tree is the
    arcname followed by the paths and contents of its files, compression
    puts a two-byte header in front of the data, and the digest is the
    length and the byte sum of the data, in decimal. *)
Module Sample.

Definition tar (arcname : string) (src : source) : bytes :=
  encode arcname ++
  match src with
  | SrcDir fs => concat ((λ f, encode (f_path f) ++ f_data f) <$> fs)
  | SrcFile data => data
  end.

Definition compress (data : bytes) : bytes :=
  [Byte.x78; Byte.x9c] ++ data.

Definition decompress (data : bytes) : option bytes :=
  match data with
  | Byte.x78 :: Byte.x9c :: rest => Some rest
  | _ => None
  end.

Definition digest (data : bytes) : string :=
  string_of_Z (len data) +:+ "-" +:+ string_of_Z (sum_Z (Z_of_byte <$> data)).

Definition platform (bo : byteorder) : Platform :=
  {| native_order := bo;
     tar_pack := tar;
     tar_readable := λ _, true;
     zlib_compress := compress;
     zlib_decompress := decompress;
     sha256_hexdigest := digest |}.

(** A file system with two source trees. *)
Definition tree_a : source :=
  SrcDir [mkFile "bin/run" (encode "#!run") true;
          mkFile "README.md" (encode "hello") false].

Definition tree_b : source :=
  SrcDir [mkFile "lib/libz.so.1" (encode "ELF") true].

Definition fs : filesystem :=
  λ path,
    if decide (path = "/src/a") then Some tree_a
    else if decide (path = "/src/b") then Some tree_b
    else None.
End Sample.

(** ** Payload slices and builds by successive adds *)

(** Slices [(offset, compressed_size)] that follow one another from
    [start] on. *)
Fixpoint contiguous (start : Z) (l : list (Z * Z)) : Prop :=
  match l with
  | [] => True
  | (off, csz) :: l' => off = start ∧ contiguous (start + csz) l'
  end.

Module Builds.
Section WithPlatform.
Context `{Platform}.

(** The slices an application index records, in index order. *)
Definition manager_slices (b : Manager.AppBlobBuilder) : list (Z * Z) :=
  (λ m, (Manager.offset m, Manager.compressed_size m)) <$>
    dict_values (Manager.apps b).

(** Builders reached from a fresh one by calls of [add_application]
    that return. *)
Inductive manager_built : Manager.AppBlobBuilder → Prop :=
| manager_built_init p : manager_built (Manager.init p)
| manager_built_add fs b k n p v deps b' :
    manager_built b →
    Manager.add_application fs b k n p v deps = Ret b' →
    manager_built b'.

(** The same, each call with a key the index does not have yet. *)
Inductive manager_built_distinct : Manager.AppBlobBuilder → Prop :=
| manager_distinct_init p : manager_built_distinct (Manager.init p)
| manager_distinct_add fs b k n p v deps b' :
    manager_built_distinct b →
    dict_in k (Manager.apps b) = false →
    Manager.add_application fs b k n p v deps = Ret b' →
    manager_built_distinct b'.

Definition binary_slices (b : Binary.BinaryBlobBuilder) : list (Z * Z) :=
  (λ m, (Binary.offset m, Binary.compressed_size m)) <$>
    dict_values (Binary.binaries b).

(** Builders reached from a fresh one by calls of [add_binary] that
    return [True]. *)
Inductive binary_built : Binary.BinaryBlobBuilder → Prop :=
| binary_built_init p : binary_built (Binary.init p)
| binary_built_add fs now b k src a b' :
    binary_built b →
    Binary.add_binary fs now b k src a = (true, b') →
    binary_built b'.

(** The slice a user's metadata records. *)
Definition user_slice (m : UserData.user_meta) : option (Z * Z) :=
  match dict_get m "offset", dict_get m "compressed_size" with
  | Some (JInt off), Some (JInt csz) => Some (off, csz)
  | _, _ => None
  end.

Definition user_slices (b : UserData.UserDataBlobBuilder)
  : option (list (Z * Z)) :=
  mapM user_slice (dict_values (UserData.users b)).

(** Builders reached from a fresh one by calls of [add_user] that
    return [True]. *)
Inductive user_built : UserData.UserDataBlobBuilder → Prop :=
| user_built_init p : user_built (UserData.init p)
| user_built_add fs now1 now2 b uid src descr quota b' :
    user_built b →
    UserData.add_user fs now1 now2 b uid src descr quota = (true, b') →
    user_built b'.
End WithPlatform.

(** What the offsets of a list of slices and a write cursor satisfy
    after a build by adds: the first offset is 0, each next offset is the
    previous one plus the previous compressed size, and the cursor is the
    sum of the compressed sizes. *)
Definition offsets_chain (l : list (Z * Z)) (cursor : Z) : Prop :=
  (∀ off csz, l !! 0%nat = Some (off, csz) → off = 0) ∧
  (∀ i off csz off' csz',
      l !! i = Some (off, csz) → l !! S i = Some (off', csz') →
      off' = off + csz) ∧
  cursor = sum_Z (l.*2).
End Builds.

(** ** Sample builders *)
Module SampleRuns.
#[local] Instance sample_platform : Platform := Sample.platform LittleEndian.

(** An application catalog holding [a]. *)
Definition manager_a : Manager.AppBlobBuilder :=
  match Manager.add_application Sample.fs (Manager.init "apps.blob")
          "a" "App A" "/src/a" "1.0.0" [] with
  | Ret b => b
  | Raise _ => Manager.init "apps.blob"
  end.

(** The same catalog after [a] was added once more, from another tree. *)
Definition manager_aa : Manager.AppBlobBuilder :=
  match Manager.add_application Sample.fs manager_a
          "a" "App A" "/src/b" "1.0.1" [] with
  | Ret b => b
  | Raise _ => manager_a
  end.

(** The catalog of [app-blob-builder.py] holding [a]. *)
Definition appbuilder_a : AppBuilder.AppBlobBuilder :=
  (AppBuilder.add_application Sample.fs "2024-01-01T09:00:00.000001"
     (AppBuilder.init "apps.blob") "a" "App A" "/src/a" "1.0.0" []).2.

Definition binary_args : Binary.add_args :=
  Binary.mkArgs ["run"] "1.0.0" "" None None "x86_64" "linux".

(** A binary catalog holding [tool]. *)
Definition binary_tool : Binary.BinaryBlobBuilder :=
  (Binary.add_binary Sample.fs "2024-01-01T00:00:00" (Binary.init "bin.blob")
     "tool" "/src/a" binary_args).2.

(** A data store holding [alice], then [alice] and [bob]. *)
Definition users_a : UserData.UserDataBlobBuilder :=
  (UserData.add_user Sample.fs "2024-01-01T10:00:00.000001"
     "2024-01-01T10:00:00.000002" (UserData.init "users.blob")
     "alice" "/src/a" "first user" (Some 5)).2.

Definition users_ab : UserData.UserDataBlobBuilder :=
  (UserData.add_user Sample.fs "2024-01-01T11:00:00.000001"
     "2024-01-01T11:00:00.000002" users_a "bob" "/src/b" "" None).2.

(** Application indexes for dependency resolution. *)
Definition entry (k : string) (deps : list string) : string * Manager.AppMetadata :=
  (k, Manager.mkAppMetadata k k "1.0.0" 0 0 0 deps [] "").

(** A → [B], B → [C], C without dependencies. *)
Definition index_chain : Manager.AppBlobExtractor :=
  Manager.mkExtractor "apps.blob"
    [entry "A" ["B"]; entry "B" ["C"]; entry "C" []] 0.

(** A → [B], B → [C], and no entry C. *)
Definition index_dangling : Manager.AppBlobExtractor :=
  Manager.mkExtractor "apps.blob" [entry "A" ["B"]; entry "B" ["C"]] 0.

(** A → [B], B → [C], C → [D]. *)
Definition index_longer : Manager.AppBlobExtractor :=
  Manager.mkExtractor "apps.blob"
    [entry "A" ["B"]; entry "B" ["C"]; entry "C" ["D"]; entry "D" []] 0.

(** A → [B], B → [A]. *)
Definition index_cycle : Manager.AppBlobExtractor :=
  Manager.mkExtractor "apps.blob" [entry "A" ["B"]; entry "B" ["A"]] 0.

(** The container [build] writes for [manager_a] (12 bytes of header,
    308 bytes of index, 29 bytes of payload) and the extractor
    [_load_index] makes of it. *)
Definition manager_file : bytes :=
  match Manager.build manager_a with
  | Written file => file
  | WriteFailed partial => partial
  end.

Definition manager_extractor : Manager.AppBlobExtractor :=
  match Manager._load_index "apps.blob" manager_file with
  | Ret ex => ex
  | Raise _ => Manager.mkExtractor "apps.blob" [] 0
  end.

(** The same container with the payload of [a] replaced by the
    compressed archive of another tree: the index still carries the
    checksum of the old archive. *)
Definition manager_file_replaced : bytes :=
  take 320 manager_file ++ zlib_compress (tar_pack "." Sample.tree_b).


Definition appbuilder_file : bytes :=
  match AppBuilder.build "2024-01-02T09:00:00.000001" appbuilder_a with
  | Written file => file
  | WriteFailed partial => partial
  end.

Definition appbuilder_extractor : AppBuilder.AppBlobExtractor :=
  AppBuilder.mkExtractor "apps.blob" (AppBuilder.apps appbuilder_a)
    (len appbuilder_file - 29).


(** The container [build] writes for [users_ab], and the builder
    [load_existing] makes of that file. *)
Definition users_file : bytes :=
  match UserData.build "2024-01-02T09:00:00.000001" users_ab with
  | Written file => file
  | WriteFailed partial => partial
  end.

Definition users_loaded : UserData.UserDataBlobBuilder :=
  match UserData.load_existing "users.blob" users_file with
  | Ret b => b
  | Raise _ => UserData.init "users.blob"
  end.

(** [appbuilder_file] loaded again with [load_existing], [b] added to it
    from [/src/b], and the file [build] then writes. *)
Definition appbuilder_loaded : AppBuilder.AppBlobBuilder :=
  match AppBuilder.load_existing "apps.blob" appbuilder_file with
  | Ret b => b
  | Raise _ => AppBuilder.init "apps.blob"
  end.

Definition appbuilder_loaded_b : AppBuilder.AppBlobBuilder :=
  (AppBuilder.add_application Sample.fs "2024-01-03T09:00:00.000001"
     appbuilder_loaded "b" "App B" "/src/b" "1.0.0" []).2.

Definition appbuilder_file_b : bytes :=
  match AppBuilder.build "2024-01-03T09:00:01.000001" appbuilder_loaded_b with
  | Written file => file
  | WriteFailed partial => partial
  end.
End SampleRuns.

(** Closed examples are evaluated on the sample platform. *)
#[local] Existing Instance SampleRuns.sample_platform.

(** ** Container layouts *)

(** [file] is magic, format version (16 bits), index length (32 bits),
    index, payload. *)
Definition versioned_layout (bo : byteorder) (magic : bytes) (version : Z)
    (index payload file : bytes) : Prop :=
  ∃ ver sz,
    pack_H bo version = Some ver ∧ pack_I bo (len index) = Some sz ∧
    file = magic ++ ver ++ sz ++ index ++ payload.

(** The payload region of a versioned container: what follows the index,
    whose length is read at byte 10. *)
Definition payload_region (bo : byteorder) (file : bytes) : option bytes :=
  match unpack_I bo (take 4 (drop 10 file)) with
  | Some index_size => Some (drop (14 + Z.to_nat index_size) file)
  | None => None
  end.

(** [file] is magic, index length (32 bits), index, payload. *)
Definition unversioned_layout (bo : byteorder) (magic : bytes)
    (index payload file : bytes) : Prop :=
  ∃ sz,
    pack_I bo (len index) = Some sz ∧
    file = magic ++ sz ++ index ++ payload.

(** The indexes of the two catalogs as keys with dependency lists. *)
Definition manager_entries (ex : Manager.AppBlobExtractor)
  : list (string * list string) :=
  prod_map id Manager.dependencies <$> Manager.index ex.

Definition binary_entries (b : Binary.BinaryBlobBuilder)
  : list (string * list string) :=
  prod_map id (λ m, default [] (Binary.dependencies m)) <$> Binary.binaries b.

Definition appbuilder_entries (ex : AppBuilder.AppBlobExtractor)
  : list (string * list string) :=
  prod_map id AppBuilder.dependencies <$> AppBuilder.index ex.

(** ** What a resolver is to satisfy *)

(** The properties of dependency closure, for an index seen through
    [lookup] and the resolver [resolve] of that index, which returns the
    resolved keys and the keys warned about, or nothing if it does not
    return. *)
Record closure_properties (lookup : string → option (list string))
    (resolve : list string → option (list string * list string)) : Prop := {
  (** it returns, for every request *)
  closure_total : ∀ keys, is_Some (resolve keys);
  (** the result is the set of keys reached from the request *)
  closure_reaches : ∀ keys r w,
      resolve keys = Some (r, w) → ∀ k, k ∈ r ↔ reaches lookup keys k;
  (** A → [B], B → [C], C with no dependency outside A, B, C *)
  closure_chain : ∀ A B C deps_C,
      lookup A = Some [B] → lookup B = Some [C] → lookup C = Some deps_C →
      (∀ d, d ∈ deps_C → d ∈ [A; B; C]) →
      ∃ r w, resolve [A] = Some (r, w) ∧ ∀ k, k ∈ r ↔ k ∈ [A; B; C];
  (** resolving the result again gives the result *)
  closure_idempotent : ∀ keys r w,
      resolve keys = Some (r, w) → ∃ w', resolve r = Some (r, w');
  (** the warnings are for the requested or referenced keys that are not in
      the index, and those keys are not in the result *)
  closure_warned : ∀ keys r w,
      resolve keys = Some (r, w) →
      ∀ k, k ∈ w ↔
           lookup k = None ∧
           (k ∈ keys ∨ ∃ k0 deps, k0 ∈ r ∧ lookup k0 = Some deps ∧ k ∈ deps);
  closure_skips : ∀ keys r w k,
      resolve keys = Some (r, w) → lookup k = None → k ∉ r;
  (** A → [Z], Z not in the index *)
  closure_missing : ∀ A Z,
      lookup A = Some [Z] → lookup Z = None → resolve [A] = Some ([A], [Z]);
}.

(** ** Recorded slices *)

(** [payload[off : off + csz]] *)
Definition payload_slice (payload : bytes) (off csz : Z) : bytes :=
  take (Z.to_nat csz) (drop (Z.to_nat off) payload).

Section Recorded.
Context `{Platform}.

(** An entry that records offset, compressed size, size and checksum
    describes its slice of [payload]: the slice lies within the payload and
    is the compressed form of an archive with that size and digest. *)
Definition slice_recorded (payload : bytes) (off csz size : Z)
    (checksum : string) : Prop :=
  0 ≤ off ∧ off + csz ≤ len payload ∧
  ∃ tar_data,
    payload_slice payload off csz = zlib_compress tar_data ∧
    csz = len (zlib_compress tar_data) ∧
    size = len tar_data ∧
    checksum = sha256_hexdigest tar_data.

(** [zlib.decompress] reads back what [zlib.compress] produced. *)
Definition zlib_round_trip : Prop :=
  ∀ data, zlib_decompress (zlib_compress data) = Some data.

(** Builders reached from a fresh one by calls of [add_application] of
    [app-blob-builder.py] that return [True]. *)
Inductive appbuilder_built : AppBuilder.AppBlobBuilder → Prop :=
| appbuilder_built_init p : appbuilder_built (AppBuilder.init p)
| appbuilder_built_add fs now b k n p v deps b' :
    appbuilder_built b →
    AppBuilder.add_application fs now b k n p v deps = (true, b') →
    appbuilder_built b'.

(** What a user's metadata records about its slice. *)
Definition user_recorded (payload : bytes) (m : UserData.user_meta) : Prop :=
  ∃ off csz size checksum,
    get_int m "offset" = Some off ∧ get_int m "compressed_size" = Some csz ∧
    get_int m "size" = Some size ∧ get_str m "checksum" = Some checksum ∧
    slice_recorded payload off csz size checksum.
End Recorded.

(** A binary catalog with a dependency cycle: [A] needs [B], [B] needs
    [A]. *)
Definition sample_binary_cycle : Binary.BinaryBlobBuilder :=
  (Binary.add_binary Sample.fs "2024-01-01T00:00:01"
     (Binary.add_binary Sample.fs "2024-01-01T00:00:00" (Binary.init "bin.blob")
        "A" "/src/a"
        (Binary.mkArgs ["run"] "1.0.0" "" None (Some ["B"]) "x86_64" "linux")).2
     "B" "/src/b"
     (Binary.mkArgs ["libz"] "1.0.0" "" None (Some ["A"]) "x86_64" "linux")).2.


(** A store as [load_existing] can return it: the entry of [carol] was
    not written by [add_user] and has no [offset] and no
    [compressed_size]. *)
Definition sample_users_bare : UserData.UserDataBlobBuilder :=
  UserData.mkBuilder "users.blob"
    [("carol", [("user_id", JStr "carol"); ("version", JInt 3)])]
    BytesIO_new 0.

Definition sample_users_bare_file : bytes :=
  match UserData.build "2024-01-02T09:00:00.000001" sample_users_bare with
  | Written file => file
  | WriteFailed partial => partial
  end.

Definition sample_users_bare_loaded : UserData.UserDataBlobBuilder :=
  match UserData.load_existing "users.blob" sample_users_bare_file with
  | Ret b => b
  | Raise _ => UserData.init "users.blob"
  end.

(** * Properties *)

(** ** Dictionaries *)
Section DictFacts.
Context {V : Type}.
Implicit Types (d : dict V) (k : string) (v : V).


Lemma dict_in_false d k : dict_in k d = false ↔ dict_get d k = None.
Proof. unfold dict_in. by destruct (dict_get d k). Qed.

Lemma dict_get_Some_keys d k v : dict_get d k = Some v → k ∈ dict_keys d.
Proof.
  induction d as [|[k' v'] d IH]; simpl; [done|].
  case_decide; intros Hg.
  - subst. apply list_elem_of_here.
  - apply list_elem_of_further. by apply IH.
Qed.

Lemma dict_get_None_keys d k : dict_get d k = None ↔ k ∉ dict_keys d.
Proof.
  induction d as [|[k' v'] d IH]; simpl.
  - split; [intros _; apply not_elem_of_nil | done].
  - case_decide; subst.
    + split; [done|]. intros Hn. exfalso. apply Hn, list_elem_of_here.
    + rewrite IH, not_elem_of_cons.
      split; [intros ?; split; [congruence|done] | by intros [_ ?]].
Qed.

Lemma dict_get_set_eq d k v : dict_get (dict_set d k v) k = Some v.
Proof.
  induction d as [|[k' v'] d IH]; simpl.
  - by rewrite decide_True.
  - case_decide; simpl; [by rewrite decide_True | by rewrite decide_False].
Qed.

Lemma dict_get_set_ne d k k' v :
  k ≠ k' → dict_get (dict_set d k v) k' = dict_get d k'.
Proof.
  intros Hne. induction d as [|[k0 v0] d IH]; simpl.
  - by rewrite decide_False.
  - destruct (decide (k0 = k)) as [->|]; simpl.
    + by rewrite !decide_False.
    + by rewrite IH.
Qed.

(** Assignment to a new key appends. *)
Lemma dict_set_fresh d k v : dict_get d k = None → dict_set d k v = d ++ [(k, v)].
Proof.
  induction d as [|[k' v'] d IH]; simpl; [done|].
  case_decide; [done|]. intros Hg. by rewrite IH.
Qed.

Lemma dict_keys_set d k v :
  dict_keys (dict_set d k v) =
  if dict_in k d then dict_keys d else dict_keys d ++ [k].
Proof.
  unfold dict_in, dict_keys.
  induction d as [|[k' v'] d IH]; csimpl; [done|].
  case_decide; csimpl; [by subst|].
  rewrite IH. by destruct (dict_get d k).
Qed.

Lemma dict_set_NoDup d k v :
  NoDup (dict_keys d) → NoDup (dict_keys (dict_set d k v)).
Proof.
  intros Hnd. rewrite dict_keys_set.
  destruct (dict_in k d) eqn:Hin; [done|].
  apply dict_in_false, dict_get_None_keys in Hin.
  apply NoDup_app. split_and!; [done| |apply NoDup_singleton].
  intros x Hx Hk. apply list_elem_of_singleton in Hk. by subst.
Qed.

Lemma dict_keys_del_subseteq d k : dict_keys (dict_del d k) ⊆ dict_keys d.
Proof.
  unfold dict_keys, dict_del. intros x Hx.
  apply list_elem_of_fmap in Hx as (kv & -> & Hkv).
  apply list_elem_of_filter in Hkv as [_ Hkv].
  by apply list_elem_of_fmap_2.
Qed.

(** After [del d[k]] the key is gone. *)
Lemma dict_keys_del_notin d k : k ∉ dict_keys (dict_del d k).
Proof.
  unfold dict_keys, dict_del. intros Hx.
  apply list_elem_of_fmap in Hx as (kv & -> & Hkv).
  by apply list_elem_of_filter in Hkv as [Hne _].
Qed.

Lemma dict_get_del_eq d k : dict_get (dict_del d k) k = None.
Proof. apply dict_get_None_keys, dict_keys_del_notin. Qed.


Lemma dict_get_fmap {W} (f : V → W) d k :
  dict_get (prod_map id f <$> d) k = f <$> dict_get d k.
Proof.
  induction d as [|[k' v'] d IH]; simpl; [done|].
  case_decide; [done|apply IH].
Qed.
End DictFacts.

(** ** Buffers and packed fields *)

(** On a buffer whose position is at its end, [write] appends. *)
Lemma bio_write_at_end (b : BytesIO) (data : bytes) :
  tell b = length (getvalue b) →
  bio_write b data = mkBytesIO (getvalue b ++ data) (length (getvalue b ++ data)).
Proof.
  intros Ht. unfold bio_write. rewrite Ht.
  rewrite take_ge; [|lia]. rewrite Nat.sub_diag. simpl.
  rewrite drop_ge; [|lia]. rewrite !app_nil_r.
  f_equal. by rewrite length_app.
Qed.

Lemma le_bytes_length n z : length (le_bytes n z) = n.
Proof. revert z. induction n as [|n IH]; intros z; simpl; [done|by rewrite IH]. Qed.

Lemma struct_pack_length bo n z b : struct_pack bo n z = Some b → length b = n.
Proof.
  unfold struct_pack. case_match; [|done]. intros [= <-].
  destruct bo; simpl; [|rewrite length_rev]; apply le_bytes_length.
Qed.

Lemma struct_pack_Some bo n z :
  0 ≤ z < 2 ^ (8 * Z.of_nat n) → is_Some (struct_pack bo n z).
Proof.
  intros [H0 H1]. unfold struct_pack.
  destruct (0 <=? z) eqn:E0; [|lia].
  destruct (z <? 2 ^ (8 * Z.of_nat n)) eqn:E1; [|lia].
  simpl. by eexists.
Qed.

Lemma len_app {A} (l1 l2 : list A) : len (l1 ++ l2) = len l1 + len l2.
Proof. unfold len. rewrite length_app. lia. Qed.

(** ** Offsets of successive adds *)
Section Chain.
Lemma contiguous_snoc start l c :
  contiguous start l →
  contiguous start (l ++ [(start + sum_Z (l.*2), c)]).
Proof.
  revert start. induction l as [|[o s] l IH]; intros start; simpl.
  - intros _. split; [lia|done].
  - intros [-> Hc]. split; [done|].
    specialize (IH _ Hc). csimpl. unfold sum_Z in *. simpl.
    by rewrite Z.add_assoc.
Qed.

Lemma contiguous_succ start l i off csz off' csz' :
  contiguous start l →
  l !! i = Some (off, csz) → l !! S i = Some (off', csz') →
  off' = off + csz.
Proof.
  revert start i. induction l as [|[o s] l IH]; intros start i; [done|].
  simpl. intros [-> Hc]. destruct i as [|i]; simpl.
  - intros [= -> ->]. destruct l as [|[o' s'] l]; [done|].
    simpl. intros [= -> ->]. by destruct Hc.
  - intros H1 H2. by eapply IH.
Qed.

Lemma sum_Z_app l1 l2 : sum_Z (l1 ++ l2) = sum_Z l1 + sum_Z l2.
Proof. induction l1 as [|x l1 IH]; simpl; [done|]. rewrite IH. lia. Qed.

(** The packaged invariant gives the chain of offsets as the index shows
    it. *)
Lemma contiguous_chain l cursor :
  contiguous 0 l → cursor = sum_Z (l.*2) → Builds.offsets_chain l cursor.
Proof.
  intros Hc Hs. split_and!; [|by eauto using contiguous_succ|done].
  intros off csz. destruct l as [|[o s] l]; [done|].
  simpl. intros [= -> ->]. by destruct Hc.
Qed.

Lemma contiguous_extend l cursor c :
  contiguous 0 l → cursor = sum_Z (l.*2) →
  contiguous 0 (l ++ [(cursor, c)]) ∧
  cursor + c = sum_Z ((l ++ [(cursor, c)]).*2).
Proof.
  intros Hc ->. split.
  - by apply (contiguous_snoc 0).
  - rewrite fmap_app, sum_Z_app. simpl. lia.
Qed.
End Chain.

Section BuildFacts.
Context `{Platform}.

Lemma dict_values_snoc {V} (d : dict V) k v :
  dict_values (d ++ [(k, v)]) = dict_values d ++ [v].
Proof. unfold dict_values. by rewrite fmap_app. Qed.

(** A successful [add_application] with a new key appends one slice at
    the cursor and moves the cursor past it. *)
Lemma manager_add_new fs b k n p v deps b' :
  dict_in k (Manager.apps b) = false →
  Manager.add_application fs b k n p v deps = Ret b' →
  ∃ c, Builds.manager_slices b' =
         Builds.manager_slices b ++ [(Manager.current_offset b, c)] ∧
       Manager.current_offset b' = Manager.current_offset b + c.
Proof.
  intros Hnew%dict_in_false. unfold Manager.add_application.
  destruct (fs p) as [src|]; [|done]. intros [= <-].
  eexists. unfold Builds.manager_slices. simpl.
  rewrite dict_set_fresh, dict_values_snoc, fmap_app by done.
  simpl. split; reflexivity.
Qed.

(** Without the condition on the key: two adds of one key to a fresh
    builder leave one recorded slice, at the offset the first payload ends
    at, while the cursor is past both payloads. *)
Lemma manager_add_same_key fs out k n1 p1 v1 d1 n2 p2 v2 d2 t1 t2 b1 b2 :
  fs p1 = Some t1 → fs p2 = Some t2 →
  Manager.add_application fs (Manager.init out) k n1 p1 v1 d1 = Ret b1 →
  Manager.add_application fs b1 k n2 p2 v2 d2 = Ret b2 →
  let c1 := len (zlib_compress (tar_pack "." t1)) in
  let c2 := len (zlib_compress (tar_pack "." t2)) in
  Builds.manager_slices b2 = [(c1, c2)] ∧ Manager.current_offset b2 = c1 + c2.
Proof.
  intros H1 H2. unfold Manager.add_application. rewrite H1.
  intros [= <-]. simpl. rewrite H2. intros [= <-].
  unfold Builds.manager_slices. simpl. rewrite decide_True by done.
  split; [reflexivity|]. simpl. lia.
Qed.

Lemma manager_distinct_invariant b :
  Builds.manager_built_distinct b →
  contiguous 0 (Builds.manager_slices b) ∧
  Manager.current_offset b = sum_Z ((Builds.manager_slices b).*2).
Proof.
  induction 1 as [p|fs b k n p v deps b' _ [IHc IHs] Hnew Hadd].
  - by split.
  - destruct (manager_add_new _ _ _ _ _ _ _ _ Hnew Hadd) as (c & -> & ->).
    by apply contiguous_extend.
Qed.

Lemma binary_add_true fs now b k src a b' :
  Binary.add_binary fs now b k src a = (true, b') →
  ∃ c, Builds.binary_slices b' =
         Builds.binary_slices b ++ [(Binary.current_offset b, c)] ∧
       Binary.current_offset b' = Binary.current_offset b + c.
Proof.
  unfold Binary.add_binary.
  destruct (dict_in k (Binary.binaries b)) eqn:Hin; [done|].
  apply dict_in_false in Hin.
  destruct (fs src) as [tree|]; [|done]. intros [= <-].
  eexists. unfold Builds.binary_slices. simpl.
  rewrite dict_set_fresh, dict_values_snoc, fmap_app by done.
  simpl. split; reflexivity.
Qed.

Lemma binary_invariant b :
  Builds.binary_built b →
  contiguous 0 (Builds.binary_slices b) ∧
  Binary.current_offset b = sum_Z ((Builds.binary_slices b).*2).
Proof.
  induction 1 as [p|fs now b k src a b' _ [IHc IHs] Hadd].
  - by split.
  - destruct (binary_add_true _ _ _ _ _ _ _ Hadd) as (c & -> & ->).
    by apply contiguous_extend.
Qed.

Lemma mapM_snoc {A B} (f : A → option B) l x ys y :
  mapM f l = Some ys → f x = Some y → mapM f (l ++ [x]) = Some (ys ++ [y]).
Proof.
  intros Hl Hx. apply mapM_Some. apply mapM_Some in Hl.
  apply Forall2_app; [done|]. by constructor.
Qed.

Lemma user_add_true fs now1 now2 b uid src descr quota b' l :
  UserData.add_user fs now1 now2 b uid src descr quota = (true, b') →
  Builds.user_slices b = Some l →
  ∃ c, Builds.user_slices b' = Some (l ++ [(UserData.current_offset b, c)]) ∧
       UserData.current_offset b' = UserData.current_offset b + c.
Proof.
  unfold UserData.add_user.
  destruct (dict_in uid (UserData.users b)) eqn:Hin; [done|].
  apply dict_in_false in Hin.
  destruct (fs src) as [tree|]; [|done]. intros [= <-] Hl.
  eexists. unfold Builds.user_slices in *. simpl.
  rewrite dict_set_fresh, dict_values_snoc by done.
  split; [|reflexivity]. by apply mapM_snoc.
Qed.

Lemma user_invariant b :
  Builds.user_built b →
  ∃ l, Builds.user_slices b = Some l ∧ contiguous 0 l ∧
       UserData.current_offset b = sum_Z (l.*2).
Proof.
  induction 1 as [p|fs now1 now2 b uid src descr quota b' _ (l & Hl & IHc & IHs) Hadd].
  - by exists [].
  - destruct (user_add_true _ _ _ _ _ _ _ _ _ _ Hadd Hl) as (c & Hl' & ->).
    eexists. split; [done|]. by apply contiguous_extend.
Qed.
End BuildFacts.

(** ** C8: offsets recorded by successive adds *)

(** For every builder reached from a fresh one by successful adds — in the
    application catalog, adds of keys not yet in the index — the recorded
    offsets start at 0, each next offset is the previous offset plus the
    previous compressed size, and the write cursor [current_offset] is the
    sum of the recorded compressed sizes.  In the data store and the binary
    catalog a successful add always has a new key. *)
Lemma offsets_follow_adds `{Platform} :
  (∀ b, Builds.manager_built_distinct b →
        Builds.offsets_chain (Builds.manager_slices b) (Manager.current_offset b)) ∧
  (∀ b, Builds.user_built b →
        ∃ l, Builds.user_slices b = Some l ∧
             Builds.offsets_chain l (UserData.current_offset b)) ∧
  (∀ b, Builds.binary_built b →
        Builds.offsets_chain (Builds.binary_slices b) (Binary.current_offset b)).
Proof.
  split_and!.
  - intros b [Hc Hs]%manager_distinct_invariant. by apply contiguous_chain.
  - intros b (l & Hl & Hc & Hs)%user_invariant.
    exists l. split; [done|]. by apply contiguous_chain.
  - intros b [Hc Hs]%binary_invariant. by apply contiguous_chain.
Qed.

Lemma sample_users_ab_built :
  @Builds.user_built SampleRuns.sample_platform SampleRuns.users_ab.
Proof.
  apply (Builds.user_built_add Sample.fs "2024-01-01T11:00:00.000001"
           "2024-01-01T11:00:00.000002" SampleRuns.users_a "bob" "/src/b" "" None);
    [|reflexivity].
  apply (Builds.user_built_add Sample.fs "2024-01-01T10:00:00.000001"
           "2024-01-01T10:00:00.000002" (UserData.init "users.blob")
           "alice" "/src/a" "first user" (Some 5)); [|reflexivity].
  apply Builds.user_built_init.
Qed.

Lemma sample_manager_a_built :
  @Builds.manager_built_distinct SampleRuns.sample_platform SampleRuns.manager_a.
Proof.
  apply (Builds.manager_distinct_add Sample.fs (Manager.init "apps.blob")
           "a" "App A" "/src/a" "1.0.0" []); [|reflexivity..].
  apply Builds.manager_distinct_init.
Qed.

Lemma sample_binary_tool_built :
  @Builds.binary_built SampleRuns.sample_platform SampleRuns.binary_tool.
Proof.
  apply (Builds.binary_built_add Sample.fs "2024-01-01T00:00:00"
           (Binary.init "bin.blob") "tool" "/src/a" SampleRuns.binary_args);
    [|reflexivity].
  apply Builds.binary_built_init.
Qed.

(** On the sample builders: [alice] at 0 with 29 bytes and [bob] at 29
    with 19 bytes, cursor 48. *)
Example offsets_follow_adds_sample :
  Builds.offsets_chain (Builds.manager_slices SampleRuns.manager_a)
    (Manager.current_offset SampleRuns.manager_a) ∧
  (Builds.user_slices SampleRuns.users_ab = Some [(0, 29); (29, 19)] ∧
   Builds.offsets_chain [(0, 29); (29, 19)] 48) ∧
  Builds.offsets_chain (Builds.binary_slices SampleRuns.binary_tool)
    (Binary.current_offset SampleRuns.binary_tool).
Proof.
  destruct (@offsets_follow_adds SampleRuns.sample_platform) as (Hm & Hu & Hb).
  split_and!.
  - apply Hm, sample_manager_a_built.
  - reflexivity.
  - destruct (Hu _ sample_users_ab_built) as (l & Hl & Hchain).
    vm_compute in Hl. injection Hl as <-. exact Hchain.
  - apply Hb, sample_binary_tool_built.
Qed.

(** C8 (what the code does).  In the application catalog a sequence of
    successful adds on a fresh builder need not keep the offsets chained:
    [add_application] has no duplicate test, so after two adds of one key
    (the first with a non-empty compressed payload, as every zlib stream
    is) the index records one entry, whose offset is the size of the first
    payload and not 0, and the write cursor is the sum of both payload
    sizes and not the sum of the recorded sizes. *)
Theorem C8_duplicate_add_breaks_offsets `{Platform}
    (fs : filesystem) (out k n1 p1 v1 : string) (d1 : list string)
    (n2 p2 v2 : string) (d2 : list string) (t1 t2 : source) :
  fs p1 = Some t1 → fs p2 = Some t2 →
  zlib_compress (tar_pack "." t1) ≠ [] →
  ∃ b1 b2,
    Manager.add_application fs (Manager.init out) k n1 p1 v1 d1 = Ret b1 ∧
    Manager.add_application fs b1 k n2 p2 v2 d2 = Ret b2 ∧
    Builds.manager_built b2 ∧
    Builds.manager_slices b2 =
      [(len (zlib_compress (tar_pack "." t1)), len (zlib_compress (tar_pack "." t2)))] ∧
    Manager.current_offset b2 =
      len (zlib_compress (tar_pack "." t1)) + len (zlib_compress (tar_pack "." t2)) ∧
    ¬ Builds.offsets_chain (Builds.manager_slices b2) (Manager.current_offset b2).
Proof.
  intros H1 H2 Hne.
  destruct (Manager.add_application fs (Manager.init out) k n1 p1 v1 d1)
    as [b1|] eqn:Hadd1; [|by unfold Manager.add_application in Hadd1; rewrite H1 in Hadd1].
  destruct (Manager.add_application fs b1 k n2 p2 v2 d2)
    as [b2|] eqn:Hadd2; [|by unfold Manager.add_application in Hadd2; rewrite H2 in Hadd2].
  destruct (manager_add_same_key _ _ _ _ _ _ _ _ _ _ _ _ _ _ _ H1 H2 Hadd1 Hadd2)
    as [Hsl Hcur].
  exists b1, b2. split_and!; try done.
  - eapply Builds.manager_built_add; [|exact Hadd2].
    eapply Builds.manager_built_add; [|exact Hadd1].
    apply Builds.manager_built_init.
  - rewrite Hsl. intros (Hhead & _ & _).
    specialize (Hhead _ _ eq_refl).
    destruct (zlib_compress (tar_pack "." t1)); [done|].
    unfold len in Hhead. simpl in Hhead. lia.
Qed.

(** C8, on the sample file system: [a] is added from [/src/a] (29 bytes)
    and again from [/src/b] (19 bytes); the one recorded entry is at offset
    29 and the cursor is 48. *)
Lemma C8_duplicate_add_breaks_offsets_witness :
  ∃ b1 b2,
    Manager.add_application Sample.fs (Manager.init "apps.blob")
      "a" "App A" "/src/a" "1.0.0" [] = Ret b1 ∧
    Manager.add_application Sample.fs b1 "a" "App A" "/src/b" "1.0.1" [] = Ret b2 ∧
    Builds.manager_built b2 ∧
    Builds.manager_slices b2 =
      [(len (zlib_compress (tar_pack "." Sample.tree_a)),
        len (zlib_compress (tar_pack "." Sample.tree_b)))] ∧
    Manager.current_offset b2 =
      len (zlib_compress (tar_pack "." Sample.tree_a)) +
      len (zlib_compress (tar_pack "." Sample.tree_b)) ∧
    ¬ Builds.offsets_chain (Builds.manager_slices b2) (Manager.current_offset b2).
Proof.
  refine (C8_duplicate_add_breaks_offsets Sample.fs "apps.blob" "a" "App A"
            "/src/a" "1.0.0" [] "App A" "/src/b" "1.0.1" []
            Sample.tree_a Sample.tree_b _ _ _).
  - reflexivity.
  - reflexivity.
  - by vm_compute.
Defined.

Example duplicate_add_sample :
  Builds.manager_slices SampleRuns.manager_aa = [(29, 19)] ∧
  Manager.current_offset SampleRuns.manager_aa = 48.
Proof. split; reflexivity. Qed.

(** ** C3: adding a key the index already has *)

(** C3 (what the code does).  In the binary catalog, [add_binary] with a
    key the index already has returns [False] and leaves the builder —
    index, payload buffer and cursor — as it was.  In the application
    catalog (both files) [add_application] does not look at the key: for a
    key the index already has and an existing source path it returns
    normally, puts new metadata, recorded at the cursor, in the place of
    the old entry and writes the new payload bytes to the buffer. *)
Theorem C3_add_existing_key `{Platform} :
  (∀ fs now b k src a,
      dict_in k (Binary.binaries b) = true →
      Binary.add_binary fs now b k src a = (false, b)) ∧
  (∀ fs b k n p v deps tree,
      dict_in k (Manager.apps b) = true → fs p = Some tree →
      ∃ b' m,
        Manager.add_application fs b k n p v deps = Ret b' ∧
        dict_get (Manager.apps b') k = Some m ∧
        Manager.offset m = Manager.current_offset b ∧
        Manager.checksum m = sha256_hexdigest (tar_pack "." tree) ∧
        dict_keys (Manager.apps b') = dict_keys (Manager.apps b) ∧
        Manager.blob_data b' =
          bio_write (Manager.blob_data b) (zlib_compress (tar_pack "." tree))) ∧
  (∀ fs now b k n p v deps tree,
      dict_in k (AppBuilder.apps b) = true → fs p = Some tree →
      ∃ b' m,
        AppBuilder.add_application fs now b k n p v deps = (true, b') ∧
        dict_get (AppBuilder.apps b') k = Some m ∧
        AppBuilder.offset m = AppBuilder.current_offset b ∧
        AppBuilder.checksum m = sha256_hexdigest (tar_pack "." tree) ∧
        dict_keys (AppBuilder.apps b') = dict_keys (AppBuilder.apps b) ∧
        AppBuilder.blob_data b' =
          bio_write (AppBuilder.blob_data b) (zlib_compress (tar_pack "." tree))).
Proof.
  split_and!.
  - intros fs now b k src a Hin. unfold Binary.add_binary. by rewrite Hin.
  - intros fs b k n p v deps tree Hin Hfs.
    unfold Manager.add_application. rewrite Hfs.
    eexists _, _. split; [reflexivity|]. simpl.
    rewrite dict_get_set_eq, dict_keys_set, Hin. by split_and!.
  - intros fs now b k n p v deps tree Hin Hfs.
    unfold AppBuilder.add_application. rewrite Hfs.
    eexists _, _. split; [reflexivity|]. simpl.
    rewrite dict_get_set_eq, dict_keys_set, Hin. by split_and!.
Qed.

(** C3, on the sample builders. *)
Lemma C3_add_existing_key_witness :
  Binary.add_binary Sample.fs "2024-01-02T00:00:00" SampleRuns.binary_tool
    "tool" "/src/b" SampleRuns.binary_args = (false, SampleRuns.binary_tool) ∧
  ∃ b' m,
    Manager.add_application Sample.fs SampleRuns.manager_a
      "a" "App A" "/src/b" "1.0.1" [] = Ret b' ∧
    dict_get (Manager.apps b') "a" = Some m ∧
    Manager.offset m = Manager.current_offset SampleRuns.manager_a ∧
    Manager.checksum m = sha256_hexdigest (tar_pack "." Sample.tree_b) ∧
    dict_keys (Manager.apps b') = dict_keys (Manager.apps SampleRuns.manager_a) ∧
    Manager.blob_data b' =
      bio_write (Manager.blob_data SampleRuns.manager_a)
        (zlib_compress (tar_pack "." Sample.tree_b)).
Proof.
  destruct (@C3_add_existing_key SampleRuns.sample_platform) as (Hb & Hm & _).
  split.
  - apply Hb. reflexivity.
  - apply Hm; reflexivity.
Defined.

(** On the sample catalog: [manager_a] holds [a]; adding [a] again
    returns normally, the entry of [a] is another one and the payload
    buffer has grown from 29 to 48 bytes. *)
Example add_existing_key_sample :
  dict_in "a" (Manager.apps SampleRuns.manager_a) = true ∧
  Manager.add_application Sample.fs SampleRuns.manager_a
    "a" "App A" "/src/b" "1.0.1" [] = Ret SampleRuns.manager_aa ∧
  Manager.offset <$> dict_get (Manager.apps SampleRuns.manager_a) "a" = Some 0 ∧
  Manager.offset <$> dict_get (Manager.apps SampleRuns.manager_aa) "a" = Some 29 ∧
  Manager.apps SampleRuns.manager_aa ≠ Manager.apps SampleRuns.manager_a ∧
  length (getvalue (Manager.blob_data SampleRuns.manager_a)) = 29%nat ∧
  length (getvalue (Manager.blob_data SampleRuns.manager_aa)) = 48%nat.
Proof.
  split_and!; try reflexivity. intros Heq.
  apply (f_equal (λ d, Manager.offset <$> dict_get d "a")) in Heq.
  vm_compute in Heq. discriminate.
Qed.

(** ** C1: what [build] writes *)
Section Layout.
Lemma drop_app_length' {A} (l1 l2 : list A) n :
  n = length l1 → drop n (l1 ++ l2) = l2.
Proof. intros ->. apply drop_app_length. Qed.

Lemma take_app_length' {A} (l1 l2 : list A) n :
  n = length l1 → take n (l1 ++ l2) = l1.
Proof. intros ->. apply take_app_length. Qed.

(** Where the fields of a versioned container are. *)
Lemma versioned_layout_fields bo magic version index payload file :
  length magic = 8%nat →
  versioned_layout bo magic version index payload file →
  take 8 file = magic ∧
  pack_H bo version = Some (take 2 (drop 8 file)) ∧
  pack_I bo (len index) = Some (take 4 (drop 10 file)) ∧
  take (length index) (drop 14 file) = index ∧
  drop (8 + 2 + 4 + length index) file = payload.
Proof.
  intros Hm (ver & sz & Hver & Hsz & ->).
  pose proof (struct_pack_length _ _ _ _ Hver) as Lv.
  pose proof (struct_pack_length _ _ _ _ Hsz) as Ls.
  split_and!.
  - by rewrite take_app_length'.
  - rewrite drop_app_length' by done. by rewrite take_app_length'.
  - rewrite (app_assoc magic ver), drop_app_length' by (rewrite length_app; lia).
    by rewrite take_app_length'.
  - rewrite (app_assoc magic ver), (app_assoc (magic ++ ver) sz),
      drop_app_length' by (rewrite !length_app; lia).
    by rewrite take_app_length.
  - rewrite (app_assoc magic ver), (app_assoc (magic ++ ver) sz),
      (app_assoc _ index), drop_app_length' by (rewrite !length_app; lia).
    done.
Qed.

Lemma unversioned_layout_fields bo magic index payload file :
  length magic = 8%nat →
  unversioned_layout bo magic index payload file →
  take 8 file = magic ∧
  pack_I bo (len index) = Some (take 4 (drop 8 file)) ∧
  take (length index) (drop 12 file) = index ∧
  drop (8 + 4 + length index) file = payload.
Proof.
  intros Hm (sz & Hsz & ->).
  pose proof (struct_pack_length _ _ _ _ Hsz) as Ls.
  split_and!.
  - by rewrite take_app_length'.
  - rewrite drop_app_length' by done. by rewrite take_app_length'.
  - rewrite (app_assoc magic sz), drop_app_length' by (rewrite length_app; lia).
    by rewrite take_app_length.
  - rewrite (app_assoc magic sz), (app_assoc _ index),
      drop_app_length' by (rewrite !length_app; lia).
    done.
Qed.
End Layout.

Section BuildLayout.
Context `{Platform}.

Lemma appbuilder_build_layout now b file :
  AppBuilder.build now b = Written file →
  versioned_layout native_order AppBuilder.MAGIC 1
    (encode (json_dumps (AppBuilder.index_json now b)))
    (getvalue (AppBuilder.blob_data b)) file.
Proof.
  unfold AppBuilder.build. intros Hb.
  destruct (pack_H native_order AppBuilder.VERSION) as [ver|] eqn:Hv; [|done].
  destruct (pack_I native_order _) as [sz|] eqn:Hs; [|done].
  injection Hb as <-. by exists ver, sz.
Qed.

Lemma userdata_build_layout now b file :
  UserData.build now b = Written file →
  versioned_layout native_order UserData.MAGIC 1
    (encode (json_dumps (UserData.index_json now b)))
    (getvalue (UserData.blob_data b)) file.
Proof.
  unfold UserData.build. intros Hb.
  destruct (pack_H native_order UserData.VERSION) as [ver|] eqn:Hv; [|done].
  destruct (pack_I native_order _) as [sz|] eqn:Hs; [|done].
  injection Hb as <-. by exists ver, sz.
Qed.

Lemma manager_build_layout b file :
  Manager.build b = Written file →
  unversioned_layout native_order Manager.MAGIC
    (encode (json_dumps (Manager.index_json b)))
    (getvalue (Manager.blob_data b)) file.
Proof.
  unfold Manager.build. intros Hb.
  destruct (pack_I native_order _) as [sz|] eqn:Hs; [|done].
  injection Hb as <-. by exists sz.
Qed.
End BuildLayout.

(** C1 (amended).  Every container written by [build] of
    [app-blob-builder.py] and of [userdata-blob-builder.py] is the magic
    tag (8 bytes), the format version 1 (16 bits), the index length (32
    bits), that many bytes of serialized index and then the payload
    buffer, which so starts at byte 8+2+4+IndexLength.  Every container
    written by [build] of [app_blob_manager.py] has no version field: it is
    the magic tag (8 bytes), the index length (32 bits), the index and the
    payload buffer, which starts at byte 8+4+IndexLength. *)
Theorem C1_build_layout `{Platform} :
  (∀ now b file,
      AppBuilder.build now b = Written file →
      let index := encode (json_dumps (AppBuilder.index_json now b)) in
      let payload := getvalue (AppBuilder.blob_data b) in
      length AppBuilder.MAGIC = 8%nat ∧
      versioned_layout native_order AppBuilder.MAGIC 1 index payload file ∧
      pack_H native_order 1 = Some (take 2 (drop 8 file)) ∧
      pack_I native_order (len index) = Some (take 4 (drop 10 file)) ∧
      take (length index) (drop 14 file) = index ∧
      drop (8 + 2 + 4 + length index) file = payload) ∧
  (∀ now b file,
      UserData.build now b = Written file →
      let index := encode (json_dumps (UserData.index_json now b)) in
      let payload := getvalue (UserData.blob_data b) in
      length UserData.MAGIC = 8%nat ∧
      versioned_layout native_order UserData.MAGIC 1 index payload file ∧
      pack_H native_order 1 = Some (take 2 (drop 8 file)) ∧
      pack_I native_order (len index) = Some (take 4 (drop 10 file)) ∧
      take (length index) (drop 14 file) = index ∧
      drop (8 + 2 + 4 + length index) file = payload) ∧
  (∀ b file,
      Manager.build b = Written file →
      let index := encode (json_dumps (Manager.index_json b)) in
      let payload := getvalue (Manager.blob_data b) in
      length Manager.MAGIC = 8%nat ∧
      unversioned_layout native_order Manager.MAGIC index payload file ∧
      pack_I native_order (len index) = Some (take 4 (drop 8 file)) ∧
      take (length index) (drop 12 file) = index ∧
      drop (8 + 4 + length index) file = payload).
Proof.
  split_and!.
  - intros now b file HL%appbuilder_build_layout index payload.
    split; [done|]. split; [done|].
    by apply versioned_layout_fields in HL as (_ & ? & ? & ? & ?).
  - intros now b file HL%userdata_build_layout index payload.
    split; [done|]. split; [done|].
    by apply versioned_layout_fields in HL as (_ & ? & ? & ? & ?).
  - intros b file HL%manager_build_layout index payload.
    split; [done|]. split; [done|].
    by apply unversioned_layout_fields in HL as (_ & ? & ? & ?).
Qed.

(** C1, on the sample builders: the three files [build] writes. *)
Lemma C1_build_layout_witness :
  (∃ file,
      AppBuilder.build "2024-01-02T09:00:00.000001" SampleRuns.appbuilder_a
        = Written file ∧
      pack_H LittleEndian 1 = Some (take 2 (drop 8 file)) ∧
      drop (8 + 2 + 4 +
            length (encode (json_dumps
              (AppBuilder.index_json "2024-01-02T09:00:00.000001"
                 SampleRuns.appbuilder_a)))) file
        = getvalue (AppBuilder.blob_data SampleRuns.appbuilder_a)) ∧
  (∃ file,
      UserData.build "2024-01-02T09:00:00.000001" SampleRuns.users_ab
        = Written file ∧
      pack_H LittleEndian 1 = Some (take 2 (drop 8 file)) ∧
      drop (8 + 2 + 4 +
            length (encode (json_dumps
              (UserData.index_json "2024-01-02T09:00:00.000001"
                 SampleRuns.users_ab)))) file
        = getvalue (UserData.blob_data SampleRuns.users_ab)) ∧
  (∃ file,
      Manager.build SampleRuns.manager_a = Written file ∧
      drop (8 + 4 +
            length (encode (json_dumps (Manager.index_json SampleRuns.manager_a))))
        file
        = getvalue (Manager.blob_data SampleRuns.manager_a)).
Proof.
  destruct (@C1_build_layout SampleRuns.sample_platform) as (Ha & Hu & Hm).
  split_and!.
  - eexists. split; [vm_compute; reflexivity|].
    match goal with |- context [drop 8 ?f] =>
      destruct (Ha "2024-01-02T09:00:00.000001" SampleRuns.appbuilder_a f)
        as (_ & _ & Hv & _ & _ & Hp); [vm_compute; reflexivity|] end.
    split; [exact Hv|exact Hp].
  - eexists. split; [vm_compute; reflexivity|].
    match goal with |- context [drop 8 ?f] =>
      destruct (Hu "2024-01-02T09:00:00.000001" SampleRuns.users_ab f)
        as (_ & _ & Hv & _ & _ & Hp); [vm_compute; reflexivity|] end.
    split; [exact Hv|exact Hp].
  - eexists. split; [vm_compute; reflexivity|].
    match goal with |- drop _ ?f = _ =>
      destruct (Hm SampleRuns.manager_a f)
        as (_ & _ & _ & _ & Hp); [vm_compute; reflexivity|] end.
    exact Hp.
Defined.

(** C1 as stated fails for [app_blob_manager.py]: the file [build] writes
    for the sample catalog has, after the magic tag, the index length 308
    and no version field, in either byte order, and its payload starts at
    byte 8+4+IndexLength. *)
Lemma C1_counterexample :
  (∃ file,
      @Manager.build (Sample.platform LittleEndian) SampleRuns.manager_a
        = Written file ∧
      pack_I LittleEndian 308 = Some (take 4 (drop 8 file)) ∧
      pack_H LittleEndian 1 ≠ Some (take 2 (drop 8 file)) ∧
      drop (8 + 2 + 4 + 308) file ≠ getvalue (Manager.blob_data SampleRuns.manager_a) ∧
      (∀ index payload,
          ¬ versioned_layout LittleEndian Manager.MAGIC 1 index payload file)) ∧
  (∃ file,
      @Manager.build (Sample.platform BigEndian) SampleRuns.manager_a
        = Written file ∧
      pack_I BigEndian 308 = Some (take 4 (drop 8 file)) ∧
      pack_H BigEndian 1 ≠ Some (take 2 (drop 8 file)) ∧
      drop (8 + 2 + 4 + 308) file ≠ getvalue (Manager.blob_data SampleRuns.manager_a) ∧
      (∀ index payload,
          ¬ versioned_layout BigEndian Manager.MAGIC 1 index payload file)).
Proof.
  split.
  - eexists. split; [vm_compute; reflexivity|].
    split_and!; [reflexivity|by vm_compute|by vm_compute|].
    intros index payload HL.
    apply versioned_layout_fields in HL as (_ & Hv & _); [|done].
    vm_compute in Hv. discriminate.
  - eexists. split; [vm_compute; reflexivity|].
    split_and!; [reflexivity|by vm_compute|by vm_compute|].
    intros index payload HL.
    apply versioned_layout_fields in HL as (_ & Hv & _); [|done].
    vm_compute in Hv. discriminate.
Qed.

(** ** The data store: update and removal *)
Section UserDataFacts.
Context `{Platform}.

(** [add_user] of a key that was just deleted, from a missing source. *)
Lemma add_after_del_missing fs now1 now2 b k src descr quota :
  fs src = None →
  UserData.add_user fs now1 now2 (UserData.del_user b k) k src descr quota
  = (false, UserData.del_user b k).
Proof.
  intros Hfs. unfold UserData.add_user. simpl.
  replace (dict_in k (dict_del (UserData.users b) k)) with false
    by (symmetry; apply dict_in_false, dict_get_del_eq).
  by rewrite Hfs.
Qed.


(** What [load_existing] re-hydrates: the payload buffer is the payload
    region of the file. *)
Lemma load_existing_payload path file b :
  UserData.load_existing path file = Ret b →
  payload_region native_order file = Some (getvalue (UserData.blob_data b)) ∧
  UserData.current_offset b = len (getvalue (UserData.blob_data b)).
Proof.
  unfold UserData.load_existing, payload_region.
  repeat (case_match; try done). by intros [= <-].
Qed.
End UserDataFacts.



(** C9 (amended).  In the data store [update_user] is not atomic: for
    every state containing user [k] and every source path that does not
    exist, [update_user(k, source, mode)] in mode ['merge'], and in mode
    ['replace'] when the entry of [k] has the fields [offset] and
    [compressed_size], returns [False] and leaves the index without [k]:
    the old entry was deleted before the add was tried.  In mode
    ['replace'] on an entry that lacks one of the two fields the call
    raises [KeyError] where it reads them, before the delete, and the state
    is unchanged, [k] included. *)
Theorem C9_failed_update_drops_user `{Platform}
    (fs : filesystem) (now1 now2 : string) (b : UserData.UserDataBlobBuilder)
    (k src mode : string) (meta : UserData.user_meta) :
  dict_get (UserData.users b) k = Some meta →
  mode = "merge" ∨ mode = "replace" →
  fs src = None →
  ∃ r b',
    UserData.update_user fs now1 now2 b k src mode = (r, b') ∧
    (mode = "merge" ∨
     (is_Some (dict_get meta "offset") ∧
      is_Some (dict_get meta "compressed_size")) →
     r = Ret false ∧
     dict_get (UserData.users b') k = None ∧
     (k ∉ dict_keys (UserData.users b')) ∧
     UserData.blob_data b' = UserData.blob_data b) ∧
    (mode = "replace" →
     ¬ (is_Some (dict_get meta "offset") ∧
        is_Some (dict_get meta "compressed_size")) →
     r = Raise KeyError ∧ b' = b ∧ k ∈ dict_keys (UserData.users b')).
Proof.
  intros Hk Hmode Hfs.
  unfold UserData.update_user. rewrite Hk.
  destruct Hmode as [-> | ->].
  - rewrite decide_False by done. rewrite decide_True by done.
    rewrite add_after_del_missing by done.
    eexists _, _. split; [reflexivity|]. split; [|done].
    intros _. cbn [UserData.del_user UserData.users UserData.blob_data].
    split_and!; [done|apply dict_get_del_eq|apply dict_keys_del_notin|done].
  - rewrite decide_True by done.
    destruct (dict_get meta "offset") as [off|] eqn:Hoff.
    + destruct (dict_get meta "compressed_size") as [csz|] eqn:Hcsz.
      * rewrite add_after_del_missing by done.
        eexists _, _. split; [reflexivity|]. split.
        -- intros _. cbn [UserData.del_user UserData.users UserData.blob_data].
           split_and!;
             [done|apply dict_get_del_eq|apply dict_keys_del_notin|done].
        -- intros _ Hno. exfalso. apply Hno. split; by eexists.
      * eexists _, _. split; [reflexivity|]. split.
        -- intros [?|[_ [? ?]]]; done.
        -- intros _ _. split_and!; [done..|]. by eapply dict_get_Some_keys.
    + eexists _, _. split; [reflexivity|]. split.
      * intros [?|[[? ?] _]]; done.
      * intros _ _. split_and!; [done..|]. by eapply dict_get_Some_keys.
Qed.

(** C9, on the sample store: updating [alice] from a missing path. *)
Lemma C9_failed_update_drops_user_witness :
  ∃ r b',
    UserData.update_user Sample.fs "2024-02-01T10:00:00.000001"
      "2024-02-01T10:00:00.000002" SampleRuns.users_ab "alice" "/nowhere"
      "replace" = (r, b') ∧
    ("replace" = "merge" ∨
     (is_Some (dict_get (default [] (dict_get (UserData.users SampleRuns.users_ab)
                                       "alice")) "offset") ∧
      is_Some (dict_get (default [] (dict_get (UserData.users SampleRuns.users_ab)
                                       "alice")) "compressed_size")) →
     r = Ret false ∧
     dict_get (UserData.users b') "alice" = None ∧
     ("alice" ∉ dict_keys (UserData.users b')) ∧
     UserData.blob_data b' = UserData.blob_data SampleRuns.users_ab) ∧
    ("replace" = "replace" →
     ¬ (is_Some (dict_get (default [] (dict_get (UserData.users SampleRuns.users_ab)
                                          "alice")) "offset") ∧
        is_Some (dict_get (default [] (dict_get (UserData.users SampleRuns.users_ab)
                                          "alice")) "compressed_size")) →
     r = Raise KeyError ∧ b' = SampleRuns.users_ab ∧
     "alice" ∈ dict_keys (UserData.users b')).
Proof.
  refine (C9_failed_update_drops_user Sample.fs _ _ SampleRuns.users_ab
            "alice" "/nowhere" "replace"
            (default [] (dict_get (UserData.users SampleRuns.users_ab) "alice"))
            _ _ _).
  - reflexivity.
  - by right.
  - reflexivity.
Defined.

(** C9 as stated fails: [load_existing] returns a store with the user
    [carol], whose entry has no [offset]; [update_user] in mode ['replace']
    from a path that does not exist does not return failure but raises
    [KeyError], and [carol] is still in the index. *)
Lemma C9_counterexample :
  UserData.load_existing "users.blob" sample_users_bare_file
    = Ret sample_users_bare_loaded ∧
  dict_keys (UserData.users sample_users_bare_loaded) = ["carol"] ∧
  Sample.fs "/nowhere" = None ∧
  UserData.update_user Sample.fs "2024-02-01T10:00:00.000001"
    "2024-02-01T10:00:00.000002" sample_users_bare_loaded "carol" "/nowhere"
    "replace" = (Raise KeyError, sample_users_bare_loaded) ∧
  UserData.update_user Sample.fs "2024-02-01T10:00:00.000001"
    "2024-02-01T10:00:00.000002" sample_users_bare_loaded "carol" "/nowhere"
    "replace" ≠ (Ret false, UserData.del_user sample_users_bare_loaded "carol") ∧
  dict_in "carol" (UserData.users sample_users_bare_loaded) = true.
Proof.
  split; [vm_compute; reflexivity|].
  split; [vm_compute; reflexivity|].
  split; [reflexivity|].
  split; [vm_compute; reflexivity|].
  split; [by vm_compute|]. vm_compute; reflexivity.
Qed.

(** ** Packed fields read back *)
Section PackUnpack.
Lemma Z_of_byte_of_Z z : Z_of_byte (byte_of_Z z) = z mod 256.
Proof.
  unfold Z_of_byte, byte_of_Z.
  assert (0 ≤ z mod 256 < 256) as Hr by (apply Z.mod_pos_bound; lia).
  destruct (Byte.of_N (Z.to_N (z mod 256))) as [b|] eqn:Hb.
  - apply Byte.to_of_N in Hb. rewrite Hb. lia.
  - apply Byte.of_N_None_iff in Hb. lia.
Qed.

Lemma le_value_le_bytes n z :
  le_value (le_bytes n z) = z mod 2 ^ (8 * Z.of_nat n).
Proof.
  revert z. induction n as [|n IH]; intros z.
  - simpl. by rewrite Z.mod_1_r.
  - cbn [le_bytes le_value]. rewrite Z_of_byte_of_Z, IH.
    replace (2 ^ (8 * Z.of_nat (S n))) with (256 * 2 ^ (8 * Z.of_nat n)).
    + rewrite Z.rem_mul_r; lia.
    + replace (8 * Z.of_nat (S n)) with (8 + 8 * Z.of_nat n) by lia.
      rewrite Z.pow_add_r by lia. done.
Qed.

Lemma ordered_ordered bo b : ordered bo (ordered bo b) = b.
Proof. destruct bo; simpl; [done|apply rev_involutive]. Qed.

Lemma ordered_length bo b : length (ordered bo b) = length b.
Proof. destruct bo; simpl; [done|apply length_rev]. Qed.

(** [struct.unpack] reads back what [struct.pack] wrote. *)
Lemma struct_unpack_pack bo n z b :
  struct_pack bo n z = Some b → struct_unpack bo n b = Some z.
Proof.
  unfold struct_pack, struct_unpack.
  destruct (0 <=? z) eqn:E0; [|done].
  destruct (z <? 2 ^ (8 * Z.of_nat n)) eqn:E1; [|done].
  simpl. intros [= <-].
  rewrite decide_True by (by rewrite ordered_length, le_bytes_length).
  rewrite ordered_ordered, le_value_le_bytes.
  f_equal. apply Z.mod_small. lia.
Qed.

(** The payload region of a file with the versioned layout. *)
Lemma versioned_layout_payload bo magic version index payload file :
  length magic = 8%nat →
  versioned_layout bo magic version index payload file →
  payload_region bo file = Some payload.
Proof.
  intros Hm HL.
  destruct (versioned_layout_fields _ _ _ _ _ _ Hm HL) as (_ & _ & Hsz & _ & Hp).
  unfold payload_region, unpack_I.
  rewrite (struct_unpack_pack _ _ _ _ Hsz). f_equal.
  rewrite <- Hp. f_equal. unfold len. lia.
Qed.
End PackUnpack.

(** ** C7: removal and rebuild *)

(** C7 (amended).  For every loaded data-store container containing key
    [k], [remove_user(k)] succeeds and the keys of the index no longer
    contain [k]; the container [build] then writes has, at byte
    8+2+4+IndexLength, a payload region that is byte for byte the payload
    region of the loaded file, the bytes of the removed entry included.
    (The index block, and with it the whole file, may be shorter.) *)
Theorem C7_remove_keeps_payload `{Platform}
    (path now : string) (file : bytes) (b : UserData.UserDataBlobBuilder)
    (k : string) :
  UserData.load_existing path file = Ret b →
  dict_in k (UserData.users b) = true →
  ∃ b' payload,
    UserData.remove_user b k = (true, b') ∧
    (k ∉ dict_keys (UserData.users b')) ∧
    payload_region native_order file = Some payload ∧
    ∀ file',
      UserData.build now b' = Written file' →
      payload_region native_order file' = Some payload ∧
      drop (8 + 2 + 4 +
            length (encode (json_dumps (UserData.index_json now b')))) file'
        = payload.
Proof.
  intros Hload Hin.
  destruct (load_existing_payload _ _ _ Hload) as [Hpay _].
  exists (UserData.del_user b k), (getvalue (UserData.blob_data b)).
  split; [by unfold UserData.remove_user; rewrite Hin|].
  split; [apply dict_keys_del_notin|].
  split; [done|].
  intros file' Hbuild.
  apply userdata_build_layout in Hbuild as HL.
  split; [by apply versioned_layout_payload in HL|].
  by apply versioned_layout_fields in HL as (_ & _ & _ & _ & ?).
Qed.

(** C7, on the sample store: the container of [alice] and [bob] is loaded
    and [alice] is removed. *)
Lemma C7_remove_keeps_payload_witness :
  ∃ b' payload,
    UserData.remove_user SampleRuns.users_loaded "alice" = (true, b') ∧
    ("alice" ∉ dict_keys (UserData.users b')) ∧
    payload_region native_order SampleRuns.users_file = Some payload ∧
    ∀ file',
      UserData.build "2024-01-03T09:00:00.000001" b' = Written file' →
      payload_region native_order file' = Some payload ∧
      drop (8 + 2 + 4 +
            length (encode (json_dumps
              (UserData.index_json "2024-01-03T09:00:00.000001" b')))) file'
        = payload.
Proof.
  refine (C7_remove_keeps_payload "users.blob" "2024-01-03T09:00:00.000001"
            SampleRuns.users_file SampleRuns.users_loaded "alice" _ _).
  - vm_compute. reflexivity.
  - vm_compute. reflexivity.
Defined.

(** C7 as stated fails: the sample container has 1129 bytes; loaded, with
    [alice] removed and built again it has 621 bytes, because the index
    block lost the entry of [alice] (1067 bytes before, 559 after).  The
    payload region has 48 bytes before and after. *)
Lemma C7_counterexample :
  ∃ b' file',
    UserData.build "2024-01-02T09:00:00.000001" SampleRuns.users_ab
      = Written SampleRuns.users_file ∧
    UserData.load_existing "users.blob" SampleRuns.users_file
      = Ret SampleRuns.users_loaded ∧
    dict_keys (UserData.users SampleRuns.users_loaded) = ["alice"; "bob"] ∧
    UserData.remove_user SampleRuns.users_loaded "alice" = (true, b') ∧
    dict_keys (UserData.users b') = ["bob"] ∧
    UserData.build "2024-01-03T09:00:00.000001" b' = Written file' ∧
    length SampleRuns.users_file = 1129%nat ∧
    length file' = 621%nat ∧
    (length <$> payload_region LittleEndian SampleRuns.users_file) = Some 48%nat ∧
    (length <$> payload_region LittleEndian file') = Some 48%nat.
Proof.
  eexists _, _.
  split; [vm_compute; reflexivity|].
  split; [vm_compute; reflexivity|].
  split; [vm_compute; reflexivity|].
  split; [vm_compute; reflexivity|].
  split; [vm_compute; reflexivity|].
  split; [vm_compute; reflexivity|].
  split_and!; vm_compute; reflexivity.
Qed.

(** ** C2 and C4: extraction and the stored checksum *)
Section ExtractFacts.
Context `{Platform}.


End ExtractFacts.

(** C2 (what the code does).  [extract_to_memory] of [app_blob_manager.py]
    never compares a digest with the stored checksum: for a key in the
    index whose slice decompresses to bytes with another SHA-256 digest than
    the stored one, it returns those bytes, and the loop of [cmd_verify],
    whose comment says the call verifies the checksum, counts the key as
    valid. *)
Theorem C2_extract_to_memory_skips_checksum `{Platform}
    (ex : Manager.AppBlobExtractor) (file : bytes) (k : string)
    (m : Manager.AppMetadata) (compressed_data tar_data : bytes) :
  dict_get (Manager.index ex) k = Some m →
  seek_read file (Manager.data_offset ex + Manager.offset m)
    (Manager.compressed_size m) = Ret compressed_data →
  zlib_decompress compressed_data = Some tar_data →
  sha256_hexdigest tar_data ≠ Manager.checksum m →
  Manager.extract_to_memory ex file k = Ret (Some tar_data) ∧
  Cli.verify_key ex file k = true.
Proof.
  intros Hk Hread Hd _.
  unfold Cli.verify_key, Manager.extract_to_memory.
  by rewrite Hk, Hread, Hd.
Qed.

(** C2, on the sample container whose payload was replaced: the stored
    checksum is that of the archive of [/src/a], the bytes returned are the
    archive of [/src/b], and [cmd_verify] returns 0. *)
Lemma C2_extract_to_memory_skips_checksum_witness :
  Manager._load_index "apps.blob" SampleRuns.manager_file_replaced
    = Ret SampleRuns.manager_extractor ∧
  (Manager.checksum <$> dict_get (Manager.index SampleRuns.manager_extractor) "a")
    = Some (sha256_hexdigest (tar_pack "." Sample.tree_a)) ∧
  sha256_hexdigest (tar_pack "." Sample.tree_b)
    ≠ sha256_hexdigest (tar_pack "." Sample.tree_a) ∧
  (Manager.extract_to_memory SampleRuns.manager_extractor
     SampleRuns.manager_file_replaced "a" = Ret (Some (tar_pack "." Sample.tree_b)) ∧
   Cli.verify_key SampleRuns.manager_extractor
     SampleRuns.manager_file_replaced "a" = true) ∧
  Cli.cmd_verify SampleRuns.manager_extractor SampleRuns.manager_file_replaced = 0.
Proof.
  split; [vm_compute; reflexivity|].
  split; [reflexivity|]. split; [by vm_compute|]. split; [|reflexivity].
  refine (C2_extract_to_memory_skips_checksum SampleRuns.manager_extractor
            SampleRuns.manager_file_replaced "a" _ _ _ _ _ _ _).
  - reflexivity.
  - reflexivity.
  - reflexivity.
  - by vm_compute.
Defined.






(** ** Dependency resolution: termination and result *)
Section Pending.
Lemma pending_cons e es resolved :
  pending (e :: es) resolved =
  ((if decide (e.1 ∈ resolved) then 0 else length e.2) + pending es resolved)%nat.
Proof.
  unfold pending. rewrite filter_cons.
  destruct (decide (e.1 ∉ resolved)) as [Hn|Hn];
    destruct (decide (e.1 ∈ resolved)) as [Hi|Hi]; try done.
  csimpl. by rewrite length_app.
Qed.

Lemma pending_mono es resolved key :
  (pending es (resolved ∪ {[key]}) ≤ pending es resolved)%nat.
Proof.
  induction es as [|e es IH]; [done|].
  rewrite !pending_cons.
  destruct (decide (e.1 ∈ resolved ∪ {[key]})) as [Hi|Hi];
    destruct (decide (e.1 ∈ resolved)) as [Hj|Hj]; try lia.
  exfalso. apply Hi. set_solver.
Qed.

Lemma pending_add es resolved key deps :
  (key, deps) ∈ es → key ∉ resolved →
  (pending es (resolved ∪ {[key]}) + length deps ≤ pending es resolved)%nat.
Proof.
  intros Hin Hnew. induction es as [|e es IH]; [by apply elem_of_nil in Hin|].
  rewrite !pending_cons.
  apply elem_of_cons in Hin as [<-|Hin].
  - simpl. rewrite decide_True by set_solver. rewrite decide_False by done.
    pose proof (pending_mono es resolved key). lia.
  - specialize (IH Hin).
    destruct (decide (e.1 ∈ resolved ∪ {[key]})) as [Hi|Hi];
      destruct (decide (e.1 ∈ resolved)) as [Hj|Hj]; try lia.
    exfalso. apply Hi. set_solver.
Qed.

Lemma pending_empty es : pending es ∅ = length (concat (es.*2)).
Proof.
  unfold pending. f_equal. f_equal. f_equal.
  induction es as [|e es IH]; [done|].
  rewrite filter_cons, decide_True by set_solver. by rewrite IH.
Qed.

Lemma length_filter_le {A} (P : A → Prop) `{∀ x, Decision (P x)} (l : list A) :
  (length (filter P l) ≤ length l)%nat.
Proof.
  induction l as [|x l IH]; [done|].
  rewrite filter_cons. destruct (decide (P x)); simpl; lia.
Qed.
End Pending.

Section ResolveFacts.
Variable lookup : string → option (list string).
(** The entries of the index, each key with its dependency list. *)
Variable entries : list (string * list string).
Hypothesis lookup_entries :
  ∀ k deps, lookup k = Some deps → (k, deps) ∈ entries.

(** The loop ends within [length to_process + pending] iterations. *)
Lemma resolve_loop_terminates fuel resolved warned to_process :
  (length to_process + pending entries resolved ≤ fuel)%nat →
  is_Some (resolve_loop lookup fuel resolved warned to_process).
Proof.
  revert resolved warned to_process.
  induction fuel as [|fuel IH]; intros resolved warned to_process Hfuel.
  - destruct to_process; [by eexists|simpl in Hfuel; lia].
  - destruct to_process as [|key rest]; [by eexists|].
    simpl in *. destruct (decide (key ∈ resolved)) as [Hin|Hnew].
    + apply IH. lia.
    + destruct (lookup key) as [deps|] eqn:Hl.
      * apply IH. rewrite length_app.
        pose proof (pending_add entries resolved key deps
                      (lookup_entries _ _ Hl) Hnew).
        pose proof (length_filter_le (λ dep, dep ∉ resolved ∪ {[key]}) deps).
        lia.
      * apply IH. lia.
Qed.

(** More fuel does not change a result. *)
Lemma resolve_loop_more_fuel fuel fuel' resolved warned to_process res :
  resolve_loop lookup fuel resolved warned to_process = Some res →
  (fuel ≤ fuel')%nat →
  resolve_loop lookup fuel' resolved warned to_process = Some res.
Proof.
  revert fuel' resolved warned to_process.
  induction fuel as [|fuel IH]; intros fuel' resolved warned to_process.
  - destruct to_process; [|done]. simpl. intros Hres _.
    by destruct fuel'.
  - destruct to_process as [|key rest]; [intros Hres _; by destruct fuel'|].
    intros Hres Hle. destruct fuel' as [|fuel']; [lia|].
    simpl in *. destruct (decide (key ∈ resolved)).
    + apply IH; [done|lia].
    + destruct (lookup key); (apply IH; [done|lia]).
Qed.

Lemma resolve_loop_agree f1 f2 resolved warned to_process r1 r2 :
  resolve_loop lookup f1 resolved warned to_process = Some r1 →
  resolve_loop lookup f2 resolved warned to_process = Some r2 →
  r1 = r2.
Proof.
  intros H1 H2.
  apply (resolve_loop_more_fuel _ (f1 `max` f2)) in H1; [|lia].
  apply (resolve_loop_more_fuel _ (f1 `max` f2)) in H2; [|lia].
  congruence.
Qed.
End ResolveFacts.

Section ResolveResult.
Variable lookup : string → option (list string).
Variable keys : list string.

#[local] Abbreviation resolve_inv := (resolve_invariant lookup keys).

Lemma resolve_inv_start : resolve_inv ∅ keys.
Proof.
  split.
  - set_solver.
  - intros k Hk [deps Hl]. by eapply reaches_key.
  - auto.
  - set_solver.
Qed.

Lemma resolve_inv_skip_resolved resolved key rest :
  key ∈ resolved → resolve_inv resolved (key :: rest) →
  resolve_inv resolved rest.
Proof.
  intros Hin [Hs Hw Hk Hc]. split.
  - done.
  - intros k Hr. apply Hw. by apply list_elem_of_further.
  - intros k Hkk Hl. destruct (Hk k Hkk Hl) as [?|[->|?]%elem_of_cons]; auto.
  - intros k deps d Hkr Hl Hd Hld.
    destruct (Hc k deps d Hkr Hl Hd Hld) as [?|[->|?]%elem_of_cons]; auto.
Qed.

Lemma resolve_inv_skip_missing resolved key rest :
  lookup key = None → resolve_inv resolved (key :: rest) →
  resolve_inv resolved rest.
Proof.
  intros Hnone [Hs Hw Hk Hc]. split.
  - done.
  - intros k Hr. apply Hw. by apply list_elem_of_further.
  - intros k Hkk Hl. destruct (Hk k Hkk Hl) as [?|[->|?]%elem_of_cons]; auto.
    rewrite Hnone in Hl. by destruct Hl.
  - intros k deps d Hkr Hl Hd Hld.
    destruct (Hc k deps d Hkr Hl Hd Hld) as [?|[->|?]%elem_of_cons]; auto.
    rewrite Hnone in Hld. by destruct Hld.
Qed.

Lemma resolve_inv_add resolved key rest deps :
  lookup key = Some deps → resolve_inv resolved (key :: rest) →
  resolve_inv (resolved ∪ {[key]})
    (rest ++ filter (λ dep, dep ∉ resolved ∪ {[key]}) deps).
Proof.
  intros Hl [Hs Hw Hk Hc].
  assert (reaches lookup keys key) as Hkey.
  { apply Hw; [apply list_elem_of_here|by eexists]. }
  split.
  - intros k [Hr| ->%elem_of_singleton]%elem_of_union; auto.
  - intros k [Hr|[Hn Hd]%list_elem_of_filter]%elem_of_app [deps' Hl'].
    + apply Hw; [by apply list_elem_of_further|by eexists].
    + by eapply reaches_dep.
  - intros k Hkk Hlk.
    destruct (Hk k Hkk Hlk) as [?|[->|?]%elem_of_cons].
    + left. set_solver.
    + left. set_solver.
    + right. apply elem_of_app. by left.
  - intros k deps0 d [Hr| ->%elem_of_singleton]%elem_of_union Hl0 Hd Hld.
    + destruct (Hc k deps0 d Hr Hl0 Hd Hld) as [?|[->|?]%elem_of_cons].
      * left. set_solver.
      * left. set_solver.
      * right. apply elem_of_app. by left.
    + rewrite Hl in Hl0. injection Hl0 as <-.
      destruct (decide (d ∈ resolved ∪ {[key]})) as [?|Hn]; [by left|].
      right. apply elem_of_app. right. by apply list_elem_of_filter.
Qed.

Lemma resolve_loop_inv fuel resolved warned to_process r w :
  resolve_loop lookup fuel resolved warned to_process = Some (r, w) →
  resolve_inv resolved to_process → resolve_inv r [].
Proof.
  revert resolved warned to_process.
  induction fuel as [|fuel IH]; intros resolved warned to_process.
  - destruct to_process; [|done]. by intros [= <- <-].
  - destruct to_process as [|key rest]; [by intros [= <- <-]|].
    simpl. destruct (decide (key ∈ resolved)) as [Hin|Hnew].
    + intros Hres Hinv. eapply IH; [done|].
      by eapply resolve_inv_skip_resolved.
    + destruct (lookup key) as [deps|] eqn:Hl; intros Hres Hinv.
      * eapply IH; [done|]. by apply resolve_inv_add.
      * eapply IH; [done|]. by eapply resolve_inv_skip_missing.
Qed.

Lemma reaches_lookup k : reaches lookup keys k → is_Some (lookup k).
Proof. by intros [?|?]; eexists. Qed.

(** The resolved set is exactly the set of keys [reaches] describes. *)
Lemma resolve_loop_reaches fuel r w :
  resolve_loop lookup fuel ∅ [] keys = Some (r, w) →
  ∀ k, k ∈ r ↔ reaches lookup keys k.
Proof.
  intros Hres.
  destruct (resolve_loop_inv _ _ _ _ _ _ Hres resolve_inv_start)
    as [Hs _ Hk Hc].
  intros k. split; [apply Hs|].
  induction 1 as [k deps Hkk Hl|k deps d deps' Hr IH Hl Hd Hl'].
  - destruct (Hk k Hkk) as [?|Hn]; [by eexists|done|].
    by apply elem_of_nil in Hn.
  - destruct (Hc k deps d IH Hl Hd) as [?|Hn]; [by eexists|done|].
    by apply elem_of_nil in Hn.
Qed.
End ResolveResult.

Section ResolveWarnings.
Variable lookup : string → option (list string).

Lemma resolve_loop_grows fuel resolved warned to_process r w :
  resolve_loop lookup fuel resolved warned to_process = Some (r, w) →
  resolved ⊆ r.
Proof.
  revert resolved warned to_process.
  induction fuel as [|fuel IH]; intros resolved warned to_process.
  - destruct to_process; [|done]. by intros [= <- <-].
  - destruct to_process as [|key rest]; [by intros [= <- <-]|].
    simpl. destruct (decide (key ∈ resolved)); [by apply IH|].
    destruct (lookup key); intros Hres%IH; set_solver.
Qed.

(** The keys warned about are the keys met — in the work list, or among
    the dependencies of an entry that joins the resolved set — that the
    index does not have. *)
Lemma resolve_loop_warned fuel resolved warned to_process r w :
  resolve_loop lookup fuel resolved warned to_process = Some (r, w) →
  (∀ k, k ∈ resolved → is_Some (lookup k)) →
  ∀ k, k ∈ w ↔
       k ∈ warned ∨
       (lookup k = None ∧
        (k ∈ to_process ∨
         ∃ k0 deps, k0 ∈ r ∧ (k0 ∉ resolved) ∧ lookup k0 = Some deps ∧ k ∈ deps)).
Proof.
  revert resolved warned to_process.
  induction fuel as [|fuel IH]; intros resolved warned to_process.
  - destruct to_process; [|done]. intros [= <- <-] _ k.
    split; [by left|]. intros [?|[_ [Hn|(k0 & deps & ? & ? & _)]]]; try done.
    by apply elem_of_nil in Hn.
  - destruct to_process as [|key rest].
    { intros [= <- <-] _ k.
      split; [by left|]. intros [?|[_ [Hn|(k0 & deps & ? & ? & _)]]]; try done.
      by apply elem_of_nil in Hn. }
    simpl. destruct (decide (key ∈ resolved)) as [Hin|Hnew].
    + intros Hres Hsome k. rewrite (IH _ _ _ Hres Hsome k).
      split; (intros [?|[Hnone Hcase]]; [by left|right; split; [done|]]).
      * destruct Hcase as [?|?]; [left; by apply list_elem_of_further|by right].
      * destruct Hcase as [[->|?]%elem_of_cons|?]; [|by left|by right].
        destruct (Hsome _ Hin) as [? Hl]. congruence.
    + destruct (lookup key) as [deps|] eqn:Hl; intros Hres Hsome k.
      * assert (∀ k', k' ∈ resolved ∪ {[key]} → is_Some (lookup k')) as Hsome'.
        { intros k' [?| ->%elem_of_singleton]%elem_of_union; [auto|by eexists]. }
        rewrite (IH _ _ _ Hres Hsome' k).
        pose proof (resolve_loop_grows _ _ _ _ _ _ Hres) as Hsub.
        split; (intros [?|[Hnone Hcase]]; [by left|right; split; [done|]]).
        -- destruct Hcase as [[?|[_ Hd]%list_elem_of_filter]%elem_of_app
                             |(k0 & deps0 & Hk0 & Hn0 & Hl0 & Hd0)].
           ++ left. by apply list_elem_of_further.
           ++ right. exists key, deps. split_and!; [set_solver|done..].
           ++ right. exists k0, deps0. split_and!; [done|set_solver|done..].
        -- destruct Hcase as [[->|?]%elem_of_cons
                             |(k0 & deps0 & Hk0 & Hn0 & Hl0 & Hd0)].
           ++ congruence.
           ++ left. apply elem_of_app. by left.
           ++ destruct (decide (k0 = key)) as [->|Hne].
              ** left. apply elem_of_app. right.
                 rewrite Hl in Hl0. injection Hl0 as <-.
                 apply list_elem_of_filter. split; [|done].
                 intros Hk. destruct (Hsome' _ Hk) as [? Hx]. congruence.
              ** right. exists k0, deps0. split_and!; [done|set_solver|done..].
      * rewrite (IH _ _ _ Hres Hsome k).
        split.
        -- intros [[?| ->%list_elem_of_singleton]%elem_of_app|[Hnone Hcase]].
           ++ by left.
           ++ right. split; [done|]. left. apply list_elem_of_here.
           ++ right. split; [done|].
              destruct Hcase as [?|?]; [left; by apply list_elem_of_further|by right].
        -- intros [?|[Hnone Hcase]].
           ++ left. apply elem_of_app. by left.
           ++ destruct Hcase as [[->|?]%elem_of_cons|?].
              ** left. apply elem_of_app. right. by apply list_elem_of_singleton.
              ** right. split; [done|]. by left.
              ** right. split; [done|]. by right.
Qed.

(** A request for one key whose only dependency is not in the index. *)
Lemma resolve_loop_missing_dep A Z :
  lookup A = Some [Z] → lookup Z = None →
  resolve_loop lookup 2 ∅ [] [A] = Some ({[A]}, [Z]).
Proof.
  intros HA HZ. assert (Z ≠ A) as Hne by congruence.
  simpl. rewrite decide_False by set_solver. rewrite HA.
  rewrite filter_cons, decide_True by set_solver. simpl.
  rewrite decide_False by set_solver. rewrite HZ.
  by rewrite (left_id_L ∅ (∪)).
Qed.
End ResolveWarnings.

(** ** C5 and C10: the resolvers of the two catalogs *)
Section Resolvers.
Variable lookup : string → option (list string).
Variable entries : list (string * list string).
Hypothesis lookup_entries :
  ∀ k deps, lookup k = Some deps → (k, deps) ∈ entries.

#[local] Abbreviation resolve := (resolve_with lookup entries).

Lemma resolve_bound_enough keys extra :
  ∃ r w,
    resolve_loop lookup (resolve_bound (entries.*2) keys + extra) ∅ [] keys
    = Some (r, w).
Proof.
  destruct (resolve_loop_terminates lookup entries lookup_entries
              (resolve_bound (entries.*2) keys + extra) ∅ [] keys)
    as [[r w] Hres].
  - rewrite pending_empty. unfold resolve_bound. lia.
  - by exists r, w.
Qed.

Lemma resolve_run keys r w :
  resolve keys = Some (r, w) →
  ∃ s, resolve_loop lookup (resolve_bound (entries.*2) keys) ∅ [] keys
       = Some (s, w) ∧ r = elements s.
Proof.
  unfold resolve_with.
  destruct (resolve_loop lookup _ ∅ [] keys) as [[s w']|]; [|done].
  simpl. intros [= <- <-]. by exists s.
Qed.

Lemma resolve_of_loop fuel keys s w :
  resolve_loop lookup fuel ∅ [] keys = Some (s, w) →
  resolve keys = Some (elements s, w).
Proof.
  intros Hres. unfold resolve_with.
  destruct (resolve_bound_enough keys 0) as (s' & w' & Hres').
  rewrite Nat.add_0_r in Hres'. rewrite Hres'. simpl.
  by pose proof (resolve_loop_agree _ _ _ _ _ _ _ _ Hres Hres') as [= -> ->].
Qed.

Lemma reaches_of_resolved keys (s : gset string) :
  (∀ k, k ∈ s ↔ reaches lookup keys k) →
  ∀ k, reaches lookup (elements s) k ↔ reaches lookup keys k.
Proof.
  intros Hs k. split.
  - induction 1 as [k deps Hk Hl|k deps d deps' _ IH Hl Hd Hl'].
    + apply Hs. by apply elem_of_elements.
    + by eapply reaches_dep.
  - intros Hr. destruct (reaches_lookup _ _ _ Hr) as [deps Hl].
    eapply reaches_key; [|done]. apply elem_of_elements. by apply Hs.
Qed.

Lemma resolver_closure : closure_properties lookup resolve.
Proof.
  split.
  - intros keys. unfold resolve_with.
    destruct (resolve_bound_enough keys 0) as (r & w & Hres).
    rewrite Nat.add_0_r in Hres. rewrite Hres. by eexists.
  - intros keys r w (s & Hres & ->)%resolve_run k.
    rewrite elem_of_elements. by eapply resolve_loop_reaches.
  - intros A B C deps_C HA HB HC Hdeps.
    destruct (resolve_bound_enough [A] 0) as (s & w & Hres).
    exists (elements s), w. split; [by eapply resolve_of_loop|].
    intros k. rewrite elem_of_elements, (resolve_loop_reaches _ _ _ _ _ Hres).
    split.
    + induction 1 as [k deps Hk Hl|k deps d deps' _ IH Hl Hd Hl'].
      * apply list_elem_of_singleton in Hk as ->. apply list_elem_of_here.
      * apply elem_of_cons in IH as [->|IH].
        { rewrite HA in Hl. injection Hl as <-.
          apply list_elem_of_singleton in Hd as ->. set_solver. }
        apply elem_of_cons in IH as [->|IH].
        { rewrite HB in Hl. injection Hl as <-.
          apply list_elem_of_singleton in Hd as ->. set_solver. }
        apply list_elem_of_singleton in IH as ->.
        rewrite HC in Hl. injection Hl as <-. by apply Hdeps.
    + assert (reaches lookup [A] A) as RA.
      { eapply reaches_key; [apply list_elem_of_here|done]. }
      assert (reaches lookup [A] B) as RB.
      { eapply (reaches_dep _ _ A); [done..|apply list_elem_of_here|done]. }
      intros [->|[->|[->|Hn]%elem_of_cons]%elem_of_cons]%elem_of_cons; [done..| |].
      * eapply (reaches_dep _ _ B); [done..|apply list_elem_of_here|done].
      * by apply elem_of_nil in Hn.
  - intros keys r w (s & Hres & ->)%resolve_run.
    pose proof (resolve_loop_reaches _ _ _ _ _ Hres) as Hs.
    destruct (resolve_bound_enough (elements s) 0) as (s' & w' & Hres').
    exists w'. rewrite (resolve_of_loop _ _ _ _ Hres').
    pose proof (resolve_loop_reaches _ _ _ _ _ Hres') as Hs'.
    assert (s' = s) as ->; [|done].
    apply set_eq. intros k. rewrite Hs', Hs. by apply reaches_of_resolved.
  - intros keys r w (s & Hres & ->)%resolve_run k.
    rewrite (resolve_loop_warned _ _ _ _ _ _ _ Hres) by set_solver.
    split.
    + intros [Hn|[Hnone [?|(k0 & deps & ? & _ & ? & ?)]]].
      * by apply elem_of_nil in Hn.
      * split; [done|]. by left.
      * split; [done|]. right. exists k0, deps.
        by rewrite elem_of_elements.
    + intros [Hnone [?|(k0 & deps & Hk0 & ? & ?)]]; right; (split; [done|]).
      * by left.
      * right. exists k0, deps. rewrite elem_of_elements in Hk0.
        split_and!; [done|set_solver|done..].
  - intros keys r w k (s & Hres & ->)%resolve_run Hnone.
    rewrite elem_of_elements, (resolve_loop_reaches _ _ _ _ _ Hres).
    intros [? Hl]%reaches_lookup. congruence.
  - intros A Z HA HZ.
    rewrite (resolve_of_loop _ _ _ _ (resolve_loop_missing_dep _ _ _ HA HZ)).
    by rewrite elements_singleton.
Qed.

(** Termination, with any amount of further fuel, and no key twice. *)
Lemma resolver_terminates keys extra :
  ∃ r w,
    resolve keys = Some (r, w) ∧
    prod_map elements id <$>
      resolve_loop lookup (resolve_bound (entries.*2) keys + extra) ∅ [] keys
    = Some (r, w) ∧
    NoDup r.
Proof.
  destruct (resolve_bound_enough keys extra) as (s & w & Hres).
  exists (elements s), w. split; [by eapply resolve_of_loop|].
  rewrite Hres. split; [done|]. apply NoDup_elements.
Qed.
End Resolvers.

Lemma closure_properties_ext lookup resolve resolve' :
  (∀ keys, resolve keys = resolve' keys) →
  closure_properties lookup resolve → closure_properties lookup resolve'.
Proof.
  intros Heq [Ht Hr Hc Hi Hw Hs Hm]. split.
  - intros keys. rewrite <- Heq. apply Ht.
  - intros keys r w. rewrite <- Heq. apply Hr.
  - intros A B C deps_C HA HB HC Hd. rewrite <- Heq. by eapply Hc.
  - intros keys r w. rewrite <- !Heq. apply Hi.
  - intros keys r w. rewrite <- Heq. apply Hw.
  - intros keys r w k. rewrite <- Heq. apply Hs.
  - intros A Z. rewrite <- Heq. apply Hm.
Qed.

Lemma dict_get_Some_elem {V} (d : dict V) k v :
  dict_get d k = Some v → (k, v) ∈ d.
Proof.
  induction d as [|[k' v'] d IH]; simpl; [done|].
  case_decide; [intros [= <-]; subst; apply list_elem_of_here|].
  intros Hg. apply list_elem_of_further. by apply IH.
Qed.

Lemma values_prod_map {V W} (f : V → W) (d : dict V) :
  (prod_map id f <$> d).*2 = f <$> dict_values d.
Proof.
  unfold dict_values. induction d as [|[k v] d IH]; csimpl; [done|].
  by rewrite IH.
Qed.

Section CatalogResolvers.
Lemma manager_lookup_entries ex k deps :
  Manager.lookup_deps ex k = Some deps → (k, deps) ∈ manager_entries ex.
Proof.
  unfold Manager.lookup_deps, manager_entries.
  rewrite <- dict_get_fmap. apply dict_get_Some_elem.
Qed.

Lemma manager_resolve_unfold ex keys extra :
  Manager.resolve_dependencies_fuel
    (resolve_bound (Manager.dependencies <$> dict_values (Manager.index ex)) keys
     + extra) ex keys
  = prod_map elements id <$>
      resolve_loop (Manager.lookup_deps ex)
        (resolve_bound ((manager_entries ex).*2) keys + extra) ∅ [] keys.
Proof.
  unfold Manager.resolve_dependencies_fuel, manager_entries.
  by rewrite values_prod_map.
Qed.

Lemma binary_lookup_entries b k deps :
  Binary.lookup_deps b k = Some deps → (k, deps) ∈ binary_entries b.
Proof.
  unfold Binary.lookup_deps, binary_entries.
  rewrite <- dict_get_fmap. apply dict_get_Some_elem.
Qed.

Lemma binary_resolve_unfold b keys extra :
  Binary.resolve_dependencies_fuel
    (resolve_bound
       ((λ m, default [] (Binary.dependencies m)) <$> dict_values (Binary.binaries b))
       keys + extra) b keys
  = prod_map elements id <$>
      resolve_loop (Binary.lookup_deps b)
        (resolve_bound ((binary_entries b).*2) keys + extra) ∅ [] keys.
Proof.
  unfold Binary.resolve_dependencies_fuel, binary_entries.
  by rewrite values_prod_map.
Qed.
End CatalogResolvers.

(** C5 (amended).  For every index in which A depends on [B], B depends
    on [C] and C is an entry whose dependencies are among A, B, C (for
    instance none), [resolve_dependencies([A])] returns exactly the set
    {A, B, C}; in general it returns the set of keys reached from the
    request.  Resolving the returned keys again returns the same keys, and
    the same request always gives the same result.  Every requested or
    referenced key that is not in the index is skipped with a warning, and
    the call returns for every request (nothing in it raises); if A depends
    on a key Z that is not in the index, [resolve_dependencies([A])]
    returns {A}, with a warning for Z.  Both resolvers. *)
Theorem C5_dependency_closure :
  (∀ ex, closure_properties (Manager.lookup_deps ex)
           (Manager.resolve_dependencies ex)) ∧
  (∀ b, closure_properties (Binary.lookup_deps b)
          (Binary.resolve_dependencies b)).
Proof.
  split.
  - intros ex.
    eapply closure_properties_ext;
      [|apply (resolver_closure _ _ (manager_lookup_entries ex))].
    intros keys. simpl. unfold Manager.resolve_dependencies.
    pose proof (manager_resolve_unfold ex keys 0) as Hu.
    rewrite !Nat.add_0_r in Hu. by rewrite Hu.
  - intros b.
    eapply closure_properties_ext;
      [|apply (resolver_closure _ _ (binary_lookup_entries b))].
    intros keys. simpl. unfold Binary.resolve_dependencies.
    pose proof (binary_resolve_unfold b keys 0) as Hu.
    rewrite !Nat.add_0_r in Hu. by rewrite Hu.
Qed.

(** C10.  [resolve_dependencies] terminates for every index and every
    request list — dependency cycles and repeated keys included: the loop
    ends within the iterations [resolve_bound] counts, further fuel does
    not change the result, and no key occurs twice in the returned list.
    Both resolvers. *)
Theorem C10_resolve_terminates :
  (∀ ex keys extra,
      ∃ r w,
        Manager.resolve_dependencies ex keys = Some (r, w) ∧
        Manager.resolve_dependencies_fuel
          (resolve_bound (Manager.dependencies <$> dict_values (Manager.index ex)) keys
           + extra) ex keys = Some (r, w) ∧
        NoDup r) ∧
  (∀ b keys extra,
      ∃ r w,
        Binary.resolve_dependencies b keys = Some (r, w) ∧
        Binary.resolve_dependencies_fuel
          (resolve_bound
             ((λ m, default [] (Binary.dependencies m)) <$>
                dict_values (Binary.binaries b)) keys
           + extra) b keys = Some (r, w) ∧
        NoDup r).
Proof.
  split.
  - intros ex keys extra.
    destruct (resolver_terminates _ _ (manager_lookup_entries ex) keys extra)
      as (r & w & Hres & Hextra & Hnd).
    exists r, w. split_and!; [|by rewrite manager_resolve_unfold|done].
    unfold Manager.resolve_dependencies.
    pose proof (manager_resolve_unfold ex keys 0) as Hu.
    rewrite !Nat.add_0_r in Hu. by rewrite Hu.
  - intros b keys extra.
    destruct (resolver_terminates _ _ (binary_lookup_entries b) keys extra)
      as (r & w & Hres & Hextra & Hnd).
    exists r, w. split_and!; [|by rewrite binary_resolve_unfold|done].
    unfold Binary.resolve_dependencies.
    pose proof (binary_resolve_unfold b keys 0) as Hu.
    rewrite !Nat.add_0_r in Hu. by rewrite Hu.
Qed.

(** C5, on sample indexes: the chain A, B, C, and a dependency that is
    missing. *)
Lemma C5_dependency_closure_witness :
  (∃ r w,
      Manager.resolve_dependencies SampleRuns.index_chain ["A"] = Some (r, w) ∧
      ∀ k, k ∈ r ↔ k ∈ ["A"; "B"; "C"]) ∧
  (∃ w',
      Manager.resolve_dependencies SampleRuns.index_dangling ["A"; "B"]
      = Some (["A"; "B"], w')) ∧
  (∀ k, k ∈ ["C"] ↔
        Manager.lookup_deps SampleRuns.index_dangling k = None ∧
        (k ∈ ["A"] ∨
         ∃ k0 deps, k0 ∈ ["A"; "B"] ∧
           Manager.lookup_deps SampleRuns.index_dangling k0 = Some deps ∧
           k ∈ deps)).
Proof.
  destruct C5_dependency_closure as [HM _].
  split_and!.
  - apply (closure_chain _ _ (HM SampleRuns.index_chain) "A" "B" "C" []);
      [reflexivity..|].
    intros d Hd. by apply elem_of_nil in Hd.
  - apply (closure_idempotent _ _ (HM SampleRuns.index_dangling) ["A"] _ ["C"]).
    reflexivity.
  - apply (closure_warned _ _ (HM SampleRuns.index_dangling) ["A"]).
    reflexivity.
Defined.

(** C5 as stated fails on two indexes in which A depends on [B] and B on
    [C]: when there is no entry C the result is {A, B}, with a warning for
    C; when C depends on [D] the result holds D as well. *)
Lemma C5_counterexample :
  (Manager.lookup_deps SampleRuns.index_dangling "A" = Some ["B"] ∧
   Manager.lookup_deps SampleRuns.index_dangling "B" = Some ["C"] ∧
   Manager.resolve_dependencies SampleRuns.index_dangling ["A"]
   = Some (["A"; "B"], ["C"]) ∧
   ("C" ∉ ["A"; "B"])) ∧
  (Manager.lookup_deps SampleRuns.index_longer "A" = Some ["B"] ∧
   Manager.lookup_deps SampleRuns.index_longer "B" = Some ["C"] ∧
   ∃ r, Manager.resolve_dependencies SampleRuns.index_longer ["A"]
        = Some (r, []) ∧
        "D" ∈ r ∧ length r = 4%nat).
Proof.
  split.
  - split_and!; [reflexivity..|].
    intros [?|[?|?%elem_of_nil]%elem_of_cons]%elem_of_cons; done.
  - split; [reflexivity|]. split; [reflexivity|].
    eexists. split; [vm_compute; reflexivity|].
    split; [|reflexivity]. set_solver.
Qed.

(** C10, on a cycle: A and B depend on each other, and the request names A
    twice. *)
Example resolve_cycle_example :
  ∃ r, Manager.resolve_dependencies SampleRuns.index_cycle ["A"; "A"; "B"]
       = Some (r, []) ∧
       NoDup r ∧ ∀ k, k ∈ r ↔ k ∈ ["A"; "B"].
Proof.
  eexists. split; [vm_compute; reflexivity|].
  split; [|set_solver].
  apply NoDup_cons. split; [set_solver|]. apply NoDup_singleton.
Qed.

(** * Further properties *)

(** ** Recorded slices hold what was written *)
Section RecordedFacts.
Context `{Platform}.

Lemma payload_slice_app payload more off csz :
  0 ≤ off → off + csz ≤ len payload →
  payload_slice (payload ++ more) off csz = payload_slice payload off csz.
Proof.
  intros H0 H1. unfold payload_slice, len in *.
  destruct (decide (csz < 0)) as [Hneg|Hpos].
  - rewrite Z2Nat.nonpos by lia. by rewrite !take_0.
  - rewrite drop_app_le by lia.
    rewrite take_app_le; [done|]. rewrite length_drop. lia.
Qed.

Lemma payload_slice_end payload data :
  payload_slice (payload ++ data) (len payload) (len data) = data.
Proof.
  unfold payload_slice, len. rewrite !Nat2Z.id.
  rewrite drop_app_length. by rewrite take_ge.
Qed.

Lemma slice_recorded_app payload more off csz size checksum :
  slice_recorded payload off csz size checksum →
  slice_recorded (payload ++ more) off csz size checksum.
Proof.
  intros (H0 & H1 & tar & Hs & Hc & Hz & Hd).
  split; [done|]. split; [rewrite len_app; unfold len in *; lia|].
  exists tar. by rewrite payload_slice_app.
Qed.

Lemma slice_recorded_end payload tar_data :
  slice_recorded (payload ++ zlib_compress tar_data) (len payload)
    (len (zlib_compress tar_data)) (len tar_data) (sha256_hexdigest tar_data).
Proof.
  split; [unfold len; lia|]. split; [rewrite len_app; lia|].
  exists tar_data. by rewrite payload_slice_end.
Qed.

(** The invariant of the application builders: the buffer position and
    the cursor are at the end of the payload, and every entry describes its
    slice. *)
Lemma manager_built_recorded b :
  Builds.manager_built b →
  tell (Manager.blob_data b) = length (getvalue (Manager.blob_data b)) ∧
  Manager.current_offset b = len (getvalue (Manager.blob_data b)) ∧
  ∀ k m, dict_get (Manager.apps b) k = Some m →
         Manager.key m = k ∧
         slice_recorded (getvalue (Manager.blob_data b)) (Manager.offset m)
           (Manager.compressed_size m) (Manager.size m) (Manager.checksum m).
Proof.
  induction 1 as [p|fs b k n p v deps b' _ (Ht & Hc & Hall) Hadd].
  - split; [done|]. split; [done|]. intros k m Hget. done.
  - unfold Manager.add_application in Hadd.
    destruct (fs p) as [tree|]; [|done]. injection Hadd as <-.
    rewrite bio_write_at_end by done. simpl.
    split; [done|]. split; [rewrite len_app; lia|].
    intros k' m. destruct (decide (k = k')) as [<-|Hne].
    + rewrite dict_get_set_eq. intros [= <-]. simpl. split; [done|].
      rewrite Hc. apply slice_recorded_end.
    + rewrite dict_get_set_ne by done. intros [Hk Hs]%Hall.
      split; [done|]. by apply slice_recorded_app.
Qed.

Lemma appbuilder_built_recorded b :
  appbuilder_built b →
  tell (AppBuilder.blob_data b) = length (getvalue (AppBuilder.blob_data b)) ∧
  AppBuilder.current_offset b = len (getvalue (AppBuilder.blob_data b)) ∧
  ∀ k m, dict_get (AppBuilder.apps b) k = Some m →
         AppBuilder.key m = k ∧
         slice_recorded (getvalue (AppBuilder.blob_data b)) (AppBuilder.offset m)
           (AppBuilder.compressed_size m) (AppBuilder.size m)
           (AppBuilder.checksum m).
Proof.
  induction 1 as [p|fs now b k n p v deps b' _ (Ht & Hc & Hall) Hadd].
  - split; [done|]. split; [done|]. intros k m Hget. done.
  - unfold AppBuilder.add_application in Hadd.
    destruct (fs p) as [tree|]; [|done]. injection Hadd as <-.
    rewrite bio_write_at_end by done. simpl.
    split; [done|]. split; [rewrite len_app; lia|].
    intros k' m. destruct (decide (k = k')) as [<-|Hne].
    + rewrite dict_get_set_eq. intros [= <-]. simpl. split; [done|].
      rewrite Hc. apply slice_recorded_end.
    + rewrite dict_get_set_ne by done. intros [Hk Hs]%Hall.
      split; [done|]. by apply slice_recorded_app.
Qed.

Lemma binary_built_recorded b :
  Builds.binary_built b →
  tell (Binary.blob_data b) = length (getvalue (Binary.blob_data b)) ∧
  Binary.current_offset b = len (getvalue (Binary.blob_data b)) ∧
  ∀ k m, dict_get (Binary.binaries b) k = Some m →
         Binary.key m = k ∧
         slice_recorded (getvalue (Binary.blob_data b)) (Binary.offset m)
           (Binary.compressed_size m) (Binary.size m) (Binary.checksum m).
Proof.
  induction 1 as [p|fs now b k src a b' _ (Ht & Hc & Hall) Hadd].
  - split; [done|]. split; [done|]. intros k m Hget. done.
  - unfold Binary.add_binary in Hadd.
    destruct (dict_in k (Binary.binaries b)); [done|].
    destruct (fs src) as [tree|]; [|done]. injection Hadd as <-.
    rewrite bio_write_at_end by done. simpl.
    split; [done|]. split; [rewrite len_app; lia|].
    intros k' m. destruct (decide (k = k')) as [<-|Hne].
    + rewrite dict_get_set_eq. intros [= <-]. simpl. split; [done|].
      rewrite Hc. apply slice_recorded_end.
    + rewrite dict_get_set_ne by done. intros [Hk Hs]%Hall.
      split; [done|]. by apply slice_recorded_app.
Qed.

Lemma user_recorded_app payload more m :
  user_recorded payload m → user_recorded (payload ++ more) m.
Proof.
  intros (off & csz & size & sum & ? & ? & ? & ? & Hs).
  exists off, csz, size, sum. split_and!; try done. by apply slice_recorded_app.
Qed.

Lemma user_built_recorded b :
  Builds.user_built b →
  tell (UserData.blob_data b) = length (getvalue (UserData.blob_data b)) ∧
  UserData.current_offset b = len (getvalue (UserData.blob_data b)) ∧
  ∀ k m, dict_get (UserData.users b) k = Some m →
         get_str m "user_id" = Some k ∧
         user_recorded (getvalue (UserData.blob_data b)) m.
Proof.
  induction 1 as [p|fs now1 now2 b uid src descr quota b' _ (Ht & Hc & Hall) Hadd].
  - split; [done|]. split; [done|]. intros k m Hget. done.
  - unfold UserData.add_user in Hadd.
    destruct (dict_in uid (UserData.users b)); [done|].
    destruct (fs src) as [tree|]; [|done]. injection Hadd as <-.
    rewrite bio_write_at_end by done. simpl.
    split; [done|]. split; [rewrite len_app; lia|].
    intros k' m. destruct (decide (uid = k')) as [<-|Hne].
    + rewrite dict_get_set_eq. intros [= <-]. split; [done|].
      eexists _, _, _, _. split_and!; [reflexivity..|].
      rewrite Hc. apply slice_recorded_end.
    + rewrite dict_get_set_ne by done. intros [Hk Hs]%Hall.
      split; [done|]. by apply user_recorded_app.
Qed.
End RecordedFacts.

(** ** Reading back what [json.dumps] wrote *)

Lemma append_cons (x : ascii) (a b : string) :
  String x a +:+ b = String x (a +:+ b).
Proof. reflexivity. Qed.

Lemma append_nil_l (b : string) : "" +:+ b = b.
Proof. reflexivity. Qed.

Ltac str_simpl := rewrite ?append_cons, ?append_nil_l.

(** Evaluate the code of a character constant. *)
Ltac code_eval :=
  repeat match goal with
  | |- context [nat_of_ascii ?c] =>
      let v := eval vm_compute in (nat_of_ascii c) in
      progress change (nat_of_ascii c) with v
  end.

Lemma append_assoc (a b c : string) : (a +:+ b) +:+ c = a +:+ (b +:+ c).
Proof. induction a as [|x a IH]; str_simpl; [done|by f_equal]. Qed.

Lemma append_nil_r (a : string) : a +:+ "" = a.
Proof. induction a as [|x a IH]; str_simpl; [done|by f_equal]. Qed.

Lemma length_append (a b : string) :
  String.length (a +:+ b) = (String.length a + String.length b)%nat.
Proof. induction a as [|x a IH]; str_simpl; simpl; [done|by rewrite IH]. Qed.

Ltac str_len :=
  repeat first
    [ rewrite length_append
    | progress cbn [String.length]
    | progress rewrite ?append_cons, ?append_nil_l ].

Lemma strip_prefix_app (p s : string) : strip_prefix p (p +:+ s) = Some s.
Proof.
  unfold strip_prefix.
  assert (String.prefix p (p +:+ s) = true) as ->.
  { induction p as [|x p IH]; str_simpl; simpl; [by destruct s|].
    destruct (ascii_dec x x); [done|congruence]. }
  f_equal. rewrite length_append.
  replace (String.length p + String.length s - String.length p)%nat
    with (String.length s) by lia.
  induction p as [|x p IH]; str_simpl; simpl; [|done].
  clear. induction s as [|y s IH]; simpl; [done|by f_equal].
Qed.

(** *** Integers *)

Lemma parse_digits_uint (d : Decimal.uint) (acc : positive) (rest : string) :
  parse_digits (Z.pos acc) (NilEmpty.string_of_uint d +:+ rest) =
  parse_digits (Z.pos (Pos.of_uint_acc d acc)) rest.
Proof.
  revert acc. induction d; intros acc; simpl; str_simpl; [done|..];
    simpl; (etrans; [|apply IHd]); f_equal; code_eval; lia.
Qed.

Lemma nzhead_head (d : Decimal.uint) :
  match Decimal.nzhead d with Decimal.D0 _ => False | _ => True end.
Proof. induction d; simpl; done. Qed.

(** The decimal digits of a positive number start with a digit other than
    zero. *)
Lemma to_uint_head (p : positive) :
  match Pos.to_uint p with
  | Decimal.Nil | Decimal.D0 _ => False
  | _ => True
  end.
Proof.
  pose proof (DecimalPos.Unsigned.to_of (Pos.to_uint p)) as Hn.
  rewrite DecimalPos.Unsigned.of_to in Hn. simpl in Hn.
  pose proof (DecimalPos.Unsigned.to_uint_nonzero p) as Hz.
  pose proof (nzhead_head (Pos.to_uint p)) as Hh.
  unfold Decimal.unorm in Hn.
  destruct (Decimal.nzhead (Pos.to_uint p)) eqn:E; rewrite Hn in *; done.
Qed.

Lemma parse_digits_stop (acc : Z) (rest : string) :
  number_continues rest = false → parse_digits acc rest = (acc, rest).
Proof.
  destruct rest as [|c r]; [done|]. simpl.
  destruct (digit_val c); [|done].
  rewrite bool_decide_eq_true_2 by eauto. done.
Qed.

Lemma parse_nat_part_pos (p : positive) (rest : string) :
  number_continues rest = false →
  parse_nat_part (NilZero.string_of_uint (Pos.to_uint p) +:+ rest)
  = Some (Z.pos p, rest).
Proof.
  intros Hrest.
  pose proof (to_uint_head p) as Hh.
  pose proof (DecimalPos.Unsigned.of_to p) as Hof.
  destruct (Pos.to_uint p) as [|d|d|d|d|d|d|d|d|d|d]; try done;
    simpl in Hof; injection Hof as Hof;
    unfold parse_nat_part; simpl; str_simpl; simpl;
    match goal with
    | |- context [parse_digits ?k _] =>
        change k with (Z.pos (Z.to_pos k))
    end;
    rewrite parse_digits_uint; simpl; rewrite Hof;
    rewrite parse_digits_stop by done; by rewrite Hrest.
Qed.

(** [parse_int] reads a printed integer back. *)
Lemma parse_int_string_of_Z (z : Z) (rest : string) :
  number_continues rest = false →
  parse_int (string_of_Z z +:+ rest) = Some (z, rest).
Proof.
  intros Hrest. unfold string_of_Z. destruct z as [|p|p]; simpl; str_simpl.
  - simpl. by rewrite Hrest.
  - pose proof (parse_nat_part_pos p rest Hrest) as Hp.
    unfold parse_int.
    pose proof (to_uint_head p) as Hh.
    destruct (Pos.to_uint p); try done.
  - simpl. rewrite parse_nat_part_pos by done. done.
Qed.

(** *** Strings *)

Lemma parse_string_body_more (fuel extra : nat) (s : string) r :
  parse_string_body fuel s = Some r →
  parse_string_body (fuel + extra) s = Some r.
Proof.
  revert s r. induction fuel as [|fuel IH]; intros s r; [done|].
  cbn [Nat.add]. simpl.
  repeat (case_match; try done);
    repeat match goal with
    | E : parse_string_body fuel _ = Some _ |- _ => apply IH in E; rewrite E in *
    | E : parse_string_body fuel _ = None |- _ => clear E
    end; simplify_eq; try done.
Qed.

(** One character: whatever [json_escape_char] writes for it is read
    back as that character, in one step of the reader. *)
Lemma parse_escaped_char (c : ascii) (fuel : nat) (rest : string) :
  parse_string_body (S fuel) (json_escape_char c +:+ rest) =
  match parse_string_body fuel rest with
  | Some (t, r) => Some (String c t, r)
  | None => None
  end.
Proof.
  destruct c as [[] [] [] [] [] [] [] []]; reflexivity.
Qed.

Lemma parse_escaped (s : string) (extra : nat) (rest : string) :
  parse_string_body (S (String.length s) + extra)
    (json_escape s +:+ String dquote rest) = Some (s, rest).
Proof.
  induction s as [|c s IH]; [done|].
  cbn [json_escape String.length Nat.add].
  rewrite append_assoc, parse_escaped_char.
  cbn [Nat.add] in IH. by rewrite IH.
Qed.

Lemma json_escape_length (s : string) :
  (String.length s ≤ String.length (json_escape s))%nat.
Proof.
  induction s as [|c s IH]; [done|]. cbn [json_escape].
  rewrite length_append. 
  assert (1 ≤ String.length (json_escape_char c))%nat.
  { destruct c as [[] [] [] [] [] [] [] []]; vm_compute; lia. }
  simpl. lia.
Qed.

Lemma parse_string_quote (s rest : string) :
  parse_string (json_quote s +:+ rest) = Some (s, rest).
Proof.
  unfold json_quote, parse_string. str_simpl.
  change (nat_of_ascii dquote =? 34)%nat with true. cbn match.
  rewrite append_assoc. str_simpl.
  pose proof (json_escape_length s) as Hlen.
  rewrite length_append. simpl String.length.
  replace (String.length (json_escape s) + S (String.length rest))%nat
    with (S (String.length s) +
          (String.length (json_escape s) - String.length s + String.length rest))%nat
    by lia.
  apply parse_escaped.
Qed.

(** *** Values *)

Lemma json_nested_ind (P : json → Prop) :
  P JNull → (∀ b, P (JBool b)) → (∀ z, P (JInt z)) → (∀ s, P (JStr s)) →
  (∀ l, Forall P l → P (JList l)) →
  (∀ d, Forall (λ kv, P kv.2) d → P (JDict d)) →
  ∀ v, P v.
Proof.
  intros Hn Hb Hz Hs Hl Hd.
  fix IH 1. intros [| | | |l|d]; [done..| |].
  - apply Hl. induction l as [|x l IHl]; constructor; [apply IH|apply IHl].
  - apply Hd. induction d as [|[k x] d IHd]; constructor; [apply IH|apply IHd].
Qed.

Lemma json_wf_list (l : list json) : json_wf (JList l) ↔ Forall json_wf l.
Proof.
  induction l as [|x l IH]; simpl; [by split; [constructor|]|].
  rewrite Forall_cons. simpl in IH. by rewrite IH.
Qed.

Lemma json_wf_dict (d : list (string * json)) :
  json_wf (JDict d) ↔ NoDup d.*1 ∧ Forall (λ kv, json_wf kv.2) d.
Proof.
  simpl. apply and_iff_compat_l.
  induction d as [|x l IH]; [by split; [constructor|]|].
  rewrite Forall_cons. by rewrite IH.
Qed.

Lemma dumps_at_list (lvl : nat) (x : json) (l : list json) :
  dumps_at lvl (JList (x :: l)) =
  "[" +:+ newline_indent (S lvl) +:+ dumps_at (S lvl) x +:+
  list_items (S lvl) l +:+ newline_indent lvl +:+ "]".
Proof.
  cbn [dumps_at]. do 3 f_equal. apply (f_equal (λ s, s +:+ _)).
  induction l as [|y l IH]; [done|]. cbn [list_items]. by rewrite <- IH.
Qed.

Lemma dumps_at_dict (lvl : nat) (k : string) (x : json)
    (d : list (string * json)) :
  dumps_at lvl (JDict ((k, x) :: d)) =
  "{" +:+ newline_indent (S lvl) +:+ json_quote k +:+ ": " +:+
  dumps_at (S lvl) x +:+ dict_items (S lvl) d +:+ newline_indent lvl +:+ "}".
Proof.
  cbn [dumps_at]. do 5 f_equal. apply (f_equal (λ s, s +:+ _)).
  induction d as [|[k' y] d IH]; [done|]. cbn [dict_items]. by rewrite <- IH.
Qed.

Lemma skip_ws_indent (lvl : nat) (s : string) :
  skip_ws (newline_indent lvl +:+ s) = skip_ws s.
Proof.
  unfold newline_indent. str_simpl. cbn [skip_ws].
  change (is_ws newline) with true. cbn match.
  induction (2 * lvl)%nat as [|n IH]; [done|].
  cbn [spaces]. str_simpl. cbn [skip_ws].
  change (is_ws " ") with true. done.
Qed.

Lemma dumps_at_start (lvl : nat) (v : json) :
  ∃ c s, dumps_at lvl v = String c s ∧ value_start c.
Proof.
  unfold value_start.
  destruct v as [|[]|z|s|[|x l]|[|[k x] d]]; try (cbn [dumps_at]; str_simpl);
    try (eexists _, _; split; [reflexivity|]; naive_solver).
  unfold string_of_Z. destruct z as [|p|p]; simpl.
    + eexists _, _; split; [reflexivity|]. do 7 right. by eexists.
    + pose proof (to_uint_head p) as Hh.
      destruct (Pos.to_uint p); try done; simpl;
        (eexists _, _; split; [reflexivity|]); do 7 right; by eexists.
    + eexists _, _; split; [reflexivity|]. naive_solver.
Qed.

Lemma value_start_not_ws (c : ascii) (s : string) :
  value_start c → skip_ws (String c s) = String c s.
Proof.
  intros Hc. cbn [skip_ws].
  assert (is_ws c = false) as ->; [|done].
  destruct Hc as [->|[->|[->|[->|[->|[->|[->|[d Hd]]]]]]]]; try done.
  destruct c as [[] [] [] [] [] [] [] []]; vm_compute in Hd; try done.
Qed.

(** How [parse_value] goes on after the first character. *)
Lemma parse_value_number (f : nat) (s : string) (c : ascii) (r : string) :
  skip_ws s = String c r →
  c = "-"%char ∨ is_Some (digit_val c) →
  parse_value (S f) s =
  match parse_int (String c r) with
  | Some (z, r') => Some (JInt z, r')
  | None => None
  end.
Proof.
  intros Hs Hc. cbn [parse_value]. rewrite Hs.
  destruct Hc as [->|[d Hd]]; [reflexivity|].
  destruct c as [[] [] [] [] [] [] [] []]; vm_compute in Hd; try done.
Qed.

Lemma parse_value_string (f : nat) (s r : string) :
  skip_ws s = String dquote r →
  parse_value (S f) s =
  match parse_string (String dquote r) with
  | Some (t, r') => Some (JStr t, r')
  | None => None
  end.
Proof. intros Hs. cbn [parse_value]. by rewrite Hs. Qed.

Lemma parse_value_list (f : nat) (s r : string) (c : ascii) (r0 : string) :
  skip_ws s = String "[" r →
  skip_ws r = String c r0 → value_start c →
  parse_value (S f) s =
  match parse_value f r with
  | Some (v, r') => parse_items (parse_value f) (String.length r') [v] r'
  | None => None
  end.
Proof.
  intros Hs Hr Hc. cbn [parse_value]. rewrite Hs. cbn match. rewrite Hr.
  destruct Hc as [->|[->|[->|[->|[->|[->|[->|[d Hd]]]]]]]]; try reflexivity.
  destruct c as [[] [] [] [] [] [] [] []]; vm_compute in Hd; try done.
Qed.

Lemma parse_value_dict (f : nat) (s r r0 : string) :
  skip_ws s = String "{" r →
  skip_ws r = String dquote r0 →
  parse_value (S f) s =
  match parse_member (parse_value f) r with
  | Some (k, v, r') =>
      parse_members (parse_value f) (String.length r') [(k, v)] r'
  | None => None
  end.
Proof. intros Hs Hr. cbn [parse_value]. rewrite Hs. cbn match. by rewrite Hr. Qed.

Lemma skip_ws_dumps (lvl : nat) (v : json) (rest : string) :
  skip_ws (dumps_at lvl v +:+ rest) = dumps_at lvl v +:+ rest.
Proof.
  destruct (dumps_at_start lvl v) as (c & s & -> & Hc). str_simpl.
  by apply value_start_not_ws.
Qed.

Lemma list_items_continues (lv lvl : nat) (l : list json) (t : string) :
  number_continues (list_items lv l +:+ newline_indent lvl +:+ t) = false.
Proof. by destruct l. Qed.

Lemma dict_items_continues (lv lvl : nat) (d : list (string * json)) (t : string) :
  number_continues (dict_items lv d +:+ newline_indent lvl +:+ t) = false.
Proof. by destruct d as [|[??]?]. Qed.

Lemma list_items_length (lv : nat) (l : list json) :
  (length l ≤ String.length (list_items lv l))%nat.
Proof.
  induction l as [|y l IH]; [done|]. cbn [list_items]. str_len. simpl. lia.
Qed.

Lemma dict_items_length (lv : nat) (d : list (string * json)) :
  (length d ≤ String.length (dict_items lv d))%nat.
Proof.
  induction d as [|[k y] d IH]; [done|]. cbn [dict_items]. str_len. simpl. lia.
Qed.

Lemma list_items_item_length (lv : nat) (l : list json) (y : json) :
  y ∈ l →
  (String.length (dumps_at lv y) < String.length (list_items lv l))%nat.
Proof.
  induction 1 as [y l|y x l _ IH]; cbn [list_items]; str_len; simpl; lia.
Qed.

Lemma dict_items_item_length (lv : nat) (d : list (string * json)) kv :
  kv ∈ d →
  (String.length (dumps_at lv kv.2) < String.length (dict_items lv d))%nat.
Proof.
  induction 1 as [[k y] l|[k y] [k' x] l _ IH]; cbn [dict_items]; str_len; simpl in *; lia.
Qed.

Section Containers.
Variable pv : string → option (json * string).

(** The items after the first, given that [pv] reads each of them. *)
Lemma parse_items_dumps (lv lvl : nat) (l : list json) :
  (∀ y s R, y ∈ l → number_continues R = false →
            skip_ws s = dumps_at lv y +:+ R → pv s = Some (y, R)) →
  ∀ acc fuel rest,
    (length l < fuel)%nat →
    parse_items pv fuel acc
      (list_items lv l +:+ newline_indent lvl +:+ "]" +:+ rest)
    = Some (JList (rev acc ++ l), rest).
Proof.
  induction l as [|y l IH]; intros Hpv acc [|fuel] rest Hfuel; simpl in Hfuel;
    try lia.
  - cbn [list_items parse_items]. str_simpl. rewrite skip_ws_indent.
    str_simpl. cbn. by rewrite app_nil_r.
  - cbn [list_items parse_items]. rewrite !append_assoc.
    rewrite (append_cons "," ""), append_nil_l. cbn [skip_ws].
    change (is_ws ",") with false. cbn match.
    rewrite (Hpv y _ (list_items lv l +:+ newline_indent lvl +:+ "]" +:+ rest)).
    + rewrite IH; [|intros; apply Hpv; [by right|done..]|lia].
      simpl. by rewrite <- app_assoc.
    + by left.
    + apply list_items_continues.
    + by rewrite skip_ws_indent, skip_ws_dumps.
Qed.

Lemma parse_member_dumps (lv : nat) (k : string) (y : json) (R : string) :
  (∀ s, skip_ws s = dumps_at lv y +:+ R → pv s = Some (y, R)) →
  parse_member pv (newline_indent lv +:+ json_quote k +:+ ": " +:+
                   dumps_at lv y +:+ R) = Some (k, y, R).
Proof.
  intros Hpv. unfold parse_member.
  rewrite skip_ws_indent.
  assert (skip_ws (json_quote k +:+ ": " +:+ dumps_at lv y +:+ R)
          = json_quote k +:+ ": " +:+ dumps_at lv y +:+ R) as ->.
  { unfold json_quote. by str_simpl. }
  rewrite parse_string_quote. str_simpl. cbn [skip_ws].
  change (is_ws ":") with false. cbn match.
  rewrite Hpv; [done|].
  cbn [skip_ws]. change (is_ws " ") with true. cbn match.
  apply skip_ws_dumps.
Qed.

Lemma parse_members_dumps (lv lvl : nat) (d : list (string * json)) :
  (∀ kv s R, kv ∈ d → number_continues R = false →
             skip_ws s = dumps_at lv kv.2 +:+ R → pv s = Some (kv.2, R)) →
  ∀ acc fuel rest,
    NoDup (acc.*1 ++ d.*1) →
    (length d < fuel)%nat →
    parse_members pv fuel acc
      (dict_items lv d +:+ newline_indent lvl +:+ "}" +:+ rest)
    = Some (JDict (acc ++ d), rest).
Proof.
  induction d as [|[k y] d IH]; intros Hpv acc [|fuel] rest Hnd Hfuel;
    simpl in Hfuel; try lia.
  - cbn [dict_items parse_members]. str_simpl. rewrite skip_ws_indent.
    str_simpl. cbn. by rewrite app_nil_r.
  - cbn [dict_items parse_members]. rewrite !append_assoc.
    rewrite (append_cons "," ""), append_nil_l. cbn [skip_ws].
    change (is_ws ",") with false. cbn match.
    rewrite parse_member_dumps.
    + csimpl in Hnd. apply NoDup_app in Hnd as (Hacc & Hdis & Hd).
      rewrite dict_set_fresh.
      * rewrite IH; [by rewrite <- app_assoc|intros; apply Hpv; [by right|done..]| |lia].
        rewrite fmap_app. csimpl. rewrite <- app_assoc. csimpl.
        apply NoDup_app. split_and!; [done| |done].
        intros x Hx. by apply Hdis.
      * apply dict_get_None_keys. intros Hin. apply (Hdis k Hin). by left.
    + intros s Hs. apply (Hpv (k, y)); [by left| |done].
      apply dict_items_continues.
Qed.
End Containers.

(** Every well-formed value is read back from its printed text, whatever
    follows it (as long as that does not continue a number). *)
Lemma parse_value_dumps (v : json) :
  json_wf v →
  ∀ fuel lvl s rest,
    (String.length (dumps_at lvl v) ≤ fuel)%nat →
    number_continues rest = false →
    skip_ws s = dumps_at lvl v +:+ rest →
    parse_value fuel s = Some (v, rest).
Proof.
  induction v as [|b|z|t|l IH|d IH] using json_nested_ind;
    intros Hwf [|f] lvl s rest Hfuel Hrest Hs;
    try (destruct (dumps_at_start lvl JNull) as (? & ? & E & _);
         exfalso; revert Hfuel; clear; 
         match goal with |- context [dumps_at lvl ?v] =>
           destruct (dumps_at_start lvl v) as (? & ? & -> & _) end;
         simpl; lia).
  - cbn [parse_value]. rewrite Hs. cbn [dumps_at].
    change ("null" +:+ rest) with (String "n" ("ull" +:+ rest)). cbn match.
    change (String "n" ("ull" +:+ rest)) with ("null" +:+ rest).
    by rewrite strip_prefix_app.
  - cbn [parse_value]. rewrite Hs. destruct b; cbn [dumps_at].
    + change ("true" +:+ rest) with (String "t" ("rue" +:+ rest)). cbn match.
      change (String "t" ("rue" +:+ rest)) with ("true" +:+ rest).
      rewrite strip_prefix_app. done.
    + change ("false" +:+ rest) with (String "f" ("alse" +:+ rest)). cbn match.
      change (String "f" ("alse" +:+ rest)) with ("false" +:+ rest).
      rewrite strip_prefix_app. done.
  - cbn [dumps_at] in Hs.
    assert (∃ c r, string_of_Z z = String c r ∧
                   (c = "-"%char ∨ is_Some (digit_val c))) as (c & r & E & Hc).
    { unfold string_of_Z. destruct z as [|p|p]; simpl.
      - eexists _, _. split; [done|]. right. by eexists.
      - pose proof (to_uint_head p) as Hh.
        destruct (Pos.to_uint p); try done; simpl;
          (eexists _, _; split; [done|]); right; by eexists.
      - eexists _, _. split; [done|]. by left. }
    rewrite (parse_value_number f s c (r +:+ rest)); [|by rewrite Hs, E|done].
    rewrite <- append_cons, <- E. by rewrite parse_int_string_of_Z.
  - cbn [dumps_at] in Hs. unfold json_quote in Hs. rewrite append_cons in Hs.
    rewrite (parse_value_string f s _ Hs).
    rewrite <- append_cons. 
    change (String dquote (json_escape t +:+ String dquote "")) with (json_quote t).
    by rewrite parse_string_quote.
  - destruct l as [|x l].
    + cbn [parse_value]. rewrite Hs. reflexivity.
    + rewrite dumps_at_list in Hs, Hfuel. rewrite !append_assoc in Hs.
      rewrite append_cons, append_nil_l in Hs.
      destruct (dumps_at_start (S lvl) x) as (c & r0 & E & Hc).
      apply json_wf_list in Hwf.
      assert (∀ y s R, y ∈ x :: l → number_continues R = false →
                skip_ws s = dumps_at (S lvl) y +:+ R →
                parse_value f s = Some (y, R)) as Hpv.
      { intros y s' R Hy HR Hs'.
        rewrite Forall_forall in IH.
        apply (λ H, IH y Hy H f (S lvl)); [|clear Hs |done..].
        - rewrite Forall_forall in Hwf. by apply Hwf.
        - revert Hfuel. str_len. intros Hfuel.
          apply elem_of_cons in Hy as [->|Hy]; [lia|].
          apply (list_items_item_length (S lvl)) in Hy. lia. }
      rewrite (parse_value_list f s _ c (r0 +:+ list_items (S lvl) l +:+
                 newline_indent lvl +:+ "]" +:+ rest) Hs); [| |done].
      * rewrite (Hpv x _ (list_items (S lvl) l +:+ newline_indent lvl
                            +:+ "]" +:+ rest)).
        -- rewrite (parse_items_dumps _ (S lvl) lvl l); [done| |].
           ++ intros. apply Hpv; [by right|done..].
           ++ str_len. pose proof (list_items_length (S lvl) l). lia.
        -- by left.
        -- apply list_items_continues.
        -- by rewrite skip_ws_indent, skip_ws_dumps.
      * rewrite skip_ws_indent, skip_ws_dumps, E. by str_simpl.
  - destruct d as [|[k x] d].
    + cbn [parse_value]. rewrite Hs. reflexivity.
    + rewrite dumps_at_dict in Hs, Hfuel. rewrite !append_assoc in Hs.
      rewrite append_cons, append_nil_l in Hs.
      apply json_wf_dict in Hwf as [Hnd Hwf].
      assert (∀ kv s R, kv ∈ (k, x) :: d → number_continues R = false →
                skip_ws s = dumps_at (S lvl) kv.2 +:+ R →
                parse_value f s = Some (kv.2, R)) as Hpv.
      { intros kv s' R Hy HR Hs'.
        rewrite Forall_forall in IH.
        apply (λ H, IH kv Hy H f (S lvl)); [|clear Hs |done..].
        - rewrite Forall_forall in Hwf. by apply Hwf.
        - revert Hfuel. str_len. intros Hfuel.
          apply elem_of_cons in Hy as [->|Hy]; [simpl; lia|].
          apply (dict_items_item_length (S lvl)) in Hy. lia. }
      rewrite (parse_value_dict f s _ (json_escape k +:+ String dquote "" +:+ ": " +:+
                 dumps_at (S lvl) x +:+ dict_items (S lvl) d +:+
                 newline_indent lvl +:+ "}" +:+ rest) Hs).
      * rewrite parse_member_dumps.
        -- rewrite (parse_members_dumps _ (S lvl) lvl d); [done| | |].
           ++ intros. apply Hpv; [by right|done..].
           ++ done.
           ++ str_len. pose proof (dict_items_length (S lvl) d). lia.
        -- intros s' Hs'. apply (Hpv (k, x)); [by left| |done].
           apply dict_items_continues.
      * rewrite skip_ws_indent. unfold json_quote. str_simpl. 
        rewrite !append_assoc. by str_simpl.
Qed.

(** [json.loads(json.dumps(v, indent=2))] is [v]. *)
Lemma json_loads_dumps (v : json) :
  json_wf v → json_loads (json_dumps v) = Some v.
Proof.
  intros Hwf. unfold json_loads, json_dumps.
  rewrite (parse_value_dumps v Hwf _ 0%nat _ ""); [done|lia|done|].
  rewrite <- (append_nil_r (dumps_at 0 v)) at 1.
  rewrite skip_ws_dumps. by rewrite append_nil_r.
Qed.

(** ** Writing a container and reading it back *)
Section RoundTrip.
Context `{Platform}.

Lemma mapM_json_str (l : list string) : mapM json_str (JStr <$> l) = Some l.
Proof. apply mapM_Some. induction l; constructor; done. Qed.

Lemma json_wf_strs (l : list string) : json_wf (JList (JStr <$> l)).
Proof. apply json_wf_list. induction l; constructor; done. Qed.

Lemma decode_encode (s : string) : decode (encode s) = s.
Proof. apply string_of_list_byte_of_string. Qed.

Lemma keys_prod_map {A B} (f : A → B) (d : list (string * A)) :
  (prod_map id f <$> d).*1 = d.*1.
Proof. induction d as [|[k v] d IH]; [done|]. rewrite !fmap_cons. by f_equal. Qed.

(** The bytes of a payload slice, read from a file in which the payload
    follows a header. *)
Lemma seek_read_payload (header payload : bytes) (off csz : Z) :
  0 ≤ off → 0 ≤ csz →
  seek_read (header ++ payload) (len header + off) csz
  = Ret (payload_slice payload off csz).
Proof.
  intros Hoff Hcsz. unfold seek_read, payload_slice, len.
  rewrite (proj2 (Z.ltb_ge _ 0)) by lia.
  rewrite (proj2 (Z.ltb_ge csz (-1))) by lia.
  rewrite (proj2 (Z.eqb_neq csz (-1))) by lia.
  do 2 f_equal.
  rewrite Z2Nat.inj_add, Nat2Z.id by lia.
  by rewrite drop_app_add.
Qed.

(** *** [app_blob_manager.py] *)

Lemma manager_of_asdict (m : Manager.AppMetadata) :
  Manager.AppMetadata_of_json (Manager.asdict m) = Some m.
Proof.
  destruct m. unfold Manager.AppMetadata_of_json, Manager.asdict, get_strs.
  simpl. by rewrite !mapM_json_str.
Qed.

Lemma manager_asdict_wf (m : Manager.AppMetadata) : json_wf (Manager.asdict m).
Proof.
  apply json_wf_dict. split.
  - by apply (bool_decide_unpack _).
  - repeat (apply Forall_cons; split; [try done; apply json_wf_strs|]). done.
Qed.

Lemma manager_index_of_json (acc d : dict Manager.AppMetadata) :
  NoDup (dict_keys acc ++ dict_keys d) →
  foldl (λ acc kv, index ← acc; m ← Manager.AppMetadata_of_json kv.2;
                   Some (dict_set index kv.1 m))
    (Some acc) (prod_map id Manager.asdict <$> d) = Some (acc ++ d).
Proof.
  revert acc. induction d as [|[k m] d IH]; intros acc Hnd.
  - by rewrite app_nil_r.
  - rewrite fmap_cons. cbn [foldl prod_map fst snd id mbind option_bind].
    rewrite manager_of_asdict. cbn [mbind option_bind]. 
    unfold dict_keys in Hnd. rewrite fmap_cons in Hnd. cbn [fst] in Hnd.
    apply NoDup_app in Hnd as (Hacc & Hdis & Hd).
    rewrite dict_set_fresh.
    + rewrite IH; [by rewrite <- app_assoc|].
      unfold dict_keys in *. rewrite fmap_app, <- app_assoc. csimpl.
      apply NoDup_app. split_and!; [done| |done].
      intros x Hx. by apply Hdis.
    + apply dict_get_None_keys. intros Hin. apply (Hdis k Hin). by left.
Qed.

Lemma manager_index_wf (b : Manager.AppBlobBuilder) :
  NoDup (dict_keys (Manager.apps b)) → json_wf (Manager.index_json b).
Proof.
  intros Hnd. apply json_wf_dict. split; [by apply (bool_decide_unpack _)|].
  repeat (apply Forall_cons; split; [try done|]); [|done].
  apply json_wf_dict. split.
  - by rewrite keys_prod_map.
  - apply Forall_fmap, Forall_forall. intros [k m] _. apply manager_asdict_wf.
Qed.

Lemma manager_built_keys (b : Manager.AppBlobBuilder) :
  Builds.manager_built b → NoDup (dict_keys (Manager.apps b)).
Proof.
  induction 1 as [p|fs b k n p v deps b' _ IH Hadd]; [constructor|].
  unfold Manager.add_application in Hadd.
  destruct (fs p); [|done]. injection Hadd as <-. simpl.
  by apply dict_set_NoDup.
Qed.

(** [_load_index] on a file written by [build] gives the builder's index
    and the position the payload starts at. *)
Lemma manager_load_index_build (b : Manager.AppBlobBuilder) (file : bytes)
    (path : string) :
  NoDup (dict_keys (Manager.apps b)) →
  Manager.build b = Written file →
  Manager._load_index path file =
  Ret (Manager.mkExtractor path (Manager.apps b)
         (12 + len (encode (json_dumps (Manager.index_json b))))).
Proof.
  intros Hnd Hb. apply manager_build_layout in Hb.
  destruct (unversioned_layout_fields _ Manager.MAGIC _ _ _ eq_refl Hb)
    as (Hm & Hsz & Hix & _).
  unfold Manager._load_index. rewrite Hm.
  rewrite bool_decide_eq_true_2 by done. cbn [negb].
  unfold unpack_I. rewrite (struct_unpack_pack _ _ _ _ Hsz).
  replace (Z.to_nat (len (encode (json_dumps (Manager.index_json b)))))
    with (length (encode (json_dumps (Manager.index_json b))))
    by (unfold len; lia).
  rewrite Hix, decode_encode.
  rewrite json_loads_dumps by by apply manager_index_wf.
  unfold Manager.index_json at 1. cbn [dict_get].
  rewrite decide_False by done. rewrite decide_True by done.
  unfold Manager.index_of_json.
  by rewrite (manager_index_of_json []).
Qed.

(** *** [app-blob-builder.py] *)

Lemma appbuilder_of_asdict (m : AppBuilder.AppMetadata) :
  AppBuilder.AppMetadata_of_json (AppBuilder.asdict m) = Some m.
Proof.
  destruct m. unfold AppBuilder.AppMetadata_of_json, AppBuilder.asdict, get_strs.
  simpl. by rewrite !mapM_json_str.
Qed.

Lemma appbuilder_asdict_wf (m : AppBuilder.AppMetadata) :
  json_wf (AppBuilder.asdict m).
Proof.
  apply json_wf_dict. split.
  - by apply (bool_decide_unpack _).
  - repeat (apply Forall_cons; split; [try done; apply json_wf_strs|]). done.
Qed.

Lemma appbuilder_index_of_json (acc d : dict AppBuilder.AppMetadata) :
  NoDup (dict_keys acc ++ dict_keys d) →
  foldl (λ acc kv, index ← acc; m ← AppBuilder.AppMetadata_of_json kv.2;
                   Some (dict_set index kv.1 m))
    (Some acc) (prod_map id AppBuilder.asdict <$> d) = Some (acc ++ d).
Proof.
  revert acc. induction d as [|[k m] d IH]; intros acc Hnd.
  - by rewrite app_nil_r.
  - rewrite fmap_cons. cbn [foldl prod_map fst snd id mbind option_bind].
    rewrite appbuilder_of_asdict. cbn [mbind option_bind].
    unfold dict_keys in Hnd. rewrite fmap_cons in Hnd. cbn [fst] in Hnd.
    apply NoDup_app in Hnd as (Hacc & Hdis & Hd).
    rewrite dict_set_fresh.
    + rewrite IH; [by rewrite <- app_assoc|].
      unfold dict_keys in *. rewrite fmap_app, <- app_assoc. csimpl.
      apply NoDup_app. split_and!; [done| |done].
      intros x Hx. by apply Hdis.
    + apply dict_get_None_keys. intros Hin. apply (Hdis k Hin). by left.
Qed.

Lemma appbuilder_index_wf (now : string) (b : AppBuilder.AppBlobBuilder) :
  NoDup (dict_keys (AppBuilder.apps b)) → json_wf (AppBuilder.index_json now b).
Proof.
  intros Hnd. apply json_wf_dict. split; [by apply (bool_decide_unpack _)|].
  repeat (apply Forall_cons; split; [try done|]); [|done].
  apply json_wf_dict. split.
  - by rewrite keys_prod_map.
  - apply Forall_fmap, Forall_forall. intros [k m] _. apply appbuilder_asdict_wf.
Qed.

Lemma appbuilder_built_keys (b : AppBuilder.AppBlobBuilder) :
  appbuilder_built b → NoDup (dict_keys (AppBuilder.apps b)).
Proof.
  induction 1 as [p|fs now b k n p v deps b' _ IH Hadd]; [constructor|].
  unfold AppBuilder.add_application in Hadd.
  destruct (fs p); [|done]. injection Hadd as <-. simpl.
  by apply dict_set_NoDup.
Qed.

(** The header and index of a file written by [build] are read back. *)
Lemma appbuilder_read_index_build (now : string)
    (b : AppBuilder.AppBlobBuilder) (file : bytes) :
  NoDup (dict_keys (AppBuilder.apps b)) →
  AppBuilder.build now b = Written file →
  AppBuilder.read_index file =
  Ret (AppBuilder.apps b, encode (json_dumps (AppBuilder.index_json now b))).
Proof.
  intros Hnd Hb. apply appbuilder_build_layout in Hb.
  destruct (versioned_layout_fields _ AppBuilder.MAGIC _ _ _ _ eq_refl Hb)
    as (Hm & Hver & Hsz & Hix & _).
  unfold AppBuilder.read_index. rewrite Hm.
  rewrite bool_decide_eq_true_2 by done. cbn [negb].
  unfold unpack_H, unpack_I.
  rewrite (struct_unpack_pack _ _ _ _ Hver). cbn [Z.eqb negb AppBuilder.VERSION Pos.eqb].
  rewrite (struct_unpack_pack _ _ _ _ Hsz).
  replace (Z.to_nat (len (encode (json_dumps (AppBuilder.index_json now b)))))
    with (length (encode (json_dumps (AppBuilder.index_json now b))))
    by (unfold len; lia).
  rewrite Hix, decode_encode.
  rewrite json_loads_dumps by by apply appbuilder_index_wf.
  unfold AppBuilder.index_json at 1. cbn [dict_get].
  repeat (rewrite decide_False by done). rewrite decide_True by done.
  unfold AppBuilder.index_of_json.
  by rewrite (appbuilder_index_of_json []).
Qed.

(** A file written by [build] is its header, whose length is where the
    payload starts, and the payload. *)
Lemma versioned_layout_split bo magic version index payload file :
  length magic = 8%nat →
  versioned_layout bo magic version index payload file →
  ∃ header, file = header ++ payload ∧ len header = 14 + len index.
Proof.
  intros Hm (ver & sz & Hver & Hsz & ->).
  exists (magic ++ ver ++ sz ++ index). split; [by rewrite <- !app_assoc|].
  rewrite !len_app. unfold len.
  rewrite Hm, (struct_pack_length _ _ _ _ Hver), (struct_pack_length _ _ _ _ Hsz).
  lia.
Qed.

Lemma unversioned_layout_split bo magic index payload file :
  length magic = 8%nat →
  unversioned_layout bo magic index payload file →
  ∃ header, file = header ++ payload ∧ len header = 12 + len index.
Proof.
  intros Hm (sz & Hsz & ->).
  exists (magic ++ sz ++ index). split; [by rewrite <- !app_assoc|].
  rewrite !len_app. unfold len.
  rewrite Hm, (struct_pack_length _ _ _ _ Hsz). lia.
Qed.

(** Reading a recorded slice from the file gives the compressed
    archive, which decompresses to the archive the entry describes. *)
Lemma recorded_slice_read (header payload : bytes) (off csz size : Z)
    (checksum : string) :
  zlib_round_trip →
  slice_recorded payload off csz size checksum →
  ∃ tar_data,
    size = len tar_data ∧ sha256_hexdigest tar_data = checksum ∧
    seek_read (header ++ payload) (len header + off) csz
      = Ret (zlib_compress tar_data) ∧
    zlib_decompress (zlib_compress tar_data) = Some tar_data.
Proof.
  intros Hz (H0 & H1 & tar & Hs & Hc & Hsize & Hd).
  exists tar. split_and!; [done..| |apply Hz].
  rewrite seek_read_payload by (unfold len in *; lia). by rewrite Hs.
Qed.
End RoundTrip.

Lemma sample_zlib_round_trip : @zlib_round_trip SampleRuns.sample_platform.
Proof. intros data. reflexivity. Qed.

Lemma manager_distinct_built `{Platform} (b : Manager.AppBlobBuilder) :
  Builds.manager_built_distinct b → Builds.manager_built b.
Proof. induction 1; econstructor; eauto. Qed.

(** X1.  [app_blob_manager.py], from the builder to the extractor: for a
    builder filled by [add_application] calls and the file its [build]
    writes, [AppBlobExtractor] loads exactly the builder's index, and every
    entry is read back: [extract_to_memory] returns an archive with the
    recorded size and SHA-256 digest, and [extract_application] with
    verification creates the directory of the key below the target and
    unpacks that archive into it (assuming [zlib.decompress] inverts
    [zlib.compress]). *)
Theorem manager_build_extract_round_trip `{Platform}
    (b : Manager.AppBlobBuilder) (file : bytes) (path dir k : string)
    (m : Manager.AppMetadata) :
  zlib_round_trip →
  Builds.manager_built b →
  Manager.build b = Written file →
  dict_get (Manager.apps b) k = Some m →
  ∃ ex tar_data,
    Manager._load_index path file = Ret ex ∧
    Manager.index ex = Manager.apps b ∧
    Manager.size m = len tar_data ∧
    sha256_hexdigest tar_data = Manager.checksum m ∧
    Manager.extract_to_memory ex file k = Ret (Some tar_data) ∧
    Manager.extract_application ex file k dir true =
      (if tar_readable tar_data then Ret true else Raise TarError,
       [Makedirs (path_join dir k); ExtractAll (path_join dir k) tar_data]).
Proof.
  intros Hz Hbuilt Hb Hk.
  pose proof (manager_built_keys b Hbuilt) as Hnd.
  destruct (manager_built_recorded b Hbuilt) as (_ & _ & Hall).
  destruct (Hall k m Hk) as [_ Hrec].
  pose proof (manager_load_index_build b file path Hnd Hb) as Hload.
  destruct (unversioned_layout_split _ Manager.MAGIC _ _ _ eq_refl
              (manager_build_layout b file Hb)) as (header & -> & Hlen).
  destruct (recorded_slice_read header _ _ _ _ _ Hz Hrec)
    as (tar & Hsize & Hsum & Hread & Hdec).
  eexists _, tar. split; [exact Hload|].
  rewrite Hlen in Hread.
  split_and!; try done.
  - unfold Manager.extract_to_memory. cbn [Manager.index Manager.data_offset].
    by rewrite Hk, Hread, Hdec.
  - unfold Manager.extract_application, extract_entry.
    cbn [Manager.index Manager.data_offset].
    rewrite Hk, Hread, Hdec, Hsum.
    rewrite bool_decide_eq_true_2 by done. cbn [andb negb].
    by destruct (tar_readable tar).
Qed.

Lemma manager_build_extract_round_trip_witness :
  ∃ ex tar_data,
    Manager._load_index "apps.blob" SampleRuns.manager_file = Ret ex ∧
    Manager.index ex = Manager.apps SampleRuns.manager_a ∧
    27 = len tar_data ∧
    sha256_hexdigest tar_data = "27-2373" ∧
    Manager.extract_to_memory ex SampleRuns.manager_file "a"
      = Ret (Some tar_data) ∧
    Manager.extract_application ex SampleRuns.manager_file "a" "/out" true =
      (if tar_readable tar_data then Ret true else Raise TarError,
       [Makedirs (path_join "/out" "a");
        ExtractAll (path_join "/out" "a") tar_data]).
Proof.
  refine (manager_build_extract_round_trip SampleRuns.manager_a
            SampleRuns.manager_file "apps.blob" "/out" "a"
            (Manager.mkAppMetadata "a" "App A" "1.0.0" 27 29 0 []
               ["bin/run"; "README.md"] "27-2373") _ _ _ _).
  - exact sample_zlib_round_trip.
  - exact (manager_distinct_built _ sample_manager_a_built).
  - vm_compute. reflexivity.
  - vm_compute. reflexivity.
Defined.

Lemma sample_appbuilder_a_built :
  @appbuilder_built SampleRuns.sample_platform SampleRuns.appbuilder_a.
Proof.
  apply (appbuilder_built_add Sample.fs "2024-01-01T09:00:00.000001"
           (AppBuilder.init "apps.blob") "a" "App A" "/src/a" "1.0.0" []);
    [|reflexivity].
  apply appbuilder_built_init.
Qed.

(** X2.  [app-blob-builder.py], from the builder to the extractor: for a
    builder filled by successful [add_application] calls and the file its
    [build] writes, [AppBlobExtractor] loads exactly the builder's index
    with the payload starting at byte 14 plus the index length,
    [verify_blob] returns [True] (so [cmd_verify] returns 0), and
    [extract_application], with or without verification, unpacks for every
    key of the index an archive with the recorded size and SHA-256 digest
    into the directory of the key (assuming [zlib.decompress] inverts
    [zlib.compress]). *)
Theorem appbuilder_build_verify_round_trip `{Platform}
    (b : AppBuilder.AppBlobBuilder) (now : string) (file : bytes)
    (path : string) :
  zlib_round_trip →
  appbuilder_built b →
  AppBuilder.build now b = Written file →
  ∃ ex,
    AppBuilder._load_index path file = Ret ex ∧
    AppBuilder.index ex = AppBuilder.apps b ∧
    AppBuilder.data_offset ex =
      14 + len (encode (json_dumps (AppBuilder.index_json now b))) ∧
    AppBuilder.verify_blob ex file = true ∧
    AppBuilder.cmd_verify ex file = 0 ∧
    ∀ k m dir verify,
      dict_get (AppBuilder.apps b) k = Some m →
      ∃ tar_data,
        AppBuilder.size m = len tar_data ∧
        sha256_hexdigest tar_data = AppBuilder.checksum m ∧
        AppBuilder.extract_application ex file k dir verify =
          (if tar_readable tar_data then Ret true else Raise TarError,
           [Makedirs (path_join dir k); ExtractAll (path_join dir k) tar_data]).
Proof.
  intros Hz Hbuilt Hb.
  pose proof (appbuilder_built_keys b Hbuilt) as Hnd.
  destruct (appbuilder_built_recorded b Hbuilt) as (_ & _ & Hall).
  pose proof (appbuilder_read_index_build now b file Hnd Hb) as Hread.
  destruct (versioned_layout_split _ AppBuilder.MAGIC _ _ _ _ eq_refl
              (appbuilder_build_layout now b file Hb)) as (header & -> & Hlen).
  eexists. split; [unfold AppBuilder._load_index; by rewrite Hread|].
  split; [done|]. split; [done|].
  assert (AppBuilder.verify_blob
            (AppBuilder.mkExtractor path (AppBuilder.apps b)
               (14 + len (encode (json_dumps (AppBuilder.index_json now b)))))
            (header ++ getvalue (AppBuilder.blob_data b)) = true) as Hv.
  { unfold AppBuilder.verify_blob. apply forallb_forall. intros k Hk.
    apply list_elem_of_In in Hk. cbn [AppBuilder.index] in *.
    destruct (dict_get (AppBuilder.apps b) k) as [m|] eqn:Hget;
      [|by apply dict_get_None_keys in Hget].
    destruct (Hall k m Hget) as [_ Hrec].
    destruct (recorded_slice_read header _ _ _ _ _ Hz Hrec)
      as (tar & _ & Hsum & Hrd & Hdec).
    unfold AppBuilder.verify_entry. cbn [AppBuilder.data_offset].
    rewrite <- Hlen, Hrd, Hdec. by apply bool_decide_eq_true_2. }
  split; [done|]. split; [unfold AppBuilder.cmd_verify; by rewrite Hv|].
  intros k m dir verify Hget.
  destruct (Hall k m Hget) as [_ Hrec].
  destruct (recorded_slice_read header _ _ _ _ _ Hz Hrec)
    as (tar & Hsize & Hsum & Hrd & Hdec).
  exists tar. split_and!; [done..|].
  unfold AppBuilder.extract_application, extract_entry.
  cbn [AppBuilder.index AppBuilder.data_offset].
  rewrite Hget, <- Hlen, Hrd, Hdec, Hsum.
  rewrite bool_decide_eq_true_2 by done. rewrite andb_false_r.
  by destruct (tar_readable tar).
Qed.

Lemma appbuilder_build_verify_round_trip_witness :
  ∃ ex,
    AppBuilder._load_index "apps.blob" SampleRuns.appbuilder_file = Ret ex ∧
    AppBuilder.index ex = AppBuilder.apps SampleRuns.appbuilder_a ∧
    AppBuilder.data_offset ex =
      14 + len (encode (json_dumps (AppBuilder.index_json
                   "2024-01-02T09:00:00.000001" SampleRuns.appbuilder_a))) ∧
    AppBuilder.verify_blob ex SampleRuns.appbuilder_file = true ∧
    AppBuilder.cmd_verify ex SampleRuns.appbuilder_file = 0 ∧
    ∀ k m dir verify,
      dict_get (AppBuilder.apps SampleRuns.appbuilder_a) k = Some m →
      ∃ tar_data,
        AppBuilder.size m = len tar_data ∧
        sha256_hexdigest tar_data = AppBuilder.checksum m ∧
        AppBuilder.extract_application ex SampleRuns.appbuilder_file k dir verify =
          (if tar_readable tar_data then Ret true else Raise TarError,
           [Makedirs (path_join dir k); ExtractAll (path_join dir k) tar_data]).
Proof.
  refine (appbuilder_build_verify_round_trip SampleRuns.appbuilder_a
            "2024-01-02T09:00:00.000001" SampleRuns.appbuilder_file
            "apps.blob" _ _ _).
  - exact sample_zlib_round_trip.
  - exact sample_appbuilder_a_built.
  - vm_compute. reflexivity.
Defined.

(** ** Adding to a loaded container *)
Section LoadThenAdd.
Context `{Platform}.

(** [BytesIO(initial)] is positioned at 0, so the first [write] replaces
    the start of the buffer. *)
Lemma bio_write_at_start (initial data : bytes) :
  bio_write (BytesIO_of initial) data =
  mkBytesIO (data ++ drop (length data) initial) (length data).
Proof. reflexivity. Qed.

Lemma payload_slice_overwritten (payload data : bytes) :
  payload_slice (data ++ drop (length data) payload) (len payload) (len data)
  = drop (length payload) data.
Proof.
  unfold payload_slice, len. rewrite !Nat2Z.id.
  destruct (decide (length data ≤ length payload)%nat) as [Hle|Hgt].
  - rewrite (drop_ge data) by done.
    rewrite drop_ge; [by rewrite take_nil|].
    rewrite length_app, length_drop. lia.
  - rewrite (drop_ge payload) by lia. rewrite app_nil_r.
    apply take_ge. rewrite length_drop. lia.
Qed.

Lemma drop_proper_suffix {A} (n : nat) (l : list A) :
  (0 < n)%nat → l ≠ [] → drop n l ≠ l.
Proof.
  intros Hn Hl Heq. apply (f_equal length) in Heq.
  rewrite length_drop in Heq. destruct l; [done|]. simpl in Heq. lia.
Qed.

Lemma appbuilder_load_existing_build (now : string)
    (b : AppBuilder.AppBlobBuilder) (file : bytes) (path : string) :
  NoDup (dict_keys (AppBuilder.apps b)) →
  AppBuilder.build now b = Written file →
  AppBuilder.load_existing path file =
  Ret (AppBuilder.mkBuilder path (AppBuilder.apps b)
         (BytesIO_of (getvalue (AppBuilder.blob_data b)))
         (len (getvalue (AppBuilder.blob_data b)))).
Proof.
  intros Hnd Hb. unfold AppBuilder.load_existing.
  rewrite (appbuilder_read_index_build now b file Hnd Hb).
  apply appbuilder_build_layout in Hb.
  destruct (versioned_layout_fields _ AppBuilder.MAGIC _ _ _ _ eq_refl Hb)
    as (_ & _ & _ & _ & Hp).
  change (8 + 2 + 4 + ?n)%nat with (14 + n)%nat in Hp. by rewrite Hp.
Qed.
End LoadThenAdd.

(** X3.  [app-blob-builder.py], [load_existing] then [add_application]
    (what [cmd_add] does to an existing blob): [load_existing] restores the
    index, the payload and the write cursor of the builder that wrote the
    file, but holds the payload in a [BytesIO(blob_data)], whose position is
    0.  The next [add_application] therefore writes its compressed archive
    over the start of the payload instead of appending it, and records for
    the new entry the offset of the old payload's end: the new entry's slice
    of the buffer is only what of the archive reaches past the old payload
    (nothing, if the archive is no longer than the payload), never the
    archive itself when both are non-empty. *)
Theorem appbuilder_add_after_load_overwrites `{Platform}
    (b : AppBuilder.AppBlobBuilder) (now : string) (file : bytes)
    (path : string) (fs : filesystem) (now' k n p v : string)
    (deps : list string) (src : source) :
  appbuilder_built b →
  AppBuilder.build now b = Written file →
  fs p = Some src →
  ∃ b1 b2 m payload c,
    payload = getvalue (AppBuilder.blob_data b) ∧
    c = zlib_compress (tar_pack "." src) ∧
    AppBuilder.load_existing path file = Ret b1 ∧
    AppBuilder.apps b1 = AppBuilder.apps b ∧
    getvalue (AppBuilder.blob_data b1) = payload ∧
    AppBuilder.current_offset b1 = AppBuilder.current_offset b ∧
    AppBuilder.add_application fs now' b1 k n p v deps = (true, b2) ∧
    getvalue (AppBuilder.blob_data b2) = c ++ drop (length c) payload ∧
    dict_get (AppBuilder.apps b2) k = Some m ∧
    AppBuilder.offset m = len payload ∧
    AppBuilder.compressed_size m = len c ∧
    payload_slice (getvalue (AppBuilder.blob_data b2))
      (AppBuilder.offset m) (AppBuilder.compressed_size m)
      = drop (length payload) c ∧
    (payload ≠ [] → c ≠ [] →
     payload_slice (getvalue (AppBuilder.blob_data b2))
       (AppBuilder.offset m) (AppBuilder.compressed_size m) ≠ c).
Proof.
  intros Hbuilt Hb Hsrc.
  pose proof (appbuilder_built_keys b Hbuilt) as Hnd.
  destruct (appbuilder_built_recorded b Hbuilt) as (_ & Hcur & _).
  eexists _, _, _, _, _. split; [reflexivity|]. split; [reflexivity|].
  split; [by apply (appbuilder_load_existing_build now)|].
  split; [done|]. split; [done|]. split; [by rewrite Hcur|].
  unfold AppBuilder.add_application. rewrite Hsrc.
  cbn [AppBuilder.blob_data AppBuilder.current_offset AppBuilder.apps
       AppBuilder.output_path].
  rewrite bio_write_at_start.
  split; [reflexivity|]. split; [done|].
  cbn [AppBuilder.apps]. rewrite dict_get_set_eq.
  split; [reflexivity|]. cbn [AppBuilder.offset AppBuilder.compressed_size getvalue].
  split; [done|]. split; [done|].
  cbn [AppBuilder.blob_data getvalue]. rewrite payload_slice_overwritten.
  split; [done|].
  intros Hp Hc. apply drop_proper_suffix; [|done].
  clear -Hp.
  destruct (getvalue (AppBuilder.blob_data b)); [done|simpl; lia].
Qed.

Lemma appbuilder_add_after_load_overwrites_witness :
  ∃ b1 b2 m payload c,
    payload = getvalue (AppBuilder.blob_data SampleRuns.appbuilder_a) ∧
    c = zlib_compress (tar_pack "." Sample.tree_b) ∧
    AppBuilder.load_existing "apps.blob" SampleRuns.appbuilder_file = Ret b1 ∧
    AppBuilder.apps b1 = AppBuilder.apps SampleRuns.appbuilder_a ∧
    getvalue (AppBuilder.blob_data b1) = payload ∧
    AppBuilder.current_offset b1 =
      AppBuilder.current_offset SampleRuns.appbuilder_a ∧
    AppBuilder.add_application Sample.fs "2024-01-03T09:00:00.000001" b1
      "b" "App B" "/src/b" "1.0.0" [] = (true, b2) ∧
    getvalue (AppBuilder.blob_data b2) = c ++ drop (length c) payload ∧
    dict_get (AppBuilder.apps b2) "b" = Some m ∧
    AppBuilder.offset m = len payload ∧
    AppBuilder.compressed_size m = len c ∧
    payload_slice (getvalue (AppBuilder.blob_data b2))
      (AppBuilder.offset m) (AppBuilder.compressed_size m)
      = drop (length payload) c ∧
    (payload ≠ [] → c ≠ [] →
     payload_slice (getvalue (AppBuilder.blob_data b2))
       (AppBuilder.offset m) (AppBuilder.compressed_size m) ≠ c).
Proof.
  refine (appbuilder_add_after_load_overwrites SampleRuns.appbuilder_a
            "2024-01-02T09:00:00.000001" SampleRuns.appbuilder_file
            "apps.blob" Sample.fs "2024-01-03T09:00:00.000001"
            "b" "App B" "/src/b" "1.0.0" [] Sample.tree_b _ _ _).
  - exact sample_appbuilder_a_built.
  - vm_compute. reflexivity.
  - reflexivity.
Defined.

Lemma forallb_false_elem {A} (f : A → bool) (l : list A) (x : A) :
  x ∈ l → f x = false → forallb f l = false.
Proof.
  intros Hx Hf. destruct (forallb f l) eqn:E; [|done].
  rewrite forallb_forall in E. rewrite <- Hf. symmetry. apply E.
  by apply list_elem_of_In.
Qed.

(** An entry added to a loaded builder, when its compressed archive is
    no longer than the payload that was loaded: in the file written next
    the entry's slice is empty, so the entry does not verify and is not
    extracted. *)
Lemma appbuilder_added_entry_unverifiable `{Platform}
    (b b1 b2 : AppBuilder.AppBlobBuilder) (now now' now2 : string)
    (file file2 : bytes) (path path2 dir : string) (fs : filesystem)
    (k n p v : string) (deps : list string) (src : source) (verify : bool) :
  zlib_decompress [] = None →
  appbuilder_built b →
  AppBuilder.build now b = Written file →
  AppBuilder.load_existing path file = Ret b1 →
  fs p = Some src →
  (length (zlib_compress (tar_pack "." src))
   ≤ length (getvalue (AppBuilder.blob_data b)))%nat →
  AppBuilder.add_application fs now' b1 k n p v deps = (true, b2) →
  AppBuilder.build now2 b2 = Written file2 →
  ∃ ex2,
    AppBuilder._load_index path2 file2 = Ret ex2 ∧
    AppBuilder.index ex2 = AppBuilder.apps b2 ∧
    k ∈ AppBuilder.list_applications ex2 ∧
    AppBuilder.verify_blob ex2 file2 = false ∧
    AppBuilder.cmd_verify ex2 file2 = 1 ∧
    AppBuilder.extract_application ex2 file2 k dir verify = (Ret false, []).
Proof.
  intros Hz Hbuilt Hb Hload Hsrc Hle Hadd Hb2.
  pose proof (appbuilder_built_keys b Hbuilt) as Hnd.
  rewrite (appbuilder_load_existing_build now b file path Hnd Hb) in Hload.
  injection Hload as <-.
  unfold AppBuilder.add_application in Hadd. rewrite Hsrc in Hadd.
  cbn [AppBuilder.blob_data AppBuilder.current_offset AppBuilder.apps
       AppBuilder.output_path] in Hadd.
  rewrite bio_write_at_start in Hadd. injection Hadd as <-.
  match type of Hb2 with AppBuilder.build _ ?b = _ => set (b2 := b) in * end.
  assert (NoDup (dict_keys (AppBuilder.apps b2))) as Hnd2
    by by apply dict_set_NoDup.
  pose proof (appbuilder_read_index_build now2 b2 file2 Hnd2 Hb2) as Hread.
  destruct (versioned_layout_split _ AppBuilder.MAGIC _ _ _ _ eq_refl
              (appbuilder_build_layout now2 b2 file2 Hb2))
    as (header & -> & Hlen).
  eexists. split; [unfold AppBuilder._load_index; by rewrite Hread|].
  split; [done|].
  set (ex2 := AppBuilder.mkExtractor _ _ _).
  assert (∃ m, dict_get (AppBuilder.index ex2) k = Some m ∧
               AppBuilder.verify_entry ex2
                 (header ++ getvalue (AppBuilder.blob_data b2)) m = false ∧
               AppBuilder.extract_application ex2
                 (header ++ getvalue (AppBuilder.blob_data b2)) k dir verify
                 = (Ret false, [])) as (m & Hget & Hve & Hex).
  { eexists. split; [apply dict_get_set_eq|].
    unfold AppBuilder.extract_application, AppBuilder.verify_entry, extract_entry.
    unfold ex2, b2. cbn [AppBuilder.index AppBuilder.apps].
    rewrite dict_get_set_eq.
    cbn [AppBuilder.data_offset AppBuilder.offset AppBuilder.compressed_size
         AppBuilder.checksum].
    fold b2. rewrite <- Hlen.
    rewrite seek_read_payload by (unfold len; lia).
    unfold b2. cbn [AppBuilder.blob_data getvalue].
    rewrite payload_slice_overwritten, drop_ge by done.
    by rewrite Hz. }
  assert (k ∈ AppBuilder.list_applications ex2) as Hin
    by (by apply dict_get_Some_keys in Hget).
  split; [done|].
  assert (AppBuilder.verify_blob ex2
            (header ++ getvalue (AppBuilder.blob_data b2)) = false) as Hv.
  { unfold AppBuilder.verify_blob.
    apply (forallb_false_elem _ _ k); [done|]. by rewrite Hget. }
  split; [done|]. split; [unfold AppBuilder.cmd_verify; by rewrite Hv|done].
Qed.

(** X4.  [cmd_add] of [app-blob-builder.py] on an existing blob, then
    [verify]: for a blob written by [build] after successful adds, when
    [cmd_add] adds an application from an existing source whose compressed
    archive is no longer than the payload already in the blob and exits
    with 0, the file it has written does not verify.  The added entry
    points at the end of the payload region, where there are no bytes:
    [AppBlobExtractor] loads the new index, [verify_blob] returns [False]
    ([cmd_verify] returns 1) and [extract_application] of the added key
    returns [False] without touching the destination (assuming, as for
    zlib, that the empty byte string does not decompress). *)
Theorem cmd_add_to_existing_fails_verify `{Platform}
    (b : AppBuilder.AppBlobBuilder) (now now' now2 : string)
    (file file2 : bytes) (blob dir : string) (fs : filesystem)
    (k p v : string) (name : option string) (deps : list string)
    (src : source) (verify : bool) :
  zlib_decompress [] = None →
  appbuilder_built b →
  AppBuilder.build now b = Written file →
  fs p = Some src →
  (length (zlib_compress (tar_pack "." src))
   ≤ length (getvalue (AppBuilder.blob_data b)))%nat →
  AppBuilder.cmd_add fs now' now2 (Some file) blob k name p v deps
    = (Ret 0, Some (Written file2)) →
  ∃ ex2,
    AppBuilder._load_index blob file2 = Ret ex2 ∧
    k ∈ AppBuilder.list_applications ex2 ∧
    AppBuilder.verify_blob ex2 file2 = false ∧
    AppBuilder.cmd_verify ex2 file2 = 1 ∧
    AppBuilder.extract_application ex2 file2 k dir verify = (Ret false, []).
Proof.
  intros Hz Hbuilt Hb Hsrc Hle Hcmd.
  pose proof (appbuilder_built_keys b Hbuilt) as Hnd.
  pose proof (appbuilder_load_existing_build now b file blob Hnd Hb) as Hload.
  unfold AppBuilder.cmd_add in Hcmd. rewrite Hload in Hcmd.
  destruct (AppBuilder.add_application _ _ _ _ _ _ _ _) as [success b2] eqn:Hadd.
  assert (success = true) as ->.
  { unfold AppBuilder.add_application in Hadd. rewrite Hsrc in Hadd.
    by injection Hadd as <- _. }
  destruct (AppBuilder.build now2 b2) as [written|partial] eqn:Hb2; [|done].
  injection Hcmd as ->.
  destruct (appbuilder_added_entry_unverifiable b _ b2 now now' now2 file file2
              blob blob dir fs k _ p v deps src verify
              Hz Hbuilt Hb Hload Hsrc Hle Hadd Hb2)
    as (ex2 & Hex & _ & Hk & Hv & Hc & He).
  by exists ex2.
Qed.

(** The sample blob, to which [cmd_add] adds [b] from [/src/b]. *)
Lemma cmd_add_to_existing_fails_verify_witness :
  ∃ ex2,
    AppBuilder._load_index "apps.blob" SampleRuns.appbuilder_file_b = Ret ex2 ∧
    "b" ∈ AppBuilder.list_applications ex2 ∧
    AppBuilder.verify_blob ex2 SampleRuns.appbuilder_file_b = false ∧
    AppBuilder.cmd_verify ex2 SampleRuns.appbuilder_file_b = 1 ∧
    AppBuilder.extract_application ex2 SampleRuns.appbuilder_file_b "b" "/out"
      true = (Ret false, []).
Proof.
  refine (cmd_add_to_existing_fails_verify SampleRuns.appbuilder_a
            "2024-01-02T09:00:00.000001" "2024-01-03T09:00:00.000001"
            "2024-01-03T09:00:01.000001"
            SampleRuns.appbuilder_file SampleRuns.appbuilder_file_b
            "apps.blob" "/out" Sample.fs
            "b" "/src/b" "1.0.0" (Some "App B") [] Sample.tree_b true
            _ _ _ _ _ _).
  - reflexivity.
  - exact sample_appbuilder_a_built.
  - vm_compute. reflexivity.
  - reflexivity.
  - vm_compute. lia.
  - vm_compute. reflexivity.
Defined.

(** *** [userdata-blob-builder.py] *)
Section UserDataRoundTrip.
Context `{Platform}.

Lemma dict_set_Forall {V} (P : string * V → Prop) (d : dict V) k v :
  Forall P d → P (k, v) → Forall P (dict_set d k v).
Proof.
  intros Hd Hv. induction d as [|[k' v'] d IH]; simpl.
  - by constructor.
  - apply Forall_cons in Hd as [Hx Hd].
    case_decide; subst; constructor; auto.
Qed.

Lemma users_of_json_users (users : dict UserData.user_meta) :
  UserData.users_of_json (prod_map id JDict <$> users) = Some users.
Proof.
  induction users as [|[k m] users IH]; [done|].
  rewrite fmap_cons. cbn [UserData.users_of_json prod_map fst snd id].
  by rewrite IH.
Qed.

(** The metadata [add_user] records is a well-formed object. *)
Lemma add_user_meta_wf fs now1 now2 b uid src descr quota b' :
  UserData.add_user fs now1 now2 b uid src descr quota = (true, b') →
  Forall (λ kv, json_wf (JDict kv.2)) (UserData.users b) →
  Forall (λ kv, json_wf (JDict kv.2)) (UserData.users b').
Proof.
  unfold UserData.add_user. intros Hadd Hwf.
  destruct (dict_in uid (UserData.users b)); [done|].
  destruct (fs src) as [tree|]; [|done]. injection Hadd as <-.
  cbn [UserData.users]. apply dict_set_Forall; [done|].
  cbn [snd]. apply json_wf_dict. split; [by apply (bool_decide_unpack _)|].
  repeat (apply Forall_cons; split; [try done|]); [| |done].
  - apply json_wf_list, Forall_fmap, Forall_forall. intros f _.
    apply json_wf_dict. split; [by apply (bool_decide_unpack _)|].
    by repeat constructor.
  - by destruct quota.
Qed.

Lemma user_built_wf (b : UserData.UserDataBlobBuilder) :
  Builds.user_built b →
  NoDup (dict_keys (UserData.users b)) ∧
  Forall (λ kv, json_wf (JDict kv.2)) (UserData.users b).
Proof.
  induction 1 as [p|fs now1 now2 b uid src descr quota b' _ [IHk IHw] Hadd].
  - split; constructor.
  - split; [|by eapply add_user_meta_wf].
    unfold UserData.add_user in Hadd.
    destruct (dict_in uid (UserData.users b)); [done|].
    destruct (fs src) as [tree|]; [|done]. injection Hadd as <-.
    by apply dict_set_NoDup.
Qed.

Lemma userdata_index_wf (now : string) (b : UserData.UserDataBlobBuilder) :
  NoDup (dict_keys (UserData.users b)) →
  Forall (λ kv, json_wf (JDict kv.2)) (UserData.users b) →
  json_wf (UserData.index_json now b).
Proof.
  intros Hnd Hwf. apply json_wf_dict. split; [by apply (bool_decide_unpack _)|].
  repeat (apply Forall_cons; split; [try done|]); [|done].
  apply json_wf_dict. split.
  - by rewrite keys_prod_map.
  - apply Forall_fmap. eapply Forall_impl; [exact Hwf|]. by intros [k m].
Qed.

(** [load_existing] on a file written by [build]: the users and the
    payload of the builder, in a buffer positioned at 0. *)
Lemma userdata_load_existing_build (now : string)
    (b : UserData.UserDataBlobBuilder) (file : bytes) (path : string) :
  NoDup (dict_keys (UserData.users b)) →
  Forall (λ kv, json_wf (JDict kv.2)) (UserData.users b) →
  UserData.build now b = Written file →
  UserData.load_existing path file =
  Ret (UserData.mkBuilder path (UserData.users b)
         (BytesIO_of (getvalue (UserData.blob_data b)))
         (len (getvalue (UserData.blob_data b)))).
Proof.
  intros Hnd Hwf Hb. apply userdata_build_layout in Hb.
  destruct (versioned_layout_fields _ UserData.MAGIC _ _ _ _ eq_refl Hb)
    as (Hm & Hver & Hsz & Hix & Hp).
  unfold UserData.load_existing. rewrite Hm.
  rewrite bool_decide_eq_true_2 by done. cbn [negb].
  unfold unpack_H, unpack_I.
  rewrite (struct_unpack_pack _ _ _ _ Hver).
  cbn [Z.eqb negb UserData.VERSION Pos.eqb].
  rewrite (struct_unpack_pack _ _ _ _ Hsz).
  replace (Z.to_nat (len (encode (json_dumps (UserData.index_json now b)))))
    with (length (encode (json_dumps (UserData.index_json now b))))
    by (unfold len; lia).
  rewrite Hix, decode_encode.
  rewrite json_loads_dumps by by apply userdata_index_wf.
  unfold UserData.index_json at 1. cbn [dict_get].
  repeat (rewrite decide_False by done). rewrite decide_True by done.
  rewrite users_of_json_users.
  change (8 + 2 + 4 + ?n)%nat with (14 + n)%nat in Hp. by rewrite Hp.
Qed.
End UserDataRoundTrip.

(** X5.  [userdata-blob-builder.py], [load_existing] then [add_user]
    (what [cmd_add] does to an existing store): [load_existing] restores
    the users, the payload and the write cursor of the builder that wrote
    the file, with the payload in a [BytesIO(blob_data)] positioned at 0.
    The next [add_user] writes its compressed archive over the start of the
    payload and records the old payload's end as the offset of the new
    user, whose slice of the buffer is then only what of the archive
    reaches past the old payload, never the archive itself when both are
    non-empty. *)
Theorem userdata_add_after_load_overwrites `{Platform}
    (b : UserData.UserDataBlobBuilder) (now : string) (file : bytes)
    (path : string) (fs : filesystem) (now1 now2 uid p descr : string)
    (quota : option Z) (src : source) :
  Builds.user_built b →
  UserData.build now b = Written file →
  dict_in uid (UserData.users b) = false →
  fs p = Some src →
  ∃ b1 b2 m payload c,
    payload = getvalue (UserData.blob_data b) ∧
    c = zlib_compress (tar_pack "." src) ∧
    UserData.load_existing path file = Ret b1 ∧
    UserData.users b1 = UserData.users b ∧
    getvalue (UserData.blob_data b1) = payload ∧
    UserData.current_offset b1 = UserData.current_offset b ∧
    UserData.add_user fs now1 now2 b1 uid p descr quota = (true, b2) ∧
    getvalue (UserData.blob_data b2) = c ++ drop (length c) payload ∧
    dict_get (UserData.users b2) uid = Some m ∧
    get_int m "offset" = Some (len payload) ∧
    get_int m "compressed_size" = Some (len c) ∧
    payload_slice (getvalue (UserData.blob_data b2)) (len payload) (len c)
      = drop (length payload) c ∧
    (payload ≠ [] → c ≠ [] →
     payload_slice (getvalue (UserData.blob_data b2)) (len payload) (len c)
       ≠ c).
Proof.
  intros Hbuilt Hb Hnew Hsrc.
  destruct (user_built_wf b Hbuilt) as [Hnd Hwf].
  destruct (user_built_recorded b Hbuilt) as (_ & Hcur & _).
  eexists _, _, _, _, _. split; [reflexivity|]. split; [reflexivity|].
  split; [by apply (userdata_load_existing_build now)|].
  split; [done|]. split; [done|]. split; [by rewrite Hcur|].
  unfold UserData.add_user.
  cbn [UserData.blob_data UserData.current_offset UserData.users
       UserData.output_path].
  rewrite Hnew, Hsrc. rewrite bio_write_at_start.
  split; [reflexivity|]. split; [done|].
  cbn [UserData.users]. rewrite dict_get_set_eq.
  split; [reflexivity|]. split; [done|]. split; [done|].
  cbn [UserData.blob_data getvalue]. rewrite payload_slice_overwritten.
  split; [done|].
  intros Hp Hc. apply drop_proper_suffix; [|done].
  clear -Hp.
  destruct (getvalue (UserData.blob_data b)); [done|simpl; lia].
Qed.

Lemma userdata_add_after_load_overwrites_witness :
  ∃ b1 b2 m payload c,
    payload = getvalue (UserData.blob_data SampleRuns.users_ab) ∧
    c = zlib_compress (tar_pack "." Sample.tree_b) ∧
    UserData.load_existing "users.blob" SampleRuns.users_file = Ret b1 ∧
    UserData.users b1 = UserData.users SampleRuns.users_ab ∧
    getvalue (UserData.blob_data b1) = payload ∧
    UserData.current_offset b1 = UserData.current_offset SampleRuns.users_ab ∧
    UserData.add_user Sample.fs "2024-01-03T10:00:00.000001"
      "2024-01-03T10:00:00.000002" b1 "carol" "/src/b" "" None = (true, b2) ∧
    getvalue (UserData.blob_data b2) = c ++ drop (length c) payload ∧
    dict_get (UserData.users b2) "carol" = Some m ∧
    get_int m "offset" = Some (len payload) ∧
    get_int m "compressed_size" = Some (len c) ∧
    payload_slice (getvalue (UserData.blob_data b2)) (len payload) (len c)
      = drop (length payload) c ∧
    (payload ≠ [] → c ≠ [] →
     payload_slice (getvalue (UserData.blob_data b2)) (len payload) (len c)
       ≠ c).
Proof.
  refine (userdata_add_after_load_overwrites SampleRuns.users_ab
            "2024-01-02T09:00:00.000001" SampleRuns.users_file "users.blob"
            Sample.fs "2024-01-03T10:00:00.000001" "2024-01-03T10:00:00.000002"
            "carol" "/src/b" "" None Sample.tree_b _ _ _ _).
  - exact sample_users_ab_built.
  - vm_compute. reflexivity.
  - reflexivity.
  - reflexivity.
Defined.

(** ** Updates in the data store *)
Section UpdateFacts.
Context {V : Type}.


End UpdateFacts.



(** ** What the verify commands check *)

(** X7.  [verify_blob] of [app-blob-builder.py] returns [True] exactly
    when the slice of every entry of the index is intact in the file: it
    can be read, it decompresses, and the SHA-256 digest of the
    decompressed bytes is the stored checksum.  [cmd_verify] of
    [app_blob_cli.py] returns 0 exactly when every slice can be read and
    decompresses; the stored checksum plays no part in it. *)
Theorem verify_commands_check `{Platform} :
  (∀ (ex : AppBuilder.AppBlobExtractor) (file : bytes),
      AppBuilder.verify_blob ex file = true ↔
      ∀ k m, dict_get (AppBuilder.index ex) k = Some m →
             slice_intact file (AppBuilder.data_offset ex)
               (AppBuilder.offset m) (AppBuilder.compressed_size m)
               (AppBuilder.checksum m)) ∧
  (∀ (ex : Manager.AppBlobExtractor) (file : bytes),
      Cli.cmd_verify ex file = 0 ↔
      ∀ k m, dict_get (Manager.index ex) k = Some m →
             ∃ compressed_data tar_data,
               seek_read file (Manager.data_offset ex + Manager.offset m)
                 (Manager.compressed_size m) = Ret compressed_data ∧
               zlib_decompress compressed_data = Some tar_data).
Proof.
  split; intros ex file.
  - unfold AppBuilder.verify_blob. rewrite forallb_forall. split.
    + intros Hall k m Hget.
      specialize (Hall k (proj1 (list_elem_of_In _ _)
                            (dict_get_Some_keys _ _ _ Hget))).
      rewrite Hget in Hall. unfold AppBuilder.verify_entry in Hall.
      unfold slice_intact.
      destruct (seek_read _ _ _) as [c|]; [|done].
      destruct (zlib_decompress c) as [d|] eqn:Hd; [|done].
      exists c, d. split_and!; [done..|]. by apply bool_decide_eq_true in Hall.
    + intros Hall k Hk%list_elem_of_In.
      destruct (dict_get (AppBuilder.index ex) k) as [m|] eqn:Hget;
        [|by apply dict_get_None_keys in Hget].
      destruct (Hall k m Hget) as (c & d & Hread & Hd & Hsum).
      unfold AppBuilder.verify_entry. rewrite Hread, Hd.
      by apply bool_decide_eq_true_2.
  - unfold Cli.cmd_verify.
    destruct (forallb _ _) eqn:E.
    + split; [intros _|done]. rewrite forallb_forall in E.
      intros k m Hget.
      specialize (E k (proj1 (list_elem_of_In _ _)
                         (dict_get_Some_keys _ _ _ Hget))).
      unfold Cli.verify_key, Manager.extract_to_memory in E.
      rewrite Hget in E.
      destruct (seek_read _ _ _) as [c|]; [|done].
      destruct (zlib_decompress c) as [d|] eqn:Hd; [|done]. by exists c, d.
    + split; [done|]. intros Hall. exfalso.
      assert (forallb (Cli.verify_key ex file) (Manager.list_applications ex)
              = true) as E'; [|by rewrite E' in E].
      apply forallb_forall. intros k Hk%list_elem_of_In.
      unfold Cli.verify_key, Manager.extract_to_memory.
      destruct (dict_get (Manager.index ex) k) as [m|] eqn:Hget; [|done].
      destruct (Hall k m Hget) as (c & d & Hread & Hd).
      by rewrite Hread, Hd.
Qed.

(** ** Extraction of several applications *)
Section ExtractLoops.
Context `{Platform}.

(** The results after one more key, as the loop records them. *)
Lemma results_step (results results' : dict bool) (k0 : string) (s0 : bool)
    (rest : list string) (ext : string → result bool) :
  ext k0 = Ret s0 →
  (∀ k s, dict_get results' k = Some s ↔
          (k ∈ rest ∧ ext k = Ret s) ∨
          ((k ∉ rest) ∧ dict_get (dict_set results k0 s0) k = Some s)) →
  ∀ k s, dict_get results' k = Some s ↔
         (k ∈ k0 :: rest ∧ ext k = Ret s) ∨
         ((k ∉ k0 :: rest) ∧ dict_get results k = Some s).
Proof.
  intros E0 Hres k s. rewrite Hres, !elem_of_cons.
  destruct (decide (k = k0)) as [->|Hne].
  - rewrite dict_get_set_eq, E0. destruct (decide (k0 ∈ rest)).
    + split; [intros [[_ ?]|[? _]]; [by left; split; [by left|]|done]
             |intros [[_ ?]|[Hn _]]; [by left|]].
      exfalso. apply Hn. by left.
    + split; [intros [[? _]|[_ [= <-]]]; [done|by left; split; [left|]]
             |intros [[_ [= <-]]|[Hn _]]; [by right|]].
      exfalso. apply Hn. by left.
  - rewrite dict_get_set_ne by done. split.
    + intros [[? ?]|[Hn ?]]; [by left; split; [right|]|right; split; [|done]].
      by intros [?|?].
    + intros [[[?|?] ?]|[Hn ?]]; [done|by left|right; split; [|done]].
      intros ?. apply Hn. by right.
Qed.

Lemma appbuilder_extract_loop_returns ex file dir verify :
  ∀ keys results ops,
    (∀ k, k ∈ keys →
          ∃ s, (AppBuilder.extract_application ex file k dir verify).1 = Ret s) →
    ∃ results',
      AppBuilder.extract_loop ex file dir verify keys results ops =
        (Ret results',
         ops ++ concat ((λ k, (AppBuilder.extract_application ex file k dir
                                 verify).2) <$> keys)) ∧
      ∀ k s, dict_get results' k = Some s ↔
             (k ∈ keys ∧
              (AppBuilder.extract_application ex file k dir verify).1 = Ret s) ∨
             ((k ∉ keys) ∧ dict_get results k = Some s).
Proof.
  intros keys. induction keys as [|k0 rest IH]; intros results ops Hret.
  - exists results. split; [simpl; by rewrite app_nil_r|].
    intros k s. split.
    + intros Hg. right. split; [apply not_elem_of_nil|done].
    + by intros [[[]%elem_of_nil _]|[_ Hg]].
  - destruct (Hret k0 (list_elem_of_here _ _)) as [s0 Hs0].
    cbn [AppBuilder.extract_loop].
    destruct (AppBuilder.extract_application ex file k0 dir verify)
      as [r0 o0] eqn:E0.
    cbn [fst] in Hs0. subst r0.
    destruct (IH (dict_set results k0 s0) (ops ++ o0)) as (results' & Hloop & Hres).
    { intros k Hk. apply Hret. by apply list_elem_of_further. }
    exists results'. split.
    + rewrite Hloop, fmap_cons. cbn [concat]. rewrite E0. cbn [snd].
      by rewrite <- app_assoc.
    + apply (results_step results results' k0 s0 rest
               (λ k, (AppBuilder.extract_application ex file k dir verify).1));
        [by rewrite E0|done].
Qed.

Lemma manager_extract_loop_returns ex file dir verify :
  ∀ keys results ops,
    (∀ k, k ∈ keys →
          ∃ s, (Manager.extract_application ex file k dir verify).1 = Ret s) →
    ∃ results',
      Manager.extract_loop ex file dir verify keys results ops =
        (Ret results',
         ops ++ concat ((λ k, (Manager.extract_application ex file k dir
                                 verify).2) <$> keys)) ∧
      ∀ k s, dict_get results' k = Some s ↔
             (k ∈ keys ∧
              (Manager.extract_application ex file k dir verify).1 = Ret s) ∨
             ((k ∉ keys) ∧ dict_get results k = Some s).
Proof.
  intros keys. induction keys as [|k0 rest IH]; intros results ops Hret.
  - exists results. split; [simpl; by rewrite app_nil_r|].
    intros k s. split.
    + intros Hg. right. split; [apply not_elem_of_nil|done].
    + by intros [[[]%elem_of_nil _]|[_ Hg]].
  - destruct (Hret k0 (list_elem_of_here _ _)) as [s0 Hs0].
    cbn [Manager.extract_loop].
    destruct (Manager.extract_application ex file k0 dir verify)
      as [r0 o0] eqn:E0.
    cbn [fst] in Hs0. subst r0.
    destruct (IH (dict_set results k0 s0) (ops ++ o0)) as (results' & Hloop & Hres).
    { intros k Hk. apply Hret. by apply list_elem_of_further. }
    exists results'. split.
    + rewrite Hloop, fmap_cons. cbn [concat]. rewrite E0. cbn [snd].
      by rewrite <- app_assoc.
    + apply (results_step results results' k0 s0 rest
               (λ k, (Manager.extract_application ex file k dir verify).1));
        [by rewrite E0|done].
Qed.

(** The loop up to the first key whose extraction raises. *)
Lemma appbuilder_extract_loop_raises ex file dir verify pre k post e done :
  (∀ k', k' ∈ pre →
         ∃ s, (AppBuilder.extract_application ex file k' dir verify).1 = Ret s) →
  AppBuilder.extract_application ex file k dir verify = (Raise e, done) →
  ∀ results ops,
    AppBuilder.extract_loop ex file dir verify (pre ++ k :: post) results ops =
      (Raise e,
       ops ++ concat ((λ k, (AppBuilder.extract_application ex file k dir
                               verify).2) <$> pre) ++ done).
Proof.
  intros Hpre Hk. induction pre as [|k0 pre IH]; intros results ops.
  - cbn [app AppBuilder.extract_loop]. by rewrite Hk.
  - destruct (Hpre k0 (list_elem_of_here _ _)) as [s0 Hs0].
    cbn [app AppBuilder.extract_loop].
    destruct (AppBuilder.extract_application ex file k0 dir verify)
      as [r0 o0] eqn:E0.
    cbn [fst] in Hs0. subst r0.
    rewrite IH by (intros; apply Hpre; by apply list_elem_of_further).
    rewrite fmap_cons. cbn [concat]. rewrite E0. cbn [snd].
    by rewrite <- !app_assoc.
Qed.

Lemma manager_extract_loop_NoDup ex file dir verify :
  ∀ keys results ops results' ops',
    NoDup (dict_keys results) →
    Manager.extract_loop ex file dir verify keys results ops
      = (Ret results', ops') →
    NoDup (dict_keys results').
Proof.
  intros keys. induction keys as [|k0 rest IH]; intros results ops results' ops' Hnd.
  - by intros [= <- _].
  - cbn [Manager.extract_loop].
    destruct (Manager.extract_application ex file k0 dir verify) as [[s0|e] o0];
      [|done].
    apply IH. by apply dict_set_NoDup.
Qed.

Lemma appbuilder_extract_loop_NoDup ex file dir verify :
  ∀ keys results ops results' ops',
    NoDup (dict_keys results) →
    AppBuilder.extract_loop ex file dir verify keys results ops
      = (Ret results', ops') →
    NoDup (dict_keys results').
Proof.
  intros keys. induction keys as [|k0 rest IH]; intros results ops results' ops' Hnd.
  - by intros [= <- _].
  - cbn [AppBuilder.extract_loop].
    destruct (AppBuilder.extract_application ex file k0 dir verify) as [[s0|e] o0];
      [|done].
    apply IH. by apply dict_set_NoDup.
Qed.

Lemma elem_of_concat_fmap {A B} (f : A → list B) (l : list A) (x : B) :
  x ∈ concat (f <$> l) ↔ ∃ a, a ∈ l ∧ x ∈ f a.
Proof.
  induction l as [|a l IH]; csimpl.
  - split; [by intros ?%elem_of_nil|by intros (? & ?%elem_of_nil & _)].
  - rewrite elem_of_app, IH. split.
    + intros [?|(a' & ? & ?)]; [exists a; split; [by left|done]|].
      exists a'. split; [by right|done].
    + intros (a' & [->|?]%elem_of_cons & ?); [by left|right; by exists a'].
Qed.
End ExtractLoops.

Section DictValues.
Context {V : Type}.

Lemma dict_get_of_elem (d : dict V) (k : string) (v : V) :
  NoDup (dict_keys d) → (k, v) ∈ d → dict_get d k = Some v.
Proof.
  unfold dict_keys. induction d as [|[k' v'] d IH]; csimpl; intros Hnd Hin.
  - by apply elem_of_nil in Hin.
  - apply NoDup_cons in Hnd as [Hk' Hnd].
    apply elem_of_cons in Hin as [[= -> ->]|Hin].
    + by rewrite decide_True.
    + rewrite decide_False; [by apply IH|].
      intros ->. apply Hk'. apply list_elem_of_fmap. by exists (k, v).
Qed.
End DictValues.

(** All recorded results are [True]. *)
Lemma results_all_true (results : dict bool) :
  NoDup (dict_keys results) →
  forallb id (dict_values results) = true ↔
  ∀ k s, dict_get results k = Some s → s = true.
Proof.
  intros Hnd. rewrite forallb_forall. split.
  - intros Hall k s Hget. apply (Hall s). apply list_elem_of_In.
    apply list_elem_of_fmap. exists (k, s). split; [done|].
    by apply dict_get_Some_elem.
  - intros Hall s Hs%list_elem_of_In.
    apply list_elem_of_fmap in Hs as ([k s'] & -> & Hin).
    apply (Hall k). by apply dict_get_of_elem.
Qed.

(** The resolvers of the two application catalogs satisfy the closure
    properties. *)
Lemma manager_resolver_closure `{Platform} (ex : Manager.AppBlobExtractor) :
  closure_properties (Manager.lookup_deps ex) (Manager.resolve_dependencies ex).
Proof.
  eapply closure_properties_ext;
    [|apply (resolver_closure _ _ (manager_lookup_entries ex))].
  intros keys. simpl. unfold Manager.resolve_dependencies.
  pose proof (manager_resolve_unfold ex keys 0) as Hu.
  rewrite !Nat.add_0_r in Hu. by rewrite Hu.
Qed.

Lemma appbuilder_lookup_entries `{Platform} (ex : AppBuilder.AppBlobExtractor)
    k deps :
  AppBuilder.lookup_deps ex k = Some deps → (k, deps) ∈ appbuilder_entries ex.
Proof.
  unfold AppBuilder.lookup_deps, appbuilder_entries.
  rewrite <- dict_get_fmap. apply dict_get_Some_elem.
Qed.

Lemma appbuilder_resolve_unfold `{Platform} (ex : AppBuilder.AppBlobExtractor)
    keys extra :
  AppBuilder.resolve_dependencies_fuel
    (resolve_bound (AppBuilder.dependencies <$> dict_values (AppBuilder.index ex))
       keys + extra) ex keys
  = prod_map elements id <$>
      resolve_loop (AppBuilder.lookup_deps ex)
        (resolve_bound ((appbuilder_entries ex).*2) keys + extra) ∅ [] keys.
Proof.
  unfold AppBuilder.resolve_dependencies_fuel, appbuilder_entries.
  by rewrite values_prod_map.
Qed.

Lemma appbuilder_resolver_closure `{Platform} (ex : AppBuilder.AppBlobExtractor) :
  closure_properties (AppBuilder.lookup_deps ex)
    (AppBuilder.resolve_dependencies ex).
Proof.
  eapply closure_properties_ext;
    [|apply (resolver_closure _ _ (appbuilder_lookup_entries ex))].
  intros keys. simpl. unfold AppBuilder.resolve_dependencies.
  pose proof (appbuilder_resolve_unfold ex keys 0) as Hu.
  rewrite !Nat.add_0_r in Hu. by rewrite Hu.
Qed.

(** X8.  [extract_applications] of [app-blob-builder.py], when no
    extraction raises.  The keys attempted are the requested keys
    ([resolve_deps=False]) or the index keys reached from them through
    dependencies ([resolve_deps=True]).  The returned dictionary has
    exactly one entry for each attempted key, holding what
    [extract_application] returns for that key on its own, so a [False] for
    one key does not keep the others from being extracted; what is done to
    the target directory is what the single extractions do.  A requested
    key that is not in the index is reported [False] without dependency
    resolution, and has no entry at all with it. *)
Theorem appbuilder_extract_applications_results `{Platform}
    (ex : AppBuilder.AppBlobExtractor) (file : bytes) (keys : list string)
    (dir : string) (resolve_deps verify : bool) :
  (∀ k, (if resolve_deps then reaches (AppBuilder.lookup_deps ex) keys k
         else k ∈ keys) →
        ∃ s, (AppBuilder.extract_application ex file k dir verify).1 = Ret s) →
  ∃ results ops,
    AppBuilder.extract_applications ex file keys dir resolve_deps verify
      = Some (Ret results, ops) ∧
    (∀ k s, dict_get results k = Some s ↔
            (if resolve_deps then reaches (AppBuilder.lookup_deps ex) keys k
             else k ∈ keys) ∧
            (AppBuilder.extract_application ex file k dir verify).1 = Ret s) ∧
    (∀ op, op ∈ ops ↔
           ∃ k, (if resolve_deps then reaches (AppBuilder.lookup_deps ex) keys k
                 else k ∈ keys) ∧
                op ∈ (AppBuilder.extract_application ex file k dir verify).2) ∧
    (∀ k, k ∈ keys → dict_get (AppBuilder.index ex) k = None →
          dict_get results k = if resolve_deps then None else Some false).
Proof.
  intros Hret. unfold AppBuilder.extract_applications.
  destruct resolve_deps.
  - destruct (appbuilder_resolver_closure ex) as [Htot Hreach _ _ _ Hskip _].
    destruct (Htot keys) as [[r w] Hres]. rewrite Hres.
    specialize (Hreach keys r w Hres). specialize (Hskip keys r w).
    destruct (appbuilder_extract_loop_returns ex file dir verify r [] [])
      as (results & Hloop & Hget).
    { intros k Hk. apply Hret. by apply Hreach. }
    exists results, (concat ((λ k, (AppBuilder.extract_application ex file k
                                      dir verify).2) <$> r)).
    split; [by rewrite Hloop|]. split_and!.
    + intros k s. rewrite Hget, <- Hreach. split; [|by left].
      by intros [?|[_ ?]].
    + intros op. rewrite elem_of_concat_fmap.
      split; intros (k & Hk & Hop); exists k; split; try done; by apply Hreach.
    + intros k _ Hnone.
      destruct (dict_get results k) as [s|] eqn:E; [|done].
      apply Hget in E as [[Hk _]|[_ ?]]; [|done].
      exfalso. apply (Hskip k Hres); [|done].
      unfold AppBuilder.lookup_deps. by rewrite Hnone.
  - destruct (appbuilder_extract_loop_returns ex file dir verify keys [] [])
      as (results & Hloop & Hget); [done|].
    exists results, (concat ((λ k, (AppBuilder.extract_application ex file k
                                      dir verify).2) <$> keys)).
    split; [by rewrite Hloop|]. split_and!.
    + intros k s. rewrite Hget. split; [|by left]. by intros [?|[_ ?]].
    + intros op. by rewrite elem_of_concat_fmap.
    + intros k Hk Hnone. apply Hget. left. split; [done|].
      unfold AppBuilder.extract_application. by rewrite Hnone.
Qed.

(** On the sample container: [a] and the unknown key [zz] requested
    together, without dependency resolution. *)
Lemma appbuilder_extract_applications_results_witness :
  ∃ results ops,
    AppBuilder.extract_applications SampleRuns.appbuilder_extractor
      SampleRuns.appbuilder_file ["zz"; "a"] "/out" false true
      = Some (Ret results, ops) ∧
    (∀ k s, dict_get results k = Some s ↔
            k ∈ ["zz"; "a"] ∧
            (AppBuilder.extract_application SampleRuns.appbuilder_extractor
               SampleRuns.appbuilder_file k "/out" true).1 = Ret s) ∧
    (∀ op, op ∈ ops ↔
           ∃ k, k ∈ ["zz"; "a"] ∧
                op ∈ (AppBuilder.extract_application
                        SampleRuns.appbuilder_extractor
                        SampleRuns.appbuilder_file k "/out" true).2) ∧
    (∀ k, k ∈ ["zz"; "a"] →
          dict_get (AppBuilder.index SampleRuns.appbuilder_extractor) k = None →
          dict_get results k = Some false).
Proof.
  refine (appbuilder_extract_applications_results
            SampleRuns.appbuilder_extractor SampleRuns.appbuilder_file
            ["zz"; "a"] "/out" false true _).
  intros k Hk.
  apply elem_of_cons in Hk as [->|Hk]; [by exists false|].
  apply list_elem_of_singleton in Hk as ->. by exists true.
Defined.

(** A list with a key whose run raises splits at the first such key. *)
Lemma first_raising_key {A : Type} (run : string → result A * list fs_op)
    (l : list string) (k : string) (e : exn) (done : list fs_op) :
  k ∈ l → run k = (Raise e, done) →
  ∃ pre k1 post e1 done1,
    l = pre ++ k1 :: post ∧
    (∀ k', k' ∈ pre → ∃ s, (run k').1 = Ret s) ∧
    run k1 = (Raise e1, done1).
Proof.
  intros Hin Hk. induction l as [|k0 l IH]; [by apply elem_of_nil in Hin|].
  destruct (run k0) as [[s0|e0] o0] eqn:E0.
  - apply elem_of_cons in Hin as [->|Hin]; [congruence|].
    destruct (IH Hin) as (pre & k1 & post & e1 & done1 & -> & Hpre & Hk1).
    exists (k0 :: pre), k1, post, e1, done1. split; [done|]. split; [|done].
    intros k' [->|Hk']%elem_of_cons; [|by apply Hpre].
    exists s0. by rewrite E0.
  - exists [], k0, l, e0, o0. split; [done|]. split; [|done].
    by intros k' ?%elem_of_nil.
Qed.

(** X9.  [extract_applications] of [app-blob-builder.py], in both modes,
    when the extraction of one of the keys it is to attempt raises (an
    archive that [tarfile] cannot read, or an index entry whose position in
    the file is negative).  The keys to attempt are the index keys reached
    from the request by default ([resolve_deps=True]) and the requested
    keys with [resolve_deps=False].  The exception of the first key of
    that list whose extraction raises leaves [extract_applications], and
    [cmd_extract] with it, at once: no result dictionary is returned, the
    keys after that one are not attempted, and what was done for the keys
    before it and for the failing key up to the exception stays on disk. *)
Theorem appbuilder_extract_applications_aborts `{Platform}
    (ex : AppBuilder.AppBlobExtractor) (file : bytes)
    (keys : list string) (dir : string) (resolve_deps verify : bool)
    (k : string) (e : exn) (done : list fs_op) :
  (if resolve_deps then reaches (AppBuilder.lookup_deps ex) keys k
   else k ∈ keys) →
  AppBuilder.extract_application ex file k dir verify = (Raise e, done) →
  ∃ attempted pre k1 post e1 done1,
    (if resolve_deps
     then ∃ w, AppBuilder.resolve_dependencies ex keys = Some (attempted, w)
     else attempted = keys) ∧
    attempted = pre ++ k1 :: post ∧
    (∀ k', k' ∈ pre →
           ∃ s, (AppBuilder.extract_application ex file k' dir verify).1
                = Ret s) ∧
    AppBuilder.extract_application ex file k1 dir verify = (Raise e1, done1) ∧
    AppBuilder.extract_applications ex file keys dir resolve_deps verify
      = Some (Raise e1,
              concat ((λ k, (AppBuilder.extract_application ex file k dir
                               verify).2) <$> pre) ++ done1) ∧
    AppBuilder.cmd_extract ex file keys dir (negb resolve_deps) (negb verify)
      = Some (Raise e1,
              concat ((λ k, (AppBuilder.extract_application ex file k dir
                               verify).2) <$> pre) ++ done1).
Proof.
  intros Hatt Hk.
  assert (∃ attempted,
            (if resolve_deps
             then ∃ w, AppBuilder.resolve_dependencies ex keys
                       = Some (attempted, w)
             else attempted = keys) ∧
            k ∈ attempted ∧
            AppBuilder.extract_applications ex file keys dir resolve_deps
              verify
            = Some (AppBuilder.extract_loop ex file dir verify attempted [] []))
    as (attempted & Hres & Hin & Hex).
  { unfold AppBuilder.extract_applications. destruct resolve_deps.
    - destruct (closure_total _ _ (appbuilder_resolver_closure ex) keys)
        as [[r w] Hr].
      exists r. rewrite Hr. split; [by exists w|]. split; [|done].
      by apply (closure_reaches _ _ (appbuilder_resolver_closure ex) keys r w).
    - by exists keys. }
  destruct (first_raising_key
              (λ k, AppBuilder.extract_application ex file k dir verify)
              attempted k e done Hin Hk)
    as (pre & k1 & post & e1 & done1 & Hsplit & Hpre & Hk1).
  exists attempted, pre, k1, post, e1, done1.
  assert (AppBuilder.extract_applications ex file keys dir resolve_deps verify
          = Some (Raise e1,
                  concat ((λ k, (AppBuilder.extract_application ex file k dir
                                   verify).2) <$> pre) ++ done1)) as Hex'.
  { rewrite Hex, Hsplit.
    by rewrite (appbuilder_extract_loop_raises ex file dir verify pre k1 post
                  e1 done1 Hpre Hk1). }
  split_and!; [done..|].
  unfold AppBuilder.cmd_extract. rewrite !negb_involutive. by rewrite Hex'.
Qed.

(** On the sample container, with a second index entry [b] whose offset
    puts its slice before the start of the file, in the default mode: the
    request for [b] and [a] is resolved, and the extraction stops with the
    exception of the first key of the resolver's list that raises. *)
Lemma appbuilder_extract_applications_aborts_witness :
  ∃ attempted pre k1 post e1 done1,
    (∃ w, AppBuilder.resolve_dependencies
            (AppBuilder.mkExtractor "apps.blob"
               (AppBuilder.apps SampleRuns.appbuilder_a ++
                [("b", AppBuilder.mkAppMetadata "b" "App B" "1.0.0" 0 0
                         (-5000) [] [] "" "")])
               (AppBuilder.data_offset SampleRuns.appbuilder_extractor))
            ["b"; "a"] = Some (attempted, w)) ∧
    attempted = pre ++ k1 :: post ∧
    (∀ k', k' ∈ pre →
           ∃ s, (AppBuilder.extract_application
                   (AppBuilder.mkExtractor "apps.blob"
                      (AppBuilder.apps SampleRuns.appbuilder_a ++
                       [("b", AppBuilder.mkAppMetadata "b" "App B" "1.0.0" 0 0
                                (-5000) [] [] "" "")])
                      (AppBuilder.data_offset SampleRuns.appbuilder_extractor))
                   SampleRuns.appbuilder_file k' "/out" true).1 = Ret s) ∧
    AppBuilder.extract_application
      (AppBuilder.mkExtractor "apps.blob"
         (AppBuilder.apps SampleRuns.appbuilder_a ++
          [("b", AppBuilder.mkAppMetadata "b" "App B" "1.0.0" 0 0
                   (-5000) [] [] "" "")])
         (AppBuilder.data_offset SampleRuns.appbuilder_extractor))
      SampleRuns.appbuilder_file k1 "/out" true = (Raise e1, done1) ∧
    AppBuilder.extract_applications
      (AppBuilder.mkExtractor "apps.blob"
         (AppBuilder.apps SampleRuns.appbuilder_a ++
          [("b", AppBuilder.mkAppMetadata "b" "App B" "1.0.0" 0 0
                   (-5000) [] [] "" "")])
         (AppBuilder.data_offset SampleRuns.appbuilder_extractor))
      SampleRuns.appbuilder_file ["b"; "a"] "/out" true true
      = Some (Raise e1,
              concat ((λ k, (AppBuilder.extract_application
                               (AppBuilder.mkExtractor "apps.blob"
                                  (AppBuilder.apps SampleRuns.appbuilder_a ++
                                   [("b", AppBuilder.mkAppMetadata "b" "App B"
                                            "1.0.0" 0 0 (-5000) [] [] "" "")])
                                  (AppBuilder.data_offset
                                     SampleRuns.appbuilder_extractor))
                               SampleRuns.appbuilder_file k "/out" true).2)
                        <$> pre) ++ done1) ∧
    AppBuilder.cmd_extract
      (AppBuilder.mkExtractor "apps.blob"
         (AppBuilder.apps SampleRuns.appbuilder_a ++
          [("b", AppBuilder.mkAppMetadata "b" "App B" "1.0.0" 0 0
                   (-5000) [] [] "" "")])
         (AppBuilder.data_offset SampleRuns.appbuilder_extractor))
      SampleRuns.appbuilder_file ["b"; "a"] "/out" (negb true) (negb true)
      = Some (Raise e1,
              concat ((λ k, (AppBuilder.extract_application
                               (AppBuilder.mkExtractor "apps.blob"
                                  (AppBuilder.apps SampleRuns.appbuilder_a ++
                                   [("b", AppBuilder.mkAppMetadata "b" "App B"
                                            "1.0.0" 0 0 (-5000) [] [] "" "")])
                                  (AppBuilder.data_offset
                                     SampleRuns.appbuilder_extractor))
                               SampleRuns.appbuilder_file k "/out" true).2)
                        <$> pre) ++ done1).
Proof.
  refine (appbuilder_extract_applications_aborts _ SampleRuns.appbuilder_file
            ["b"; "a"] "/out" true true "b" OSError [] _ _).
  - apply (reaches_key _ _ "b" []); [apply list_elem_of_here|reflexivity].
  - reflexivity.
Defined.

(** X10.  [cmd_extract] of [app_blob_cli.py] over [extract_applications]
    of [app_blob_manager.py], when no extraction raises: the exit code is 0
    exactly when every attempted key was extracted, and 1 otherwise.  The
    attempted keys are the requested ones only with [--no-deps]; by default
    they are the index keys reached from the request, so a requested key
    that is not in the index is dropped by the resolver and does not make
    the command fail. *)
Theorem cli_cmd_extract_exit_code `{Platform}
    (ex : Manager.AppBlobExtractor) (file : bytes) (keys : list string)
    (output : string) (no_deps no_verify : bool) :
  (∀ k, (if no_deps then k ∈ keys
         else reaches (Manager.lookup_deps ex) keys k) →
        ∃ s, (Manager.extract_application ex file k output
                (negb no_verify)).1 = Ret s) →
  ∃ code ops,
    Cli.cmd_extract ex file keys output no_deps no_verify
      = Some (Ret code, ops) ∧
    (code = 0 ∨ code = 1) ∧
    (code = 0 ↔
     ∀ k, (if no_deps then k ∈ keys
           else reaches (Manager.lookup_deps ex) keys k) →
          (Manager.extract_application ex file k output
             (negb no_verify)).1 = Ret true) ∧
    ((∃ k, k ∈ keys ∧ dict_get (Manager.index ex) k = None) →
     no_deps = true → code = 1) ∧
    ((∀ k, k ∈ keys → dict_get (Manager.index ex) k = None) →
     no_deps = false → code = 0 ∧ ops = []).
Proof.
  intros Hret. unfold Cli.cmd_extract, Manager.extract_applications.
  set (verify := negb no_verify) in *.
  assert (∀ (l : list string) (wanted : string → Prop),
            (∀ k, k ∈ l ↔ wanted k) →
            (∀ k, wanted k →
                  ∃ s, (Manager.extract_application ex file k output verify).1
                       = Ret s) →
            ∃ results,
              Manager.extract_loop ex file output verify l [] [] =
                (Ret results,
                 concat ((λ k, (Manager.extract_application ex file k output
                                  verify).2) <$> l)) ∧
              (forallb id (dict_values results) = true ↔
               ∀ k, wanted k →
                    (Manager.extract_application ex file k output verify).1
                    = Ret true)) as Hloop.
  { intros l wanted Hl Hw.
    destruct (manager_extract_loop_returns ex file output verify l [] [])
      as (results & Hloop & Hget).
    { intros k Hk. by apply Hw, Hl. }
    exists results. split; [done|].
    rewrite results_all_true
      by (eapply manager_extract_loop_NoDup; [|exact Hloop]; constructor).
    split.
    - intros Hall k Hk. destruct (Hw k Hk) as [s Hs].
      rewrite Hs. f_equal. apply (Hall k). apply Hget. left.
      split; [by apply Hl|done].
    - intros Hall k s [[Hk Hs]|[_ ?]]%Hget; [|done].
      rewrite (Hall k) in Hs by by apply Hl. by injection Hs. }
  destruct no_deps; cbn [negb].
  - destruct (Hloop keys (λ k, k ∈ keys)) as (results & -> & Hall);
      [done..|].
    eexists _, _. split; [reflexivity|].
    split; [by destruct (forallb id _); [left|right]|]. split_and!.
    + rewrite <- Hall. by destruct (forallb id _).
    + intros (k & Hk & Hnone) _.
      destruct (forallb id _) eqn:E; [|done].
      specialize (proj1 Hall eq_refl k Hk).
      unfold Manager.extract_application. by rewrite Hnone.
    + done.
  - destruct (manager_resolver_closure ex) as [Htot Hreach _ _ _ Hskip _].
    destruct (Htot keys) as [[r w] Hres]. rewrite Hres.
    destruct (Hloop r (reaches (Manager.lookup_deps ex) keys))
      as (results & -> & Hall); [by apply (Hreach keys r w Hres)|done|].
    eexists _, _. split; [reflexivity|].
    split; [by destruct (forallb id _); [left|right]|]. split_and!.
    + rewrite <- Hall. by destruct (forallb id _).
    + done.
    + intros Hnone _.
      assert (r = []) as ->.
      { destruct r as [|k r]; [done|]. exfalso.
        assert (reaches (Manager.lookup_deps ex) keys k) as Hk
          by (apply (Hreach keys _ w Hres); by left).
        clear -Hk Hnone.
        induction Hk as [k deps Hk Hl|k deps d deps' _ IH Hl Hd Hl']; [|done].
        unfold Manager.lookup_deps in Hl. by rewrite (Hnone k Hk) in Hl. }
      split; [|done].
      assert (forallb id (dict_values results) = true) as ->; [|done].
      apply Hall. intros k Hk. exfalso.
      apply (Hreach keys [] w Hres) in Hk. by apply elem_of_nil in Hk.
Qed.

(** The unknown key [zz] requested from the sample container: exit code 0
    with dependency resolution, 1 with [--no-deps]. *)
Lemma cli_cmd_extract_exit_code_witness :
  (∃ code ops,
    Cli.cmd_extract SampleRuns.manager_extractor SampleRuns.manager_file
      ["zz"] "/out" false false = Some (Ret code, ops) ∧
    (code = 0 ∨ code = 1) ∧
    (code = 0 ↔
     ∀ k, reaches (Manager.lookup_deps SampleRuns.manager_extractor) ["zz"] k →
          (Manager.extract_application SampleRuns.manager_extractor
             SampleRuns.manager_file k "/out" (negb false)).1 = Ret true) ∧
    ((∃ k, k ∈ ["zz"] ∧
           dict_get (Manager.index SampleRuns.manager_extractor) k = None) →
     false = true → code = 1) ∧
    ((∀ k, k ∈ ["zz"] →
           dict_get (Manager.index SampleRuns.manager_extractor) k = None) →
     false = false → code = 0 ∧ ops = [])) ∧
  Cli.cmd_extract SampleRuns.manager_extractor SampleRuns.manager_file
    ["zz"] "/out" false false = Some (Ret 0, []) ∧
  Cli.cmd_extract SampleRuns.manager_extractor SampleRuns.manager_file
    ["zz"] "/out" true false = Some (Ret 1, []).
Proof.
  split; [|split; vm_compute; reflexivity].
  refine (cli_cmd_extract_exit_code SampleRuns.manager_extractor
            SampleRuns.manager_file ["zz"] "/out" false false _).
  intros k Hk. exfalso.
  induction Hk as [k deps Hk Hl|k deps d deps' _ IH Hl Hd Hl']; [|done].
  apply list_elem_of_singleton in Hk as ->. by vm_compute in Hl.
Defined.

(** ** The files of the binary catalog and the data store *)

Lemma binary_build_layout `{Platform} now b file :
  Binary.build now b = Written file →
  versioned_layout native_order Binary.MAGIC 1
    (encode (json_dumps (Binary.index_json now b)))
    (getvalue (Binary.blob_data b)) file.
Proof.
  unfold Binary.build. intros Hb.
  destruct (pack_H native_order Binary.VERSION) as [ver|] eqn:Hv; [|done].
  destruct (pack_I native_order _) as [sz|] eqn:Hs; [|done].
  injection Hb as <-. by exists ver, sz.
Qed.

(** X11.  [build] of [binary-blob-builder.py], after [add_binary] calls
    that returned [True]: the file is the magic tag [BINBLOB1], the version
    1 (16 bits), the index length (32 bits), the index, and the payload;
    its size is 14 plus the index length plus the write cursor; and for
    every entry of the index the [compressed_size] bytes at [offset] in the
    payload region are the zlib-compressed archive whose size and SHA-256
    digest the entry records, the entry being stored under its own key. *)
Theorem binary_build_file `{Platform} (b : Binary.BinaryBlobBuilder)
    (now : string) (file : bytes) :
  Builds.binary_built b →
  Binary.build now b = Written file →
  ∃ index_bytes,
    index_bytes = encode (json_dumps (Binary.index_json now b)) ∧
    versioned_layout native_order (encode "BINBLOB1") 1 index_bytes
      (getvalue (Binary.blob_data b)) file ∧
    len file = 14 + len index_bytes + Binary.current_offset b ∧
    ∀ k m, dict_get (Binary.binaries b) k = Some m →
      Binary.key m = k ∧
      ∃ tar_data,
        Binary.size m = len tar_data ∧
        Binary.checksum m = sha256_hexdigest tar_data ∧
        Binary.compressed_size m = len (zlib_compress tar_data) ∧
        seek_read file (14 + len index_bytes + Binary.offset m)
          (Binary.compressed_size m) = Ret (zlib_compress tar_data).
Proof.
  intros Hbuilt Hb. eexists. split; [reflexivity|].
  pose proof (binary_build_layout now b file Hb) as HL.
  destruct (binary_built_recorded b Hbuilt) as (_ & Hcur & Hall).
  destruct (versioned_layout_split _ Binary.MAGIC _ _ _ _ eq_refl HL)
    as (header & -> & Hlen).
  split; [done|]. split; [rewrite len_app; lia|].
  intros k m Hget. destruct (Hall k m Hget) as [Hk (H0 & H1 & tar & Hs & Hc & Hz & Hd)].
  split; [done|]. exists tar. split_and!; [done..|].
  rewrite <- Hlen, seek_read_payload by (unfold len in *; lia). by rewrite Hs.
Qed.

Lemma binary_build_file_witness :
  ∃ index_bytes,
    index_bytes = encode (json_dumps (Binary.index_json "2024-01-02T00:00:00"
                                        SampleRuns.binary_tool)) ∧
    versioned_layout native_order (encode "BINBLOB1") 1 index_bytes
      (getvalue (Binary.blob_data SampleRuns.binary_tool))
      (match Binary.build "2024-01-02T00:00:00" SampleRuns.binary_tool with
       | Written file => file
       | WriteFailed partial => partial
       end) ∧
    len (match Binary.build "2024-01-02T00:00:00" SampleRuns.binary_tool with
         | Written file => file
         | WriteFailed partial => partial
         end)
    = 14 + len index_bytes + Binary.current_offset SampleRuns.binary_tool ∧
    ∀ k m, dict_get (Binary.binaries SampleRuns.binary_tool) k = Some m →
      Binary.key m = k ∧
      ∃ tar_data,
        Binary.size m = len tar_data ∧
        Binary.checksum m = sha256_hexdigest tar_data ∧
        Binary.compressed_size m = len (zlib_compress tar_data) ∧
        seek_read (match Binary.build "2024-01-02T00:00:00"
                           SampleRuns.binary_tool with
                   | Written file => file
                   | WriteFailed partial => partial
                   end)
          (14 + len index_bytes + Binary.offset m)
          (Binary.compressed_size m) = Ret (zlib_compress tar_data).
Proof.
  refine (binary_build_file SampleRuns.binary_tool "2024-01-02T00:00:00" _ _ _).
  - exact sample_binary_tool_built.
  - vm_compute. reflexivity.
Defined.

(** X12.  [build] and [load_existing] of [userdata-blob-builder.py],
    after [add_user] calls that returned [True]: in the file [build]
    writes, the [compressed_size] bytes at [offset] in the payload region
    are for every user the zlib-compressed archive whose size and SHA-256
    digest the user's entry records; and [load_existing] on that file gives
    back the same users in the same order, the same payload and the same
    write cursor. *)
Theorem userdata_build_load_round_trip `{Platform}
    (b : UserData.UserDataBlobBuilder) (now : string) (file : bytes)
    (path : string) :
  Builds.user_built b →
  UserData.build now b = Written file →
  (∃ b',
     UserData.load_existing path file = Ret b' ∧
     UserData.output_path b' = path ∧
     UserData.users b' = UserData.users b ∧
     getvalue (UserData.blob_data b') = getvalue (UserData.blob_data b) ∧
     UserData.current_offset b' = UserData.current_offset b) ∧
  ∀ k m, dict_get (UserData.users b) k = Some m →
    get_str m "user_id" = Some k ∧
    ∃ off csz tar_data,
      get_int m "offset" = Some off ∧
      get_int m "compressed_size" = Some csz ∧
      get_int m "size" = Some (len tar_data) ∧
      get_str m "checksum" = Some (sha256_hexdigest tar_data) ∧
      csz = len (zlib_compress tar_data) ∧
      seek_read file
        (14 + len (encode (json_dumps (UserData.index_json now b))) + off) csz
        = Ret (zlib_compress tar_data).
Proof.
  intros Hbuilt Hb.
  destruct (user_built_wf b Hbuilt) as [Hnd Hwf].
  destruct (user_built_recorded b Hbuilt) as (_ & Hcur & Hall).
  split.
  - eexists. split; [by apply (userdata_load_existing_build now)|].
    split_and!; try done; by rewrite Hcur.
  - pose proof (userdata_build_layout now b file Hb) as HL.
    destruct (versioned_layout_split _ UserData.MAGIC _ _ _ _ eq_refl HL)
      as (header & -> & Hlen).
    intros k m Hget.
    destruct (Hall k m Hget)
      as [Hk (off & csz & size & sum & Ho & Hc & Hsz & Hsum & Hrec)].
    destruct Hrec as (H0 & H1 & tar & Hs & Hcz & Hz & Hd). subst size sum.
    split; [done|]. exists off, csz, tar. split_and!; [done..|].
    rewrite <- Hlen, seek_read_payload by (unfold len in *; lia). by rewrite Hs.
Qed.

Lemma userdata_build_load_round_trip_witness :
  (∃ b',
     UserData.load_existing "users.blob" SampleRuns.users_file = Ret b' ∧
     UserData.output_path b' = "users.blob" ∧
     UserData.users b' = UserData.users SampleRuns.users_ab ∧
     getvalue (UserData.blob_data b')
       = getvalue (UserData.blob_data SampleRuns.users_ab) ∧
     UserData.current_offset b' = UserData.current_offset SampleRuns.users_ab) ∧
  ∀ k m, dict_get (UserData.users SampleRuns.users_ab) k = Some m →
    get_str m "user_id" = Some k ∧
    ∃ off csz tar_data,
      get_int m "offset" = Some off ∧
      get_int m "compressed_size" = Some csz ∧
      get_int m "size" = Some (len tar_data) ∧
      get_str m "checksum" = Some (sha256_hexdigest tar_data) ∧
      csz = len (zlib_compress tar_data) ∧
      seek_read SampleRuns.users_file
        (14 + len (encode (json_dumps (UserData.index_json
                      "2024-01-02T09:00:00.000001" SampleRuns.users_ab))) + off)
        csz = Ret (zlib_compress tar_data).
Proof.
  refine (userdata_build_load_round_trip SampleRuns.users_ab
            "2024-01-02T09:00:00.000001" SampleRuns.users_file "users.blob" _ _).
  - exact sample_users_ab_built.
  - vm_compute. reflexivity.
Defined.

(** ** The dependency tree of the binary catalog *)
Section DependencyTree.
Context `{Platform}.

Lemma show_deps_stops (show : string → list string * bool)
    (deps : list string) (d : string) :
  d ∈ deps → (show d).2 = false → (Binary.show_deps show deps).2 = false.
Proof.
  intros Hd Hshow. induction deps as [|x deps IH]; [by apply elem_of_nil in Hd|].
  cbn [Binary.show_deps]. destruct (show x) as [lines completed] eqn:Ex.
  destruct completed.
  - apply elem_of_cons in Hd as [->|Hd]; [by rewrite Ex in Hshow|].
    destruct (Binary.show_deps show deps) as [lines' completed'].
    cbn [snd] in *. by apply IH.
  - done.
Qed.

Lemma show_deps_completes (show : string → list string * bool)
    (deps : list string) :
  (∀ d, d ∈ deps → (show d).2 = true) →
  Binary.show_deps show deps = (concat ((λ d, (show d).1) <$> deps), true).
Proof.
  intros Hall. induction deps as [|x deps IH]; [done|].
  cbn [Binary.show_deps]. rewrite fmap_cons. cbn [concat].
  pose proof (Hall x (list_elem_of_here _ _)) as Hx.
  destruct (show x) as [lines completed]. cbn [fst snd] in *. subst completed.
  rewrite IH by (intros; apply Hall; by apply list_elem_of_further). done.
Qed.
End DependencyTree.

(** X13.  [show_dependency_tree] of [binary-blob-builder.py] follows the
    dependencies by plain recursion, without the visited set that
    [resolve_dependencies] keeps.  So on a catalog with a dependency
    cycle — a set of keys of the index each of which has a dependency in
    the set — the call for any key of the set never returns: whatever
    recursion depth the interpreter allows, the depth is exhausted
    ([RecursionError]).  [resolve_dependencies] returns on the same
    catalog. *)
Theorem show_dependency_tree_cycle `{Platform}
    (b : Binary.BinaryBlobBuilder) (cycle : list string) :
  (∀ k, k ∈ cycle →
        ∃ m d, dict_get (Binary.binaries b) k = Some m ∧
               d ∈ default [] (Binary.dependencies m) ∧ d ∈ cycle) →
  ∀ (depth : nat) (k : string) (indent : nat),
    k ∈ cycle →
    (Binary.show_dependency_tree depth b k indent).2 = false ∧
    is_Some (Binary.resolve_dependencies b [k]).
Proof.
  intros Hcycle depth k indent Hk. split.
  - revert k indent Hk. induction depth as [|depth IH]; intros k indent Hk;
      [done|].
    destruct (Hcycle k Hk) as (m & d & Hget & Hd & Hdc).
    cbn [Binary.show_dependency_tree]. rewrite Hget.
    pose proof (show_deps_stops
                  (λ dep, Binary.show_dependency_tree depth b dep (S indent))
                  (default [] (Binary.dependencies m)) d Hd (IH d (S indent) Hdc))
      as Hstop.
    destruct (Binary.show_deps _ _) as [lines completed]. by cbn [snd] in *.
  - pose proof (resolver_terminates _ _ (binary_lookup_entries b) [k] 0)
      as (r & w & Hres & _).
    unfold Binary.resolve_dependencies.
    pose proof (binary_resolve_unfold b [k] 0) as Hu.
    rewrite !Nat.add_0_r in Hu. rewrite Hu.
    unfold resolve_with in Hres. by rewrite Hres.
Qed.

Lemma show_dependency_tree_cycle_witness :
  (Binary.show_dependency_tree 1000 sample_binary_cycle "A" 0).2 = false ∧
  is_Some (Binary.resolve_dependencies sample_binary_cycle ["A"]).
Proof.
  refine (show_dependency_tree_cycle sample_binary_cycle ["A"; "B"] _
            1000%nat "A" 0%nat _).
  - intros k Hk. apply elem_of_cons in Hk as [->|Hk].
    + eexists _, "B". split; [reflexivity|].
      split; [apply list_elem_of_here|]. apply list_elem_of_further, list_elem_of_here.
    + apply list_elem_of_singleton in Hk as ->.
      eexists _, "A". split; [reflexivity|].
      split; apply list_elem_of_here.
  - apply list_elem_of_here.
Defined.

(** ** Building from a configuration document *)
Section FromConfig.
Context `{Platform}.

(** [add_binary] never touches an entry that is there. *)
Lemma add_binary_keeps fs now b k src a k0 m0 :
  dict_get (Binary.binaries b) k0 = Some m0 →
  dict_get (Binary.binaries (Binary.add_binary fs now b k src a).2) k0 = Some m0.
Proof.
  intros Hget. unfold Binary.add_binary.
  destruct (dict_in k (Binary.binaries b)) eqn:Hin; [done|].
  destruct (fs src); [|done]. cbn [snd Binary.binaries].
  rewrite dict_get_set_ne; [done|].
  intros ->. apply dict_in_false in Hin. by rewrite Hin in Hget.
Qed.

Lemma binary_add_configured_keeps fs clock config :
  ∀ tick b k0 m0,
    dict_get (Binary.binaries b) k0 = Some m0 →
    dict_get (Binary.binaries (Binary.add_configured fs clock tick b config).2) k0
    = Some m0.
Proof.
  induction config as [|c rest IH]; intros tick b k0 m0 Hget; [done|].
  cbn [Binary.add_configured].
  pose proof (add_binary_keeps fs (clock tick) b (Binary.bc_key c)
                (Binary.bc_source c) (Binary.config_args c) k0 m0 Hget) as Hk.
  destruct (Binary.add_binary _ _ _ _ _ _) as [added b']. by apply IH.
Qed.

(** [add_binary] leaves a key absent unless it adds that very key from
    an existing source. *)
Lemma add_binary_skips fs now b k src a k0 :
  dict_get (Binary.binaries b) k0 = None →
  (k = k0 → fs src = None) →
  dict_get (Binary.binaries (Binary.add_binary fs now b k src a).2) k0 = None.
Proof.
  intros Hget Hsrc. unfold Binary.add_binary.
  destruct (dict_in k (Binary.binaries b)); [done|].
  destruct (fs src) eqn:E; [|done]. cbn [snd Binary.binaries].
  rewrite dict_get_set_ne; [done|]. intros Hk. specialize (Hsrc Hk). congruence.
Qed.

Lemma binary_add_configured_first fs clock c post src :
  fs (Binary.bc_source c) = Some src →
  ∀ pre tick b,
    dict_get (Binary.binaries b) (Binary.bc_key c) = None →
    (∀ c', c' ∈ pre → Binary.bc_key c' = Binary.bc_key c →
           fs (Binary.bc_source c') = None) →
    ∃ m,
      dict_get (Binary.binaries
                  (Binary.add_configured fs clock tick b (pre ++ c :: post)).2)
        (Binary.bc_key c) = Some m ∧
      Binary.key m = Binary.bc_key c ∧
      Binary.version m = default "1.0.0" (Binary.bc_version c) ∧
      Binary.description m = default "" (Binary.bc_description c) ∧
      Binary.provides m = default [] (Binary.bc_provides c) ∧
      Binary.dependencies m = Some (default [] (Binary.bc_dependencies c)) ∧
      Binary.env_vars m = default [] (Binary.bc_env c) ∧
      Binary.architecture m = default "x86_64" (Binary.bc_architecture c) ∧
      Binary.os_type m = default "linux" (Binary.bc_os c) ∧
      Binary.size m = len (tar_pack (Binary.bc_key c) src) ∧
      Binary.checksum m = sha256_hexdigest (tar_pack (Binary.bc_key c) src).
Proof.
  intros Hsrc pre. induction pre as [|c' pre IH]; intros tick b Hnone Hpre.
  - cbn [app Binary.add_configured].
    destruct (Binary.add_binary fs (clock tick) b (Binary.bc_key c)
                (Binary.bc_source c) (Binary.config_args c)) as [added b'] eqn:E.
    unfold Binary.add_binary in E.
    rewrite (proj2 (dict_in_false _ _) Hnone), Hsrc in E.
    injection E as <- <-.
    eexists. split.
    + apply binary_add_configured_keeps. cbn [Binary.binaries].
      apply dict_get_set_eq.
    + by split_and!.
  - cbn [app Binary.add_configured].
    pose proof (add_binary_skips fs (clock tick) b (Binary.bc_key c')
                  (Binary.bc_source c') (Binary.config_args c')
                  (Binary.bc_key c) Hnone
                  (Hpre c' (list_elem_of_here _ _))) as Hskip.
    destruct (Binary.add_binary _ _ _ _ _ _) as [added b'].
    apply IH; [done|]. intros c'' Hc''. apply Hpre. by apply list_elem_of_further.
Qed.

(** [add_application] of another key leaves an entry as it is. *)
Lemma appbuilder_add_configured_keeps fs clock config :
  ∀ tick b k0 m0,
    dict_get (AppBuilder.apps b) k0 = Some m0 →
    (∀ c, c ∈ config → AppBuilder.ac_key c = k0 →
          fs (AppBuilder.ac_path c) = None) →
    dict_get (AppBuilder.apps (AppBuilder.add_configured fs clock tick b config).2)
      k0 = Some m0.
Proof.
  induction config as [|c rest IH]; intros tick b k0 m0 Hget Hpost; [done|].
  cbn [AppBuilder.add_configured].
  destruct (fs (AppBuilder.ac_path c)) as [src|] eqn:E.
  - unfold AppBuilder.add_application. rewrite E.
    apply IH; [|intros; apply Hpost; [by apply list_elem_of_further|done]].
    cbn [AppBuilder.apps]. rewrite dict_get_set_ne; [done|].
    intros Hk. by rewrite (Hpost c (list_elem_of_here _ _) Hk) in E.
  - apply IH; [done|].
    intros; apply Hpost; [by apply list_elem_of_further|done].
Qed.

Lemma appbuilder_add_configured_last fs clock c post src :
  fs (AppBuilder.ac_path c) = Some src →
  (∀ c', c' ∈ post → AppBuilder.ac_key c' = AppBuilder.ac_key c →
         fs (AppBuilder.ac_path c') = None) →
  ∀ pre tick b,
    ∃ m,
      dict_get (AppBuilder.apps
                  (AppBuilder.add_configured fs clock tick b (pre ++ c :: post)).2)
        (AppBuilder.ac_key c) = Some m ∧
      AppBuilder.key m = AppBuilder.ac_key c ∧
      AppBuilder.name m = default (AppBuilder.ac_key c) (AppBuilder.ac_name c) ∧
      AppBuilder.version m = default "1.0.0" (AppBuilder.ac_version c) ∧
      AppBuilder.dependencies m = default [] (AppBuilder.ac_dependencies c) ∧
      AppBuilder.size m = len (tar_pack "." src) ∧
      AppBuilder.checksum m = sha256_hexdigest (tar_pack "." src).
Proof.
  intros Hsrc Hpost pre. induction pre as [|c' pre IH]; intros tick b.
  - cbn [app AppBuilder.add_configured]. rewrite Hsrc.
    unfold AppBuilder.add_application. rewrite Hsrc.
    eexists. split.
    + apply appbuilder_add_configured_keeps; [|done].
      cbn [AppBuilder.apps]. apply dict_get_set_eq.
    + by split_and!.
  - cbn [app AppBuilder.add_configured].
    destruct (fs (AppBuilder.ac_path c')); [|apply IH].
    destruct (AppBuilder.add_application _ _ _ _ _ _ _ _) as [added b'].
    apply IH.
Qed.

(** A key all of whose configuration entries have a missing source is
    not in the index. *)
Lemma binary_add_configured_absent fs clock config k0 :
  (∀ c, c ∈ config → Binary.bc_key c = k0 → fs (Binary.bc_source c) = None) →
  ∀ tick b,
    dict_get (Binary.binaries b) k0 = None →
    dict_get (Binary.binaries (Binary.add_configured fs clock tick b config).2) k0
    = None.
Proof.
  induction config as [|c rest IH]; intros Hall tick b Hnone; [done|].
  cbn [Binary.add_configured].
  pose proof (add_binary_skips fs (clock tick) b (Binary.bc_key c)
                (Binary.bc_source c) (Binary.config_args c) k0 Hnone
                (Hall c (list_elem_of_here _ _))) as Hskip.
  destruct (Binary.add_binary _ _ _ _ _ _) as [added b'].
  apply IH; [|done]. intros c' Hc'. apply Hall. by apply list_elem_of_further.
Qed.

Lemma appbuilder_add_configured_absent fs clock config k0 :
  (∀ c, c ∈ config → AppBuilder.ac_key c = k0 →
        fs (AppBuilder.ac_path c) = None) →
  ∀ tick b,
    dict_get (AppBuilder.apps b) k0 = None →
    dict_get (AppBuilder.apps (AppBuilder.add_configured fs clock tick b config).2)
      k0 = None.
Proof.
  induction config as [|c rest IH]; intros Hall tick b Hnone; [done|].
  cbn [AppBuilder.add_configured].
  destruct (fs (AppBuilder.ac_path c)) as [src|] eqn:E.
  - unfold AppBuilder.add_application. rewrite E.
    apply IH; [intros c' Hc'; apply Hall; by apply list_elem_of_further|].
    cbn [AppBuilder.apps]. rewrite dict_get_set_ne; [done|].
    intros Hk. by rewrite (Hall c (list_elem_of_here _ _) Hk) in E.
  - apply IH; [|done]. intros c' Hc'. apply Hall. by apply list_elem_of_further.
Qed.
End FromConfig.

(** X14.  [build_from_config] of [binary-blob-builder.py] when a key
    occurs more than once in the configuration: [add_binary] refuses a key
    that is already in the index, so the entry recorded for a key is made
    from the first configuration entry with that key whose source exists,
    with the documented defaults for the fields the entry leaves out; later
    entries with the key are dropped.  A key whose sources are all missing
    is not in the index. *)
Theorem binary_build_from_config_first_wins `{Platform} (fs : filesystem)
    (clock : nat → string) (pre post : list Binary.binary_config)
    (c : Binary.binary_config) (src : source) (output_path : string) :
  fs (Binary.bc_source c) = Some src →
  (∀ c', c' ∈ pre → Binary.bc_key c' = Binary.bc_key c →
         fs (Binary.bc_source c') = None) →
  (∃ m,
    dict_get (Binary.binaries
                (Binary.build_from_config fs clock (pre ++ c :: post)
                   output_path).1)
      (Binary.bc_key c) = Some m ∧
    Binary.key m = Binary.bc_key c ∧
    Binary.version m = default "1.0.0" (Binary.bc_version c) ∧
    Binary.description m = default "" (Binary.bc_description c) ∧
    Binary.provides m = default [] (Binary.bc_provides c) ∧
    Binary.dependencies m = Some (default [] (Binary.bc_dependencies c)) ∧
    Binary.env_vars m = default [] (Binary.bc_env c) ∧
    Binary.architecture m = default "x86_64" (Binary.bc_architecture c) ∧
    Binary.os_type m = default "linux" (Binary.bc_os c) ∧
    Binary.size m = len (tar_pack (Binary.bc_key c) src) ∧
    Binary.checksum m = sha256_hexdigest (tar_pack (Binary.bc_key c) src)) ∧
  ∀ k, (∀ c', c' ∈ pre ++ c :: post → Binary.bc_key c' = k →
              fs (Binary.bc_source c') = None) →
       dict_get (Binary.binaries
                   (Binary.build_from_config fs clock (pre ++ c :: post)
                      output_path).1) k = None.
Proof.
  intros Hsrc Hpre. unfold Binary.build_from_config. split.
  - destruct (binary_add_configured_first fs clock c post src Hsrc pre 0%nat
                (Binary.init output_path) eq_refl Hpre) as (m & Hget & Hm).
    destruct (Binary.add_configured _ _ _ _ _) as [tick b]. by exists m.
  - intros k Hk.
    pose proof (binary_add_configured_absent fs clock (pre ++ c :: post) k Hk
                  0%nat (Binary.init output_path) eq_refl) as Hnone.
    by destruct (Binary.add_configured _ _ _ _ _) as [tick b].
Qed.

Lemma binary_build_from_config_first_wins_witness :
  (∃ m,
    dict_get (Binary.binaries
                (Binary.build_from_config Sample.fs (λ _, "2024-01-01T00:00:00")
                   ([] ++ Binary.mkBinaryConfig "t" "/src/a" None (Some "1.0.0")
                            None None None None None
                       :: [Binary.mkBinaryConfig "t" "/src/b" None (Some "2.0.0")
                             None None None None None])
                   "bin.blob").1)
      "t" = Some m ∧
    Binary.key m = "t" ∧
    Binary.version m = "1.0.0" ∧
    Binary.description m = "" ∧
    Binary.provides m = [] ∧
    Binary.dependencies m = Some [] ∧
    Binary.env_vars m = [] ∧
    Binary.architecture m = "x86_64" ∧
    Binary.os_type m = "linux" ∧
    Binary.size m = len (tar_pack "t" Sample.tree_a) ∧
    Binary.checksum m = sha256_hexdigest (tar_pack "t" Sample.tree_a)) ∧
  ∀ k, (∀ c', c' ∈ [] ++ Binary.mkBinaryConfig "t" "/src/a" None (Some "1.0.0")
                            None None None None None
                       :: [Binary.mkBinaryConfig "t" "/src/b" None (Some "2.0.0")
                             None None None None None] →
              Binary.bc_key c' = k → Sample.fs (Binary.bc_source c') = None) →
       dict_get (Binary.binaries
                   (Binary.build_from_config Sample.fs
                      (λ _, "2024-01-01T00:00:00")
                      ([] ++ Binary.mkBinaryConfig "t" "/src/a" None
                               (Some "1.0.0") None None None None None
                          :: [Binary.mkBinaryConfig "t" "/src/b" None
                                (Some "2.0.0") None None None None None])
                      "bin.blob").1) k = None.
Proof.
  refine (binary_build_from_config_first_wins Sample.fs
            (λ _, "2024-01-01T00:00:00") []
            [Binary.mkBinaryConfig "t" "/src/b" None (Some "2.0.0")
               None None None None None]
            (Binary.mkBinaryConfig "t" "/src/a" None (Some "1.0.0")
               None None None None None)
            Sample.tree_a "bin.blob" _ _).
  - reflexivity.
  - by intros c' ?%elem_of_nil.
Defined.

(** X15.  [build_from_config] of [app-blob-builder.py] when a key occurs
    more than once in the configuration: entries whose path does not exist
    are skipped, and [add_application] replaces the entry of a key that is
    already in the index, so the entry recorded for a key is made from the
    last configuration entry with that key whose path exists, with the key
    as default name and 1.0.0 as default version.  A key whose paths are
    all missing is not in the index. *)
Theorem appbuilder_build_from_config_last_wins `{Platform} (fs : filesystem)
    (clock : nat → string) (pre post : list AppBuilder.app_config)
    (c : AppBuilder.app_config) (src : source) (output_path : string) :
  fs (AppBuilder.ac_path c) = Some src →
  (∀ c', c' ∈ post → AppBuilder.ac_key c' = AppBuilder.ac_key c →
         fs (AppBuilder.ac_path c') = None) →
  (∃ m,
    dict_get (AppBuilder.apps
                (AppBuilder.build_from_config fs clock (pre ++ c :: post)
                   output_path).1)
      (AppBuilder.ac_key c) = Some m ∧
    AppBuilder.key m = AppBuilder.ac_key c ∧
    AppBuilder.name m = default (AppBuilder.ac_key c) (AppBuilder.ac_name c) ∧
    AppBuilder.version m = default "1.0.0" (AppBuilder.ac_version c) ∧
    AppBuilder.dependencies m = default [] (AppBuilder.ac_dependencies c) ∧
    AppBuilder.size m = len (tar_pack "." src) ∧
    AppBuilder.checksum m = sha256_hexdigest (tar_pack "." src)) ∧
  ∀ k, (∀ c', c' ∈ pre ++ c :: post → AppBuilder.ac_key c' = k →
              fs (AppBuilder.ac_path c') = None) →
       dict_get (AppBuilder.apps
                   (AppBuilder.build_from_config fs clock (pre ++ c :: post)
                      output_path).1) k = None.
Proof.
  intros Hsrc Hpost. unfold AppBuilder.build_from_config. split.
  - destruct (appbuilder_add_configured_last fs clock c post src Hsrc Hpost pre
                0%nat (AppBuilder.init output_path)) as (m & Hget & Hm).
    destruct (AppBuilder.add_configured _ _ _ _ _) as [tick b]. by exists m.
  - intros k Hk.
    pose proof (appbuilder_add_configured_absent fs clock (pre ++ c :: post) k
                  Hk 0%nat (AppBuilder.init output_path) eq_refl) as Hnone.
    by destruct (AppBuilder.add_configured _ _ _ _ _) as [tick b].
Qed.

Lemma appbuilder_build_from_config_last_wins_witness :
  (∃ m,
    dict_get (AppBuilder.apps
                (AppBuilder.build_from_config Sample.fs
                   (λ _, "2024-01-01T00:00:00")
                   ([AppBuilder.mkAppConfig "t" None "/src/a" (Some "1.0.0") None]
                    ++ AppBuilder.mkAppConfig "t" (Some "T") "/src/b"
                         (Some "2.0.0") None :: [])
                   "apps.blob").1)
      "t" = Some m ∧
    AppBuilder.key m = "t" ∧
    AppBuilder.name m = "T" ∧
    AppBuilder.version m = "2.0.0" ∧
    AppBuilder.dependencies m = [] ∧
    AppBuilder.size m = len (tar_pack "." Sample.tree_b) ∧
    AppBuilder.checksum m = sha256_hexdigest (tar_pack "." Sample.tree_b)) ∧
  ∀ k, (∀ c', c' ∈ [AppBuilder.mkAppConfig "t" None "/src/a" (Some "1.0.0") None]
                    ++ AppBuilder.mkAppConfig "t" (Some "T") "/src/b"
                         (Some "2.0.0") None :: [] →
              AppBuilder.ac_key c' = k → Sample.fs (AppBuilder.ac_path c') = None) →
       dict_get (AppBuilder.apps
                   (AppBuilder.build_from_config Sample.fs
                      (λ _, "2024-01-01T00:00:00")
                      ([AppBuilder.mkAppConfig "t" None "/src/a" (Some "1.0.0")
                          None]
                       ++ AppBuilder.mkAppConfig "t" (Some "T") "/src/b"
                            (Some "2.0.0") None :: [])
                      "apps.blob").1) k = None.
Proof.
  refine (appbuilder_build_from_config_last_wins Sample.fs
            (λ _, "2024-01-01T00:00:00")
            [AppBuilder.mkAppConfig "t" None "/src/a" (Some "1.0.0") None] []
            (AppBuilder.mkAppConfig "t" (Some "T") "/src/b" (Some "2.0.0") None)
            Sample.tree_b "apps.blob" _ _).
  - reflexivity.
  - by intros c' ?%elem_of_nil.
Defined.

(** X16.  [resolve_dependencies] of [app-blob-builder.py] (the resolver of
    the third tool) has the closure properties shown for the other two: it
    returns for every request, the result is the set of index keys reached
    from the request, resolving the result again gives the result, keys
    that are not in the index are warned about and skipped; and the
    returned list has no repeated key. *)
Theorem appbuilder_resolve_dependencies_closure `{Platform}
    (ex : AppBuilder.AppBlobExtractor) :
  closure_properties (AppBuilder.lookup_deps ex)
    (AppBuilder.resolve_dependencies ex) ∧
  ∀ keys, ∃ r w,
    AppBuilder.resolve_dependencies ex keys = Some (r, w) ∧ NoDup r.
Proof.
  split; [apply appbuilder_resolver_closure|].
  intros keys.
  pose proof (resolver_terminates _ _ (appbuilder_lookup_entries ex) keys 0)
    as (r & w & Hres & _ & Hnd).
  exists r, w. split; [|done].
  unfold AppBuilder.resolve_dependencies.
  pose proof (appbuilder_resolve_unfold ex keys 0) as Hu.
  rewrite !Nat.add_0_r in Hu. by rewrite Hu.
Qed.

(** ** Where extraction writes *)

(** X17.  [extract_application] (both tools) builds the destination as
    [os.path.join(target_dir, app_key)], and the key comes from the index
    of the blob file.  For a key that starts with [/] the join is the key
    itself: when the slice is intact the directory created and unpacked
    into is the absolute path [app_key], whatever [target_dir] is. *)
Theorem extract_application_absolute_key `{Platform} :
  (∀ (ex : AppBuilder.AppBlobExtractor) (file : bytes) (k dir : string)
     (verify : bool) (m : AppBuilder.AppMetadata) (c tar_data : bytes),
      starts_with_slash k = true →
      dict_get (AppBuilder.index ex) k = Some m →
      seek_read file (AppBuilder.data_offset ex + AppBuilder.offset m)
        (AppBuilder.compressed_size m) = Ret c →
      zlib_decompress c = Some tar_data →
      sha256_hexdigest tar_data = AppBuilder.checksum m →
      AppBuilder.extract_application ex file k dir verify =
        (if tar_readable tar_data then Ret true else Raise TarError,
         [Makedirs k; ExtractAll k tar_data])) ∧
  (∀ (ex : Manager.AppBlobExtractor) (file : bytes) (k dir : string)
     (verify : bool) (m : Manager.AppMetadata) (c tar_data : bytes),
      starts_with_slash k = true →
      dict_get (Manager.index ex) k = Some m →
      seek_read file (Manager.data_offset ex + Manager.offset m)
        (Manager.compressed_size m) = Ret c →
      zlib_decompress c = Some tar_data →
      sha256_hexdigest tar_data = Manager.checksum m →
      Manager.extract_application ex file k dir verify =
        (if tar_readable tar_data then Ret true else Raise TarError,
         [Makedirs k; ExtractAll k tar_data])).
Proof.
  split; intros ex file k dir verify m c tar Hk Hget Hread Hd Hsum.
  - unfold AppBuilder.extract_application, extract_entry, path_join.
    rewrite Hget, Hread, Hd, Hsum, Hk.
    rewrite bool_decide_eq_true_2 by done. rewrite andb_false_r.
    by destruct (tar_readable tar).
  - unfold Manager.extract_application, extract_entry, path_join.
    rewrite Hget, Hread, Hd, Hsum, Hk.
    rewrite bool_decide_eq_true_2 by done. rewrite andb_false_r.
    by destruct (tar_readable tar).
Qed.

(** ** Two formats under one magic tag *)
Section TwoFormats.
Context `{Platform}.

Lemma le_bytes_4_small (z : Z) :
  0 ≤ z < 65536 → le_bytes 4 z = le_bytes 2 z ++ [Byte.x00; Byte.x00].
Proof.
  intros Hz. cbn [le_bytes app].
  replace (z / 256 / 256) with 0
    by (rewrite Z.div_div by lia; symmetry; apply Z.div_small; lia).
  reflexivity.
Qed.

Lemma le_value_2_small (z : Z) :
  0 ≤ z < 65536 → le_value (le_bytes 2 z) = z.
Proof. intros Hz. rewrite le_value_le_bytes. apply Z.mod_small. simpl. lia. Qed.

Lemma pack_I_small bo (z : Z) (sz : bytes) :
  pack_I bo z = Some sz → z < 65536 →
  0 ≤ z ∧
  sz = ordered bo (le_bytes 2 z ++ [Byte.x00; Byte.x00]).
Proof.
  unfold pack_I, struct_pack. intros Hp Hz.
  destruct (0 <=? z) eqn:E0; [|done]. apply Z.leb_le in E0.
  destruct (z <? _); [|done]. injection Hp as <-.
  split; [done|]. by rewrite <- le_bytes_4_small.
Qed.

Lemma encode_length (s : string) : length (encode s) = String.length s.
Proof.
  unfold encode, list_byte_of_string.
  induction s as [|c s IH]; [done|]. simpl. by rewrite IH.
Qed.

(** The index of [app_blob_manager.py] has at least two bytes. *)
Lemma manager_index_length (b : Manager.AppBlobBuilder) :
  2 ≤ len (encode (json_dumps (Manager.index_json b))).
Proof.
  unfold json_dumps, Manager.index_json. rewrite dumps_at_dict.
  unfold len. rewrite encode_length. unfold newline_indent. str_len. lia.
Qed.

(** A text that starts with a NUL character is not JSON. *)
Lemma json_loads_nul (s : string) : json_loads (String "000" s) = None.
Proof. reflexivity. Qed.

(** The reader of [app-blob-builder.py] on a file of [app_blob_manager.py]. *)
Lemma appbuilder_reads_manager_file (b : Manager.AppBlobBuilder) (file : bytes) :
  Manager.build b = Written file →
  len (encode (json_dumps (Manager.index_json b))) < 65536 →
  AppBuilder.read_index file = Raise ValueError.
Proof.
  intros Hb Hsmall. pose proof (manager_index_length b) as Hlen.
  apply manager_build_layout in Hb. destruct Hb as (sz & Hsz & ->).
  destruct (pack_I_small _ _ _ Hsz Hsmall) as [_ ->].
  unfold AppBuilder.read_index.
  rewrite (take_app_length' Manager.MAGIC) by done.
  rewrite bool_decide_eq_true_2 by done. cbn [negb].
  rewrite (drop_app_length' Manager.MAGIC) by done.
  set (n := len (encode (json_dumps (Manager.index_json b)))) in *.
  assert (∃ v, unpack_H native_order
                 (take 2 (ordered native_order
                            (le_bytes 2 n ++ [Byte.x00; Byte.x00]) ++
                          encode (json_dumps (Manager.index_json b)) ++
                          getvalue (Manager.blob_data b))) = Some v ∧
               v ≠ 1) as (v & -> & Hv).
  { destruct native_order; cbn [ordered le_bytes app rev take].
    - exists n. split; [|lia].
      change [byte_of_Z n; byte_of_Z (n / 256)] with (le_bytes 2 n).
      unfold unpack_H, struct_unpack. rewrite decide_True by done.
      cbn [ordered]. by rewrite le_value_2_small by lia.
    - by exists 0. }
  by rewrite (proj2 (Z.eqb_neq v AppBuilder.VERSION)) by done.
Qed.

(** The reader of [app_blob_manager.py] on a file of [app-blob-builder.py],
    on a little-endian machine. *)
Lemma manager_reads_appbuilder_file (now : string)
    (b : AppBuilder.AppBlobBuilder) (file : bytes) (path : string) :
  native_order = LittleEndian →
  AppBuilder.build now b = Written file →
  len (encode (json_dumps (AppBuilder.index_json now b))) < 65536 →
  Manager._load_index path file = Raise ValueError.
Proof.
  intros Hle Hb Hsmall.
  apply appbuilder_build_layout in Hb. destruct Hb as (ver & sz & Hver & Hsz & ->).
  destruct (pack_I_small _ _ _ Hsz Hsmall) as [Hn ->].
  rewrite Hle in *. vm_compute in Hver. injection Hver as <-.
  unfold Manager._load_index.
  rewrite (take_app_length' AppBuilder.MAGIC) by done.
  rewrite bool_decide_eq_true_2 by done. cbn [negb].
  set (n := len (encode (json_dumps (AppBuilder.index_json now b)))) in *.
  set (rest := encode (json_dumps (AppBuilder.index_json now b)) ++
               getvalue (AppBuilder.blob_data b)).
  rewrite Hle. cbn [ordered le_bytes app].
  change (drop 8 (AppBuilder.MAGIC ++ ?l)) with l.
  change (drop 12 (AppBuilder.MAGIC ++ ?x1 :: ?x2 :: ?x3 :: ?x4 :: ?l)) with l.
  cbn [take]. unfold unpack_I, struct_unpack. rewrite decide_True by done.
  cbn [ordered le_value].
  pose proof (Z_of_byte_of_Z n) as H0. pose proof (Z_of_byte_of_Z (n / 256)) as H1.
  assert (0 ≤ n mod 256 < 256) as B0 by (apply Z.mod_pos_bound; lia).
  assert (0 ≤ (n / 256) mod 256 < 256) as B1 by (apply Z.mod_pos_bound; lia).
  rewrite H0, H1.
  change (Z_of_byte Byte.x01) with 1. change (Z_of_byte Byte.x00) with 0.
  destruct (Z.to_nat _) as [|k] eqn:Hk; [lia|].
  cbn [take].
  change (decode (Byte.x00 :: ?l)) with (String "000" (decode l)).
  by rewrite json_loads_nul.
Qed.
End TwoFormats.

(** X18.  The two application tools write the same magic tag [APPBLOB1]
    for two layouts.  A file written by [build] of [app_blob_manager.py]
    (index shorter than 64 KiB) is refused by the reader of
    [app-blob-builder.py]: it finds the low (or, on a big-endian machine,
    the high) half of the index length where it expects the version, which
    is never 1, so [load_existing] and [AppBlobExtractor] raise
    [ValueError] (unsupported version). *)
Theorem manager_file_refused_by_appbuilder `{Platform}
    (b : Manager.AppBlobBuilder) (file : bytes) (path : string) :
  Manager.build b = Written file →
  len (encode (json_dumps (Manager.index_json b))) < 65536 →
  take 8 file = AppBuilder.MAGIC ∧
  AppBuilder.load_existing path file = Raise ValueError ∧
  AppBuilder._load_index path file = Raise ValueError.
Proof.
  intros Hb Hsmall.
  pose proof (appbuilder_reads_manager_file b file Hb Hsmall) as Hread.
  split.
  - apply manager_build_layout in Hb. destruct Hb as (sz & Hsz & ->).
    by rewrite (take_app_length' Manager.MAGIC).
  - unfold AppBuilder.load_existing, AppBuilder._load_index. by rewrite Hread.
Qed.

Lemma manager_file_refused_by_appbuilder_witness :
  take 8 SampleRuns.manager_file = AppBuilder.MAGIC ∧
  AppBuilder.load_existing "apps.blob" SampleRuns.manager_file
    = Raise ValueError ∧
  AppBuilder._load_index "apps.blob" SampleRuns.manager_file = Raise ValueError.
Proof.
  refine (manager_file_refused_by_appbuilder SampleRuns.manager_a
            SampleRuns.manager_file "apps.blob" _ _).
  - vm_compute. reflexivity.
  - vm_compute. reflexivity.
Defined.

(** X19.  In the other direction, on a little-endian machine: a file
    written by [build] of [app-blob-builder.py] (index shorter than 64 KiB)
    passes the magic test of [AppBlobExtractor] of [app_blob_manager.py],
    which then takes the version and the low half of the index length for
    the index length, so that the bytes it decodes and gives to
    [json.loads] start with the two zero bytes of the length's high half:
    the extractor raises for every such file (the UTF-8 or the JSON
    decoding error, both of them [ValueError]s). *)
Theorem appbuilder_file_refused_by_manager `{Platform} (now : string)
    (b : AppBuilder.AppBlobBuilder) (file : bytes) (path : string) :
  native_order = LittleEndian →
  AppBuilder.build now b = Written file →
  len (encode (json_dumps (AppBuilder.index_json now b))) < 65536 →
  take 8 file = Manager.MAGIC ∧
  Manager._load_index path file = Raise ValueError.
Proof.
  intros Hle Hb Hsmall. split.
  - apply appbuilder_build_layout in Hb.
    destruct Hb as (ver & sz & Hver & Hsz & ->).
    by rewrite (take_app_length' AppBuilder.MAGIC).
  - by apply (manager_reads_appbuilder_file now b).
Qed.

Lemma appbuilder_file_refused_by_manager_witness :
  take 8 SampleRuns.appbuilder_file = Manager.MAGIC ∧
  Manager._load_index "apps.blob" SampleRuns.appbuilder_file = Raise ValueError.
Proof.
  refine (appbuilder_file_refused_by_manager "2024-01-02T09:00:00.000001"
            SampleRuns.appbuilder_a SampleRuns.appbuilder_file "apps.blob"
            _ _ _).
  - reflexivity.
  - vm_compute. reflexivity.
  - vm_compute. reflexivity.
Defined.

(** An index entry with the absolute key [/opt/app] in the sample
    container: extraction below [/out] unpacks into [/opt/app]. *)
Lemma extract_application_absolute_key_witness :
  Manager.extract_application
    (Manager.mkExtractor "apps.blob"
       [("/opt/app", Manager.mkAppMetadata "/opt/app" "App A" "1.0.0" 27 29 0 []
                       ["bin/run"; "README.md"] "27-2373")]
       (Manager.data_offset SampleRuns.manager_extractor))
    SampleRuns.manager_file "/opt/app" "/out" true =
  (if tar_readable (tar_pack "." Sample.tree_a) then Ret true
   else Raise TarError,
   [Makedirs "/opt/app"; ExtractAll "/opt/app" (tar_pack "." Sample.tree_a)]).
Proof.
  refine (proj2 extract_application_absolute_key
            (Manager.mkExtractor "apps.blob"
               [("/opt/app", Manager.mkAppMetadata "/opt/app" "App A" "1.0.0"
                               27 29 0 [] ["bin/run"; "README.md"] "27-2373")]
               (Manager.data_offset SampleRuns.manager_extractor))
            SampleRuns.manager_file "/opt/app" "/out" true _
            (zlib_compress (tar_pack "." Sample.tree_a))
            (tar_pack "." Sample.tree_a) _ _ _ _ _).
  - reflexivity.
  - reflexivity.
  - vm_compute. reflexivity.
  - reflexivity.
  - reflexivity.
Defined.

(** ** What [add_binary] lists *)



(** The entries of a store built by adds carry version 1 and the fields
    mode [replace] reads. *)
Lemma user_built_fields `{Platform} (b : UserData.UserDataBlobBuilder) :
  Builds.user_built b →
  ∀ k m, dict_get (UserData.users b) k = Some m →
         dict_get m "version" = Some (JInt 1) ∧
         is_Some (dict_get m "offset") ∧
         is_Some (dict_get m "compressed_size").
Proof.
  induction 1 as [p|fs now1 now2 b uid src descr quota b' _ IH Hadd];
    intros k m Hget; [done|].
  unfold UserData.add_user in Hadd.
  destruct (dict_in uid (UserData.users b)); [done|].
  destruct (fs src) as [tree|]; [|done]. injection Hadd as <-.
  cbn [UserData.users] in Hget.
  destruct (decide (uid = k)) as [->|Hne].
  - rewrite dict_get_set_eq in Hget. injection Hget as <-.
    split; [done|]. split; by eexists.
  - rewrite dict_get_set_ne in Hget by done. by apply (IH k).
Qed.

(** X21.  [userdata-blob-builder.py], [load_existing] then [update_user]
    (the steps of [cmd_update_user], which always loads the store first):
    for a store written by [build] after successful adds, an existing user
    and an existing source path, [update_user] in mode [replace] or [merge]
    returns [True], but the new compressed archive is written over the
    start of the loaded payload instead of after it, and the user's new
    entry records the old end of the payload as offset: its slice of the
    buffer is only what of the archive reaches past the old payload, never
    the archive itself when both are non-empty.  The version is 1 after
    [replace] and 2 after [merge]. *)
Theorem userdata_update_after_load_overwrites `{Platform}
    (b : UserData.UserDataBlobBuilder) (now : string) (file : bytes)
    (path : string) (fs : filesystem) (now1 now2 uid p mode : string)
    (src : source) (meta : UserData.user_meta) :
  Builds.user_built b →
  UserData.build now b = Written file →
  dict_get (UserData.users b) uid = Some meta →
  fs p = Some src →
  mode = "replace" ∨ mode = "merge" →
  ∃ b1 b2 m payload c,
    payload = getvalue (UserData.blob_data b) ∧
    c = zlib_compress (tar_pack "." src) ∧
    UserData.load_existing path file = Ret b1 ∧
    UserData.update_user fs now1 now2 b1 uid p mode = (Ret true, b2) ∧
    getvalue (UserData.blob_data b2) = c ++ drop (length c) payload ∧
    dict_get (UserData.users b2) uid = Some m ∧
    get_int m "offset" = Some (len payload) ∧
    get_int m "compressed_size" = Some (len c) ∧
    get_int m "version" = Some (if decide (mode = "merge") then 2 else 1) ∧
    payload_slice (getvalue (UserData.blob_data b2)) (len payload) (len c)
      = drop (length payload) c ∧
    (payload ≠ [] → c ≠ [] →
     payload_slice (getvalue (UserData.blob_data b2)) (len payload) (len c)
       ≠ c).
Proof.
  intros Hbuilt Hb Hget Hsrc Hmode.
  destruct (user_built_wf b Hbuilt) as [Hnd Hwf].
  destruct (user_built_fields b Hbuilt uid meta Hget) as (Hv & [o Ho] & [z Hz]).
  assert (dict_in uid (dict_del (UserData.users b) uid) = false) as Hdel
    by apply dict_in_false, dict_get_del_eq.
  assert (∀ c : bytes,
            getvalue (UserData.blob_data b) ≠ [] → c ≠ [] →
            drop (length (getvalue (UserData.blob_data b))) c ≠ c) as Hne.
  { intros c Hp Hc. apply drop_proper_suffix; [|done].
    destruct (getvalue (UserData.blob_data b)); [done|simpl; lia]. }
  pose proof (userdata_load_existing_build now b file path Hnd Hwf Hb) as Hload.
  destruct Hmode as [->| ->].
  - eexists _, _, _, _, _. split; [reflexivity|]. split; [reflexivity|].
    split; [exact Hload|].
    unfold UserData.update_user. cbn [UserData.users]. rewrite Hget.
    rewrite decide_True by done. rewrite Ho, Hz.
    unfold UserData.add_user, UserData.del_user.
    cbn [UserData.users UserData.blob_data UserData.current_offset
         UserData.output_path].
    rewrite Hdel, Hsrc, bio_write_at_start.
    split; [reflexivity|]. cbn [UserData.blob_data UserData.users getvalue].
    rewrite dict_get_set_eq, payload_slice_overwritten.
    split_and!; try done. by apply Hne.
  - eexists _, _, _, _, _. split; [reflexivity|]. split; [reflexivity|].
    split; [exact Hload|].
    unfold UserData.update_user. cbn [UserData.users]. rewrite Hget.
    rewrite decide_False by done. rewrite decide_True by done.
    unfold UserData.add_user, UserData.del_user.
    cbn [UserData.users UserData.blob_data UserData.current_offset
         UserData.output_path].
    rewrite Hdel, Hsrc, bio_write_at_start.
    cbn [UserData.users]. rewrite dict_get_set_eq.
    unfold UserData.version_counter. rewrite Hv. cbn [default UserData.py_succ].
    split; [reflexivity|]. cbn [UserData.blob_data UserData.users getvalue].
    rewrite dict_get_set_eq, payload_slice_overwritten.
    split_and!; try done. by apply Hne.
Qed.

Lemma userdata_update_after_load_overwrites_witness :
  ∃ b1 b2 m payload c,
    payload = getvalue (UserData.blob_data SampleRuns.users_ab) ∧
    c = zlib_compress (tar_pack "." Sample.tree_b) ∧
    UserData.load_existing "users.blob" SampleRuns.users_file = Ret b1 ∧
    UserData.update_user Sample.fs "2024-01-03T10:00:00.000001"
      "2024-01-03T10:00:00.000002" b1 "alice" "/src/b" "merge" = (Ret true, b2) ∧
    getvalue (UserData.blob_data b2) = c ++ drop (length c) payload ∧
    dict_get (UserData.users b2) "alice" = Some m ∧
    get_int m "offset" = Some (len payload) ∧
    get_int m "compressed_size" = Some (len c) ∧
    get_int m "version" = Some (if decide ("merge" = "merge") then 2 else 1) ∧
    payload_slice (getvalue (UserData.blob_data b2)) (len payload) (len c)
      = drop (length payload) c ∧
    (payload ≠ [] → c ≠ [] →
     payload_slice (getvalue (UserData.blob_data b2)) (len payload) (len c)
       ≠ c).
Proof.
  refine (userdata_update_after_load_overwrites SampleRuns.users_ab
            "2024-01-02T09:00:00.000001" SampleRuns.users_file "users.blob"
            Sample.fs "2024-01-03T10:00:00.000001" "2024-01-03T10:00:00.000002"
            "alice" "/src/b" "merge" Sample.tree_b _ _ _ _ _ _).
  - exact sample_users_ab_built.
  - vm_compute. reflexivity.
  - reflexivity.
  - reflexivity.
  - by right.
Defined.
